(** * Smart Class Companion: access rules and business rules

    A shallow embedding of [core/validators.py], [core/models.py],
    [core/forms.py], [core/decorators.py] and the mutating views of
    [core/views.py], with the properties of the specification stated over it.

    Conventions.
    - Python [str] values are [string]s; [None] is [option]'s [None].
    - Python [int] values and timestamps are [Z]; [timezone.now()] reads the
      clock of the environment [Env] a request runs in.
    - A table is the list of its rows in insertion order; a row carries its
      primary key. The constraints the models declare ([unique],
      [unique_together], a column that is not nullable) are checked when a
      row is written; a foreign key is followed by looking its target up.
    - An operation on the database takes the database and returns an
      outcome together with the database it leaves behind. *)

From Stdlib Require Import ZArith List String Ascii Bool Lia PeanoNat.
From Stdlib Require Import DecimalString.
Import ListNotations.
Open Scope string_scope.
Open Scope Z_scope.

Set Implicit Arguments.

(** ** Exceptions and results *)

(** [Http404] is what [get_object_or_404] raises (the framework answers it
    with a 404 page); the others reach the client as a server error unless
    the source catches them. *)
Inductive exn : Type :=
| ValidationError (message : string)
| ValueError
| IntegrityError
| DoesNotExist
| MultipleObjectsReturned
| TypeError
| Http404.

(** [Diverge]: a loop of the source did not end within the fuel given. *)
Inductive result (A : Type) : Type :=
| Ok (a : A)
| Raise (e : exn)
| Diverge.
Arguments Ok {A} a.
Arguments Raise {A} e.
Arguments Diverge {A}.

Definition bind {A B : Type} (r : result A) (k : A -> result B) : result B :=
  match r with
  | Ok a => k a
  | Raise e => Raise e
  | Diverge => Diverge
  end.

Notation "x <- r ;; k" := (bind r (fun x => k))
  (at level 100, r at next level, right associativity).

(** ** Strings, as the Python built-ins used by the source treat them *)

Module Str.

Definition is_upper (c : ascii) : bool :=
  ((65 <=? nat_of_ascii c) && (nat_of_ascii c <=? 90))%nat.

Definition is_lower (c : ascii) : bool :=
  ((97 <=? nat_of_ascii c) && (nat_of_ascii c <=? 122))%nat.

Definition is_digit (c : ascii) : bool :=
  ((48 <=? nat_of_ascii c) && (nat_of_ascii c <=? 57))%nat.

Definition lower_char (c : ascii) : ascii :=
  if is_upper c then ascii_of_nat (nat_of_ascii c + 32) else c.

Definition upper_char (c : ascii) : ascii :=
  if is_lower c then ascii_of_nat (nat_of_ascii c - 32) else c.

Fixpoint map (f : ascii -> ascii) (s : string) : string :=
  match s with
  | EmptyString => EmptyString
  | String c r => String (f c) (map f r)
  end.

(** [str.lower] and [str.upper] on the ASCII letters: what Python does
    to a string of ASCII characters. On other characters Python's maps do
    more (they turn the sharp s into SS and the dotless i into I), so a
    statement about [upper] or [lower] speaks about the program for ASCII
    input only. *)
Definition lower : string -> string := map lower_char.
Definition upper : string -> string := map upper_char.

(** [s.rfind(c)]: the highest index holding [c], or [-1]. *)
Fixpoint rfind_from (c : ascii) (s : string) (i : Z) (found : Z) : Z :=
  match s with
  | EmptyString => found
  | String d r => rfind_from c r (i + 1) (if Ascii.eqb d c then i else found)
  end.

Definition rfind (c : ascii) (s : string) : Z := rfind_from c s 0 (-1).

(** [s[i:i+1]] for [0 <= i]: the empty string past the end. *)
Definition at_ (s : string) (i : Z) : string :=
  substring (Z.to_nat i) 1 s.

(** [s[:i]] and [s[i:]] for [0 <= i]. *)
Definition upto (s : string) (i : Z) : string :=
  substring 0 (Z.to_nat i) s.
Definition from (s : string) (i : Z) : string :=
  substring (Z.to_nat i) (String.length s - Z.to_nat i) s.

Definition mem (s : string) (l : list string) : bool :=
  existsb (String.eqb s) l.

(** [str(n)], as an f-string formats an integer. *)
Definition of_int (n : Z) : string := NilZero.string_of_int (Z.to_int n).

End Str.

(** ** [os.path.splitext] (POSIX flavour: separator [/], no alternative
    separator, extension separator [.]) *)

(** The loop of [genericpath._splitext] that skips the leading dots of the
    file name: [fuel] bounds the number of iterations, which is at most
    [dotIndex - filenameIndex]. *)
Fixpoint splitext_loop (fuel : nat) (p : string) (filenameIndex dotIndex : Z)
  : string * string :=
  match fuel with
  | O => (p, "")
  | S fuel' =>
      if filenameIndex <? dotIndex then
        if negb (String.eqb (Str.at_ p filenameIndex) ".")
        then (Str.upto p dotIndex, Str.from p dotIndex)
        else splitext_loop fuel' p (filenameIndex + 1) dotIndex
      else (p, "")
  end.

Definition splitext (p : string) : string * string :=
  let sepIndex := Str.rfind "/"%char p in
  let dotIndex := Str.rfind "."%char p in
  if dotIndex >? sepIndex then
    splitext_loop (Z.to_nat (dotIndex - sepIndex)) p (sepIndex + 1) dotIndex
  else (p, "").

(** ** [core/validators.py] *)

(** An uploaded file, as far as the validators and the views read it. *)
Record UploadedFile : Type := {
  name : string;
  size : Z
}.

Definition valid_extensions : list string :=
  [".pdf"; ".doc"; ".docx"; ".ppt"; ".pptx"; ".txt"; ".zip"; ".jpg"; ".jpeg";
   ".png"].

Definition validate_file_extension (value : UploadedFile) : result unit :=
  let ext := snd (splitext (name value)) in
  if negb (Str.mem (Str.lower ext) valid_extensions)
  then Raise (ValidationError
    "Unsupported file extension. Allowed: PDF, Word, PowerPoint, Text, ZIP, Images.")
  else Ok tt.

Definition validate_file_size (value : UploadedFile) : result unit :=
  let limit := 10 * 1024 * 1024 in
  if size value >? limit
  then Raise (ValidationError "File too large. Size should not exceed 10 MiB.")
  else Ok tt.

(** The two validators run one after the other, as the lesson views call
    them inside one [try] block: the first error is the one raised. *)
Definition validate_file (f : UploadedFile) : result unit :=
  _ <- validate_file_extension f ;;
  validate_file_size f.

(** ** [core/models.py]: the tables

    One module per model, so that fields keep the names of the source.
    [id] is [None] on an instance that was never saved. A column declared
    [auto_now_add] is written by the insert, one declared [auto_now] by
    every save. *)

Module User.
Record t : Type := {
  id : Z;
  role : string
}.
End User.

Module Class_.
Record t : Type := {
  id : option Z;
  name : string;
  description : string;
  teacher : Z;
  class_code : string;
  subject : string;
  room : string;
  is_active : bool;
  created_at : Z;
  updated_at : Z
}.

Definition with_id (v : option Z) (c : t) : t :=
  {| id := v; name := name c; description := description c;
     teacher := teacher c; class_code := class_code c; subject := subject c;
     room := room c; is_active := is_active c; created_at := created_at c;
     updated_at := updated_at c |}.

Definition with_class_code (v : string) (c : t) : t :=
  {| id := id c; name := name c; description := description c;
     teacher := teacher c; class_code := v; subject := subject c;
     room := room c; is_active := is_active c; created_at := created_at c;
     updated_at := updated_at c |}.

Definition with_is_active (v : bool) (c : t) : t :=
  {| id := id c; name := name c; description := description c;
     teacher := teacher c; class_code := class_code c; subject := subject c;
     room := room c; is_active := v; created_at := created_at c;
     updated_at := updated_at c |}.

Definition with_created_at (v : Z) (c : t) : t :=
  {| id := id c; name := name c; description := description c;
     teacher := teacher c; class_code := class_code c; subject := subject c;
     room := room c; is_active := is_active c; created_at := v;
     updated_at := updated_at c |}.

Definition with_updated_at (v : Z) (c : t) : t :=
  {| id := id c; name := name c; description := description c;
     teacher := teacher c; class_code := class_code c; subject := subject c;
     room := room c; is_active := is_active c; created_at := created_at c;
     updated_at := v |}.

(** The fields of [ClassCreateForm]. *)
Record form : Type := {
  f_name : string;
  f_description : string;
  f_subject : string;
  f_room : string
}.

Definition with_form (f : form) (c : t) : t :=
  {| id := id c; name := f_name f; description := f_description f;
     teacher := teacher c; class_code := class_code c;
     subject := f_subject f; room := f_room f; is_active := is_active c;
     created_at := created_at c; updated_at := updated_at c |}.
End Class_.

Module Enrollment.
Record t : Type := {
  id : option Z;
  student : Z;
  class_enrolled : Z;
  enrolled_at : Z;
  is_active : bool
}.
End Enrollment.

Module Lesson.
Record t : Type := {
  id : option Z;
  class_lesson : Z;
  title : string;
  description : string;
  order : Z;
  is_published : bool;
  created_at : Z;
  updated_at : Z
}.

Definition with_updated_at (v : Z) (l : t) : t :=
  {| id := id l; class_lesson := class_lesson l; title := title l;
     description := description l; order := order l;
     is_published := is_published l; created_at := created_at l;
     updated_at := v |}.

(** The fields of [LessonForm]. *)
Record form : Type := {
  f_title : string;
  f_description : string;
  f_order : Z;
  f_is_published : bool
}.

Definition with_form (f : form) (l : t) : t :=
  {| id := id l; class_lesson := class_lesson l; title := f_title f;
     description := f_description f; order := f_order f;
     is_published := f_is_published f; created_at := created_at l;
     updated_at := updated_at l |}.
End Lesson.

Module LessonFile.
Record t : Type := {
  id : option Z;
  lesson : Z;
  file : string;
  file_name : string;
  file_size : Z;
  uploaded_at : Z
}.
End LessonFile.

Module Assignment.
Record t : Type := {
  id : option Z;
  class_assignment : Z;
  title : string;
  description : string;
  due_date : Z;
  max_points : Z;
  allow_late_submission : bool;
  is_published : bool;
  created_at : Z;
  updated_at : Z
}.

Definition with_updated_at (v : Z) (a : t) : t :=
  {| id := id a; class_assignment := class_assignment a; title := title a;
     description := description a; due_date := due_date a;
     max_points := max_points a;
     allow_late_submission := allow_late_submission a;
     is_published := is_published a; created_at := created_at a;
     updated_at := v |}.

(** The fields of [AssignmentForm]. *)
Record form : Type := {
  f_title : string;
  f_description : string;
  f_due_date : Z;
  f_max_points : Z;
  f_allow_late_submission : bool;
  f_is_published : bool
}.

Definition with_form (f : form) (a : t) : t :=
  {| id := id a; class_assignment := class_assignment a;
     title := f_title f; description := f_description f;
     due_date := f_due_date f; max_points := f_max_points f;
     allow_late_submission := f_allow_late_submission f;
     is_published := f_is_published f; created_at := created_at a;
     updated_at := updated_at a |}.
End Assignment.

Module Submission.
(** [points] is the one nullable column ([null=True]); [status] is [""]
    and [submitted_at] and [id] are [None] until the first save fills
    them. [feedback] holds what the instance attribute holds, which is
    [None] when the view assigns a missing POST key. *)
Record t : Type := {
  id : option Z;
  assignment : Z;
  student : Z;
  file : string;
  file_name : string;
  submitted_at : option Z;
  status : string;
  points : option Z;
  feedback : option string
}.

Definition with_id (v : option Z) (s : t) : t :=
  {| id := v; assignment := assignment s; student := student s;
     file := file s; file_name := file_name s;
     submitted_at := submitted_at s; status := status s;
     points := points s; feedback := feedback s |}.

Definition with_assignment (v : Z) (s : t) : t :=
  {| id := id s; assignment := v; student := student s;
     file := file s; file_name := file_name s;
     submitted_at := submitted_at s; status := status s;
     points := points s; feedback := feedback s |}.

Definition with_student (v : Z) (s : t) : t :=
  {| id := id s; assignment := assignment s; student := v;
     file := file s; file_name := file_name s;
     submitted_at := submitted_at s; status := status s;
     points := points s; feedback := feedback s |}.

Definition with_submitted_at (v : option Z) (s : t) : t :=
  {| id := id s; assignment := assignment s; student := student s;
     file := file s; file_name := file_name s;
     submitted_at := v; status := status s;
     points := points s; feedback := feedback s |}.

Definition with_status (v : string) (s : t) : t :=
  {| id := id s; assignment := assignment s; student := student s;
     file := file s; file_name := file_name s;
     submitted_at := submitted_at s; status := v;
     points := points s; feedback := feedback s |}.

Definition with_points (v : option Z) (s : t) : t :=
  {| id := id s; assignment := assignment s; student := student s;
     file := file s; file_name := file_name s;
     submitted_at := submitted_at s; status := status s;
     points := v; feedback := feedback s |}.

Definition with_feedback (v : option string) (s : t) : t :=
  {| id := id s; assignment := assignment s; student := student s;
     file := file s; file_name := file_name s;
     submitted_at := submitted_at s; status := status s;
     points := points s; feedback := v |}.

(** A Python instance of the model: the declared fields, and the one
    attribute the views set that is not a declared field. [save] writes
    the declared fields only. *)
Record instance : Type := {
  fields : t;
  graded_at : option Z
}.

Definition load (row : t) : instance :=
  {| fields := row; graded_at := None |}.

Definition on_fields (f : t -> t) (self : instance) : instance :=
  {| fields := f (fields self); graded_at := graded_at self |}.

Definition with_graded_at (v : option Z) (self : instance) : instance :=
  {| fields := fields self; graded_at := v |}.

(** What [SubmissionForm.save(commit=False)] builds from the cleaned
    file: every field the form does not list keeps its default. *)
Definition of_form (f : UploadedFile) : t :=
  {| id := None; assignment := 0; student := 0; file := name f;
     file_name := ""; submitted_at := None; status := "";
     points := None; feedback := Some "" |}.
End Submission.

Module Question.
Record t : Type := {
  id : option Z;
  lesson : Z;
  student : Z;
  question_text : string;
  created_at : Z;
  updated_at : Z
}.
End Question.

Module Answer.
Record t : Type := {
  id : option Z;
  question : Z;
  teacher : Z;
  answer_text : string;
  created_at : Z;
  updated_at : Z
}.
End Answer.

Module Announcement.
Record t : Type := {
  id : option Z;
  class_announcement : Z;
  teacher : Z;
  title : string;
  content : string;
  is_pinned : bool;
  created_at : Z;
  updated_at : Z
}.
End Announcement.

(** ** The database *)

Record DB : Type := {
  classes : list Class_.t;
  enrollments : list Enrollment.t;
  lessons : list Lesson.t;
  lesson_files : list LessonFile.t;
  assignments : list Assignment.t;
  submissions : list Submission.t;
  questions : list Question.t;
  answers : list Answer.t;
  announcements : list Announcement.t
}.

Definition with_classes (v : list Class_.t) (db : DB) : DB :=
  {| classes := v; enrollments := enrollments db; lessons := lessons db;
     lesson_files := lesson_files db; assignments := assignments db;
     submissions := submissions db; questions := questions db;
     answers := answers db; announcements := announcements db |}.

Definition with_enrollments (v : list Enrollment.t) (db : DB) : DB :=
  {| classes := classes db; enrollments := v; lessons := lessons db;
     lesson_files := lesson_files db; assignments := assignments db;
     submissions := submissions db; questions := questions db;
     answers := answers db; announcements := announcements db |}.

Definition with_lessons (v : list Lesson.t) (db : DB) : DB :=
  {| classes := classes db; enrollments := enrollments db; lessons := v;
     lesson_files := lesson_files db; assignments := assignments db;
     submissions := submissions db; questions := questions db;
     answers := answers db; announcements := announcements db |}.

Definition with_lesson_files (v : list LessonFile.t) (db : DB) : DB :=
  {| classes := classes db; enrollments := enrollments db;
     lessons := lessons db; lesson_files := v;
     assignments := assignments db; submissions := submissions db;
     questions := questions db; answers := answers db;
     announcements := announcements db |}.

Definition with_assignments (v : list Assignment.t) (db : DB) : DB :=
  {| classes := classes db; enrollments := enrollments db;
     lessons := lessons db; lesson_files := lesson_files db;
     assignments := v; submissions := submissions db;
     questions := questions db; answers := answers db;
     announcements := announcements db |}.

Definition with_submissions (v : list Submission.t) (db : DB) : DB :=
  {| classes := classes db; enrollments := enrollments db;
     lessons := lessons db; lesson_files := lesson_files db;
     assignments := assignments db; submissions := v;
     questions := questions db; answers := answers db;
     announcements := announcements db |}.

Definition with_questions (v : list Question.t) (db : DB) : DB :=
  {| classes := classes db; enrollments := enrollments db;
     lessons := lessons db; lesson_files := lesson_files db;
     assignments := assignments db; submissions := submissions db;
     questions := v; answers := answers db;
     announcements := announcements db |}.

Definition with_answers (v : list Answer.t) (db : DB) : DB :=
  {| classes := classes db; enrollments := enrollments db;
     lessons := lessons db; lesson_files := lesson_files db;
     assignments := assignments db; submissions := submissions db;
     questions := questions db; answers := v;
     announcements := announcements db |}.

(** ** The environment of a request

    [now] is the reading of the clock ([timezone.now()]) a request works
    with. [Submission.save] reads the clock itself, and the insert that
    follows reads it again for the [auto_now_add] column [submitted_at]:
    [now_insert] is that second reading.
    [rand i] is the [i]-th index drawn by the random generator; [fuel]
    bounds the number of rounds of the one unbounded loop of the source. *)
Record Env : Type := {
  now : Z;
  now_insert : Z;
  rand : nat -> nat;
  fuel : nat
}.

(** ** Operations on the database: state passing with exceptions *)

Definition M (A : Type) : Type := DB -> result A * DB.

Definition ret {A : Type} (a : A) : M A := fun db => (Ok a, db).

Definition raise {A : Type} (e : exn) : M A := fun db => (Raise e, db).

Definition lift {A : Type} (r : result A) : M A := fun db => (r, db).

Definition mbind {A B : Type} (m : M A) (k : A -> M B) : M B :=
  fun db =>
    match m db with
    | (Ok a, db') => k a db'
    | (Raise e, db') => (Raise e, db')
    | (Diverge, db') => (Diverge, db')
    end.

Definition query {A : Type} (f : DB -> A) : M A := fun db => (Ok (f db), db).

Definition modify (f : DB -> DB) : M unit := fun db => (Ok tt, f db).

Declare Scope db_scope.
Delimit Scope db_scope with db.
Notation "'let*' x ':=' m 'in' k" := (mbind m (fun x => k))
  (at level 10, x name, m at level 100, k at level 200) : db_scope.
Notation "m ';;;' k" := (mbind m (fun _ => k))
  (at level 100, right associativity) : db_scope.

(** ** The object manager *)

Definition is_pk (i : Z) (o : option Z) : bool :=
  match o with
  | Some j => i =? j
  | None => false
  end.

(** [Model.objects.get(...)]: exactly one row must match. *)
Definition get {A : Type} (p : A -> bool) (rows : list A) : result A :=
  match filter p rows with
  | [] => Raise DoesNotExist
  | [x] => Ok x
  | _ :: _ :: _ => Raise MultipleObjectsReturned
  end.

Definition get_object_or_404 {A : Type} (p : A -> bool) (rows : list A)
  : result A :=
  match get p rows with
  | Raise DoesNotExist => Raise Http404
  | r => r
  end.

(** [queryset.exists()] and [queryset.first()]. The source uses [first]
    on a filter that [unique_together] keeps to one row at most, and only
    asks whether there is one; the order of the rows plays no part. *)
Definition exists_ {A : Type} (p : A -> bool) (rows : list A) : bool :=
  existsb p rows.

Definition first {A : Type} (p : A -> bool) (rows : list A) : option A :=
  find p rows.

(** The key the database gives a new row: one past the highest in use. *)
Definition next_pk (ids : list (option Z)) : Z :=
  1 + fold_right (fun o m => match o with
                             | Some i => Z.max i m
                             | None => m
                             end) 0 ids.

Definition replace_row {A : Type} (pk : A -> option Z) (i : Z) (row : A)
  (rows : list A) : list A :=
  map (fun r => if is_pk i (pk r) then row else r) rows.

Definition delete_rows {A : Type} (p : A -> bool) (rows : list A) : list A :=
  filter (fun r => negb (p r)) rows.

(** ** [Class.generate_class_code] *)

(** [string.ascii_uppercase + string.digits] *)
Definition alphabet : string := "ABCDEFGHIJKLMNOPQRSTUVWXYZ0123456789".

Definition pick (population : string) (r : nat) : ascii :=
  match String.get (r mod String.length population) population with
  | Some c => c
  | None => "A"%char
  end.

(** [''.join(random.choices(population, k=k))], reading the draws from
    position [pos] on. A draw is an index into the population; taking it
    modulo the length keeps any [rand] in range. *)
Fixpoint choices (population : string) (rnd : nat -> nat) (pos k : nat)
  : string :=
  match k with
  | O => ""
  | S k' => String (pick population (rnd pos))
                   (choices population rnd (S pos) k')
  end.

Definition alnum_upper (c : ascii) : bool := Str.is_upper c || Str.is_digit c.

(** The [while True] loop, one round per unit of fuel. *)
Fixpoint generate_loop (n : nat) (rnd : nat -> nat) (pos : nat)
  (rows : list Class_.t) : result string :=
  match n with
  | O => Diverge
  | S n' =>
      let code := choices alphabet rnd pos 6 in
      if negb (exists_ (fun c => String.eqb (Class_.class_code c) code) rows)
      then Ok code
      else generate_loop n' rnd (pos + 6) rows
  end.

Definition generate_class_code (env : Env) : M string :=
  fun db => (generate_loop (fuel env) (rand env) 0 (classes db), db).

(** ** [Class.save] *)

(** [models.Model.save] for a class: an UPDATE when a row has the key, an
    INSERT otherwise. [class_code] is [unique=True]; [updated_at] is
    [auto_now], [created_at] is [auto_now_add]. *)
Definition Class_model_save (env : Env) (self : Class_.t) : M Class_.t :=
  fun db =>
    let rows := classes db in
    let code := Class_.class_code self in
    match Class_.id self with
    | Some i =>
        if exists_ (fun c => is_pk i (Class_.id c)) rows then
          let self := Class_.with_updated_at (now env) self in
          if exists_ (fun c => String.eqb (Class_.class_code c) code
                               && negb (is_pk i (Class_.id c))) rows
          then (Raise IntegrityError, db)
          else (Ok self, with_classes (replace_row Class_.id i self rows) db)
        else
          let self := Class_.with_created_at (now env)
                        (Class_.with_updated_at (now env) self) in
          if exists_ (fun c => String.eqb (Class_.class_code c) code) rows
          then (Raise IntegrityError, db)
          else (Ok self, with_classes (rows ++ [self]) db)
    | None =>
        let self := Class_.with_id (Some (next_pk (map Class_.id rows)))
                      (Class_.with_created_at (now env)
                         (Class_.with_updated_at (now env) self)) in
        if exists_ (fun c => String.eqb (Class_.class_code c) code) rows
        then (Raise IntegrityError, db)
        else (Ok self, with_classes (rows ++ [self]) db)
    end.

Definition Class_save (env : Env) (self : Class_.t) : M Class_.t :=
  (let* self :=
     (if String.eqb (Class_.class_code self) ""
      then let* code := generate_class_code env in
           ret (Class_.with_class_code code self)
      else ret self) in
   Class_model_save env self)%db.

(** ** [Submission.save] *)

Definition same_pair (s r : Submission.t) : bool :=
  (Submission.assignment r =? Submission.assignment s)
  && (Submission.student r =? Submission.student s).

(** [models.Model.save] for a submission. [unique_together] is
    [(assignment, student)]; [feedback] is not nullable; [submitted_at]
    is [auto_now_add]: the insert overwrites whatever the instance holds
    with its own reading of the clock. *)
Definition Submission_model_save (env : Env) (self : Submission.t)
  : M Submission.t :=
  fun db =>
    let rows := submissions db in
    let update i :=
      if exists_ (fun r => same_pair self r
                           && negb (is_pk i (Submission.id r))) rows
      then (Raise IntegrityError, db)
      else (Ok self,
            with_submissions (replace_row Submission.id i self rows) db) in
    let insert self :=
      let self := Submission.with_submitted_at (Some (now_insert env)) self in
      if exists_ (same_pair self) rows
      then (Raise IntegrityError, db)
      else (Ok self, with_submissions (rows ++ [self]) db) in
    match Submission.feedback self with
    | None => (Raise IntegrityError, db)
    | Some _ =>
        match Submission.id self with
        | Some i =>
            if exists_ (fun r => is_pk i (Submission.id r)) rows
            then update i
            else insert self
        | None =>
            insert (Submission.with_id
                      (Some (next_pk (map Submission.id rows))) self)
        end
    end.

(** [self.assignment]: the row the foreign key points to. *)
Definition Submission_assignment (self : Submission.t) : M Assignment.t :=
  fun db =>
    (get (fun a => is_pk (Submission.assignment self) (Assignment.id a))
         (assignments db), db).

(** [not self.pk]: [None] and [0] are the falsy keys. *)
Definition no_pk (o : option Z) : bool :=
  match o with
  | None => true
  | Some i => i =? 0
  end.

Definition Submission_save (env : Env) (self : Submission.instance)
  : M Submission.instance :=
  (* Set submitted_at if this is a new submission *)
  let self :=
    match Submission.submitted_at (Submission.fields self) with
    | None =>
        if no_pk (Submission.id (Submission.fields self))
        then Submission.on_fields
               (Submission.with_submitted_at (Some (now env))) self
        else self
    | Some _ => self
    end in
  (* Auto-determine status based on submission time *)
  (let* self :=
     (if String.eqb (Submission.status (Submission.fields self)) ""
      then
        let* a := Submission_assignment (Submission.fields self) in
        match Submission.submitted_at (Submission.fields self) with
        | None => raise TypeError
        | Some t =>
            if t <=? Assignment.due_date a
            then ret (Submission.on_fields
                        (Submission.with_status "ON_TIME") self)
            else ret (Submission.on_fields
                        (Submission.with_status "LATE") self)
        end
      else ret self) in
   let* row := Submission_model_save env (Submission.fields self) in
   ret (Submission.on_fields (fun _ => row) self))%db.

(** ** Requests and responses *)

Inductive url : Type :=
| login
| dashboard
| class_detail (class_id : Z)
| lesson_detail (lesson_id : Z)
| assignment_detail (assignment_id : Z).

Inductive level : Type := error | warning | success.

Inductive response : Type :=
| redirect (to : url)
| render (template : string) (form_errors : list string).

(** What a view hands back: the response and the messages it queued. *)
Record reply : Type := {
  resp : response;
  messages : list (level * string)
}.

Definition answer (r : response) (l : level) (text : string) : reply :=
  {| resp := r; messages := [(l, text)] |}.

Definition page (template : string) (form_errors : list string) : reply :=
  {| resp := render template form_errors; messages := [] |}.

(** [request.method] with the data a POST carries. For a model form the
    data is what the fields of the form cleaned, [None] when one of them
    refused its input; the checks written in the source come after. *)
Inductive http_method (P : Type) : Type :=
| GET
| POST (data : P).
Arguments GET {P}.
Arguments POST {P} data.

(** [request.user] is [None] for a visitor who is not logged in. *)
Record Request (P : Type) : Type := {
  user : option User.t;
  method : http_method P
}.

(** ** [core/decorators.py] *)

Definition View (P : Type) : Type := User.t -> http_method P -> M reply.

Definition teacher_required {P : Type} (view_func : View P)
  (request : Request P) : M reply :=
  match user request with
  | None =>
      ret (answer (redirect login) error
             "You must be logged in to access this page.")
  | Some u =>
      if negb (String.eqb (User.role u) "TEACHER")
      then ret (answer (redirect dashboard) error
                  "Access denied. This page is for teachers only.")
      else view_func u (method request)
  end.

Definition student_required {P : Type} (view_func : View P)
  (request : Request P) : M reply :=
  match user request with
  | None =>
      ret (answer (redirect login) error
             "You must be logged in to access this page.")
  | Some u =>
      if negb (String.eqb (User.role u) "STUDENT")
      then ret (answer (redirect dashboard) error
                  "Access denied. This page is for students only.")
      else view_func u (method request)
  end.

(** ** Following foreign keys and asking about enrollment *)

Definition Class_by_pk (i : Z) : M Class_.t :=
  fun db => (get (fun c => is_pk i (Class_.id c)) (classes db), db).

Definition Assignment_by_pk (i : Z) : M Assignment.t :=
  fun db => (get (fun a => is_pk i (Assignment.id a)) (assignments db), db).

(** [a != request.user] on a foreign key to a user compares the keys. *)
Definition is_user (u : User.t) (teacher : Z) : bool := teacher =? User.id u.

Definition enrollment_of (u : User.t) (c : Class_.t) (e : Enrollment.t)
  : bool :=
  (Enrollment.student e =? User.id u)
  && match Class_.id c with
     | Some i => Enrollment.class_enrolled e =? i
     | None => false
     end.

(** The double quote, for the messages that quote a name. *)
Definition dq : string := String (ascii_of_nat 34) "".

Definition quoted (s : string) : string := dq ++ s ++ dq.

(** ** [core/forms.py]: the checks written in the source *)

(** [JoinClassForm.clean_class_code]: [Ok None] stands for the
    [forms.ValidationError] the form catches and reports. *)
Definition clean_class_code (value : string) : M (option string) :=
  fun db =>
    let code := Str.upper value in
    match get (fun c => String.eqb (Class_.class_code c) code
                        && Class_.is_active c) (classes db) with
    | Ok _ => (Ok (Some code), db)
    | Raise DoesNotExist => (Ok None, db)
    | Raise e => (Raise e, db)
    | Diverge => (Diverge, db)
    end.

(** [SubmissionForm]: the validators of the [file] field all run, and the
    form is valid when none of them raised. *)
Definition SubmissionForm_is_valid (file : option UploadedFile)
  : option UploadedFile :=
  match file with
  | None => None
  | Some f =>
      match validate_file_extension f, validate_file_size f with
      | Ok _, Ok _ => Some f
      | _, _ => None
      end
  end.

(** ** [core/views.py]: classes *)

Definition Enrollment_create (env : Env) (u : User.t) (class_id : Z)
  : M Enrollment.t :=
  fun db =>
    let rows := enrollments db in
    let e := {| Enrollment.id := Some (next_pk (map Enrollment.id rows));
                Enrollment.student := User.id u;
                Enrollment.class_enrolled := class_id;
                Enrollment.enrolled_at := now env;
                Enrollment.is_active := true |} in
    if exists_ (fun r => (Enrollment.student r =? User.id u)
                         && (Enrollment.class_enrolled r =? class_id)) rows
    then (Raise IntegrityError, db)
    else (Ok e, with_enrollments (rows ++ [e]) db).

Definition join_class_view (env : Env) : View (option string) :=
  fun u method =>
    match method with
    | POST (Some value) =>
        (let* cleaned := clean_class_code value in
         match cleaned with
         | Some class_code =>
             let* class_obj :=
               query (fun db =>
                 get_object_or_404
                   (fun c => String.eqb (Class_.class_code c) class_code
                             && Class_.is_active c) (classes db)) in
             let* class_obj := lift class_obj in
             (* class_obj.id; a row read from the table has its key *)
             let* class_id :=
               lift (match Class_.id class_obj with
                     | Some i => Ok i
                     | None => Raise TypeError
                     end) in
             (* Check if already enrolled *)
             let* enrolled :=
               query (fun db =>
                 exists_ (enrollment_of u class_obj) (enrollments db)) in
             if (enrolled : bool)
             then ret (answer (redirect (class_detail class_id)) warning
                         "You are already enrolled in this class.")
             else
               Enrollment_create env u class_id ;;;
               ret (answer (redirect (class_detail class_id)) success
                      ("Successfully joined "
                         ++ quoted (Class_.name class_obj) ++ "!"))
         | None => ret (page "core/join_class.html" [])
         end)%db
    | POST None => ret (page "core/join_class.html" [])
    | GET => ret (page "core/join_class.html" [])
    end.

Definition join_class (env : Env) : Request (option string) -> M reply :=
  student_required (join_class_view env).

Definition owned_class (u : User.t) (class_id : Z) : M Class_.t :=
  fun db =>
    (get_object_or_404
       (fun c => is_pk class_id (Class_.id c)
                 && is_user u (Class_.teacher c)) (classes db), db).

Definition edit_class_view (env : Env) (class_id : Z)
  : View (option Class_.form) :=
  fun u method =>
    (let* class_obj := owned_class u class_id in
     match method with
     | POST (Some form) =>
         Class_save env (Class_.with_form form class_obj) ;;;
         ret (answer (redirect (class_detail class_id)) success
                "Class updated successfully!")
     | POST None => ret (page "core/edit_class.html" [])
     | GET => ret (page "core/edit_class.html" [])
     end)%db.

Definition edit_class (env : Env) (request : Request (option Class_.form))
  (class_id : Z) : M reply :=
  teacher_required (edit_class_view env class_id) request.

Definition delete_class_view (env : Env) (class_id : Z) : View unit :=
  fun u method =>
    (let* class_obj := owned_class u class_id in
     match method with
     | POST _ =>
         Class_save env (Class_.with_is_active false class_obj) ;;;
         ret (answer (redirect dashboard) success
                ("Class " ++ quoted (Class_.name class_obj)
                   ++ " has been archived."))
     | GET => ret (page "core/delete_class.html" [])
     end)%db.

Definition delete_class (env : Env) (request : Request unit) (class_id : Z)
  : M reply :=
  teacher_required (delete_class_view env class_id) request.

(** ** [core/views.py]: lessons *)

(** [models.Model.save] for a lesson; [updated_at] is [auto_now],
    [created_at] is [auto_now_add]. *)
Definition Lesson_save (env : Env) (self : Lesson.t) : M Lesson.t :=
  fun db =>
    let rows := lessons db in
    let self := Lesson.with_updated_at (now env) self in
    match Lesson.id self with
    | Some i =>
        if exists_ (fun l => is_pk i (Lesson.id l)) rows
        then (Ok self, with_lessons (replace_row Lesson.id i self rows) db)
        else (Ok self, with_lessons (rows ++ [self]) db)
    | None => (Ok self, with_lessons (rows ++ [self]) db)
    end.

Definition LessonFile_create (env : Env) (lesson_id : Z)
  (uploaded_file : UploadedFile) : M unit :=
  modify (fun db =>
    let rows := lesson_files db in
    with_lesson_files
      (rows ++ [{| LessonFile.id := Some (next_pk (map LessonFile.id rows));
                   LessonFile.lesson := lesson_id;
                   LessonFile.file := name uploaded_file;
                   LessonFile.file_name := name uploaded_file;
                   LessonFile.file_size := size uploaded_file;
                   LessonFile.uploaded_at := now env |}]) db).

Fixpoint create_files (env : Env) (lesson_id : Z) (files : list UploadedFile)
  : M unit :=
  match files with
  | [] => ret tt
  | f :: rest =>
      (LessonFile_create env lesson_id f ;;; create_files env lesson_id rest)%db
  end.

(** The loop that validates the uploaded files: the errors added to the
    form, in order; [file_errors] is set when the list is not empty. *)
Fixpoint file_errors_of (files : list UploadedFile) : list string :=
  match files with
  | [] => []
  | f :: rest =>
      match validate_file f with
      | Raise (ValidationError message) =>
          ("File '" ++ name f ++ "': " ++ message) :: file_errors_of rest
      | _ => file_errors_of rest
      end
  end.

(** [lesson.delete()]: the files and questions of the lesson go with it
    ([on_delete=CASCADE]), and so do the answers to those questions. *)
Definition Lesson_delete (lesson_id : Z) : M unit :=
  modify (fun db =>
    let gone_q q := Question.lesson q =? lesson_id in
    let gone_a a :=
      exists_ (fun q => gone_q q && is_pk (Answer.question a) (Question.id q))
              (questions db) in
    with_lessons
      (delete_rows (fun l => is_pk lesson_id (Lesson.id l)) (lessons db))
      (with_lesson_files
         (delete_rows (fun f => LessonFile.lesson f =? lesson_id)
                      (lesson_files db))
         (with_questions (delete_rows gone_q (questions db))
            (with_answers (delete_rows gone_a (answers db)) db)))).

Definition lesson_or_404 (lesson_id : Z) : M Lesson.t :=
  fun db =>
    (get_object_or_404 (fun l => is_pk lesson_id (Lesson.id l)) (lessons db),
     db).

Definition edit_lesson_view (env : Env) (lesson_id : Z)
  : View (option Lesson.form * list UploadedFile) :=
  fun u method =>
    (let* lesson := lesson_or_404 lesson_id in
     let* class_obj := Class_by_pk (Lesson.class_lesson lesson) in
     (* Check ownership *)
     if negb (is_user u (Class_.teacher class_obj))
     then ret (answer (redirect dashboard) error "Access denied.")
     else
       match method with
       | POST (Some form, files) =>
           (* Validate files first *)
           let errors := file_errors_of files in
           match errors with
           | [] =>
               Lesson_save env (Lesson.with_form form lesson) ;;;
               (* Handle new file uploads *)
               create_files env lesson_id files ;;;
               ret (answer (redirect (lesson_detail lesson_id)) success
                      "Lesson updated successfully!")
           | _ :: _ => ret (page "core/edit_lesson.html" errors)
           end
       | POST (None, _) => ret (page "core/edit_lesson.html" [])
       | GET => ret (page "core/edit_lesson.html" [])
       end)%db.

Definition edit_lesson (env : Env)
  (request : Request (option Lesson.form * list UploadedFile))
  (lesson_id : Z) : M reply :=
  teacher_required (edit_lesson_view env lesson_id) request.

Definition delete_lesson_view (lesson_id : Z) : View unit :=
  fun u method =>
    (let* lesson := lesson_or_404 lesson_id in
     let* class_obj := Class_by_pk (Lesson.class_lesson lesson) in
     let class_id := Lesson.class_lesson lesson in
     (* Check ownership *)
     if negb (is_user u (Class_.teacher class_obj))
     then ret (answer (redirect dashboard) error "Access denied.")
     else
       match method with
       | POST _ =>
           Lesson_delete lesson_id ;;;
           ret (answer (redirect (class_detail class_id)) success
                  ("Lesson " ++ quoted (Lesson.title lesson)
                     ++ " has been deleted."))
       | GET => ret (page "core/delete_lesson.html" [])
       end)%db.

Definition delete_lesson (request : Request unit) (lesson_id : Z) : M reply :=
  teacher_required (delete_lesson_view lesson_id) request.

(** ** [core/views.py]: assignments *)

(** [models.Model.save] for an assignment. *)
Definition Assignment_save (env : Env) (self : Assignment.t)
  : M Assignment.t :=
  fun db =>
    let rows := assignments db in
    let self := Assignment.with_updated_at (now env) self in
    match Assignment.id self with
    | Some i =>
        if exists_ (fun a => is_pk i (Assignment.id a)) rows
        then (Ok self,
              with_assignments (replace_row Assignment.id i self rows) db)
        else (Ok self, with_assignments (rows ++ [self]) db)
    | None => (Ok self, with_assignments (rows ++ [self]) db)
    end.

(** [assignment.delete()]: its submissions go with it. *)
Definition Assignment_delete (assignment_id : Z) : M unit :=
  modify (fun db =>
    with_assignments
      (delete_rows (fun a => is_pk assignment_id (Assignment.id a))
                   (assignments db))
      (with_submissions
         (delete_rows (fun s => Submission.assignment s =? assignment_id)
                      (submissions db)) db)).

Definition assignment_or_404 (assignment_id : Z) : M Assignment.t :=
  fun db =>
    (get_object_or_404 (fun a => is_pk assignment_id (Assignment.id a))
                       (assignments db), db).

Definition edit_assignment_view (env : Env) (assignment_id : Z)
  : View (option Assignment.form) :=
  fun u method =>
    (let* assignment := assignment_or_404 assignment_id in
     let* class_obj := Class_by_pk (Assignment.class_assignment assignment) in
     (* Check ownership *)
     if negb (is_user u (Class_.teacher class_obj))
     then ret (answer (redirect dashboard) error "Access denied.")
     else
       match method with
       | POST (Some form) =>
           Assignment_save env (Assignment.with_form form assignment) ;;;
           ret (answer (redirect (assignment_detail assignment_id)) success
                  "Assignment updated successfully!")
       | POST None => ret (page "core/edit_assignment.html" [])
       | GET => ret (page "core/edit_assignment.html" [])
       end)%db.

Definition edit_assignment (env : Env)
  (request : Request (option Assignment.form)) (assignment_id : Z)
  : M reply :=
  teacher_required (edit_assignment_view env assignment_id) request.

Definition delete_assignment_view (assignment_id : Z) : View unit :=
  fun u method =>
    (let* assignment := assignment_or_404 assignment_id in
     let* class_obj := Class_by_pk (Assignment.class_assignment assignment) in
     let class_id := Assignment.class_assignment assignment in
     (* Check ownership *)
     if negb (is_user u (Class_.teacher class_obj))
     then ret (answer (redirect dashboard) error "Access denied.")
     else
       match method with
       | POST _ =>
           Assignment_delete assignment_id ;;;
           ret (answer (redirect (class_detail class_id)) success
                  ("Assignment " ++ quoted (Assignment.title assignment)
                     ++ " has been deleted."))
       | GET => ret (page "core/delete_assignment.html" [])
       end)%db.

Definition delete_assignment (request : Request unit) (assignment_id : Z)
  : M reply :=
  teacher_required (delete_assignment_view assignment_id) request.

(** ** [core/views.py]: submissions *)

Definition submit_assignment_view (env : Env) (assignment_id : Z)
  : View (option UploadedFile) :=
  fun u method =>
    (let* assignment :=
       query (fun db =>
         get_object_or_404
           (fun a => is_pk assignment_id (Assignment.id a)
                     && Assignment.is_published a) (assignments db)) in
     let* assignment := lift assignment in
     let* class_obj := Class_by_pk (Assignment.class_assignment assignment) in
     (* Check enrollment *)
     let* enrolled :=
       query (fun db =>
         exists_ (fun e => enrollment_of u class_obj e
                           && Enrollment.is_active e) (enrollments db)) in
     if negb enrolled
     then ret (answer (redirect dashboard) error
                 "You are not enrolled in this class.")
     else
       (* Check if already submitted *)
       let* existing_submission :=
         query (fun db =>
           first (fun s => (Submission.assignment s =? assignment_id)
                           && (Submission.student s =? User.id u))
                 (submissions db)) in
       match existing_submission,
             Assignment.allow_late_submission assignment with
       | Some _, false =>
           ret (answer (redirect (assignment_detail assignment_id)) warning
                  "You have already submitted this assignment.")
       | _, _ =>
           match method with
           | POST file =>
               match SubmissionForm_is_valid file with
               | Some f =>
                   let submission :=
                     Submission.with_student (User.id u)
                       (Submission.with_assignment assignment_id
                          (Submission.of_form f)) in
                   Submission_save env (Submission.load submission) ;;;
                   ret (answer (redirect (assignment_detail assignment_id))
                          success "Assignment submitted successfully!")
               | None => ret (page "core/submit_assignment.html" [])
               end
           | GET => ret (page "core/submit_assignment.html" [])
           end
       end)%db.

Definition submit_assignment (env : Env)
  (request : Request (option UploadedFile)) (assignment_id : Z) : M reply :=
  student_required (submit_assignment_view env assignment_id) request.

(** The two keys [grade_submission] reads from [request.POST];
    [POST.get] gives [None] for a key that is not there. *)
Record GradeForm : Type := {
  post_points : option string;
  post_feedback : option string
}.

(** [int(s)] of Python on a string of ASCII characters: blanks around
    (space, tab, line feed, vertical tab, form feed, carriage return), an
    optional sign, decimal digits, single underscores between digits.
    [None] stands for [ValueError]. *)
Module PyInt.

Definition is_space (c : ascii) : bool :=
  let n := nat_of_ascii c in
  ((n =? 32) || ((9 <=? n) && (n <=? 13)))%nat.

Fixpoint lstrip (s : string) : string :=
  match s with
  | String c r => if is_space c then lstrip r else s
  | EmptyString => EmptyString
  end.

Fixpoint rev_onto (s acc : string) : string :=
  match s with
  | String c r => rev_onto r (String c acc)
  | EmptyString => acc
  end.

Definition strip (s : string) : string :=
  rev_onto (lstrip (rev_onto (lstrip s) "")) "".

Fixpoint digits (s : string) (acc : Z) (after_digit : bool) : option Z :=
  match s with
  | EmptyString => if after_digit then Some acc else None
  | String c r =>
      if Str.is_digit c
      then digits r (10 * acc + Z.of_nat (nat_of_ascii c - 48)) true
      else if Ascii.eqb c "_" && after_digit then digits r acc false
      else None
  end.

Definition int (s : string) : option Z :=
  match strip s with
  | String "-" r => option_map Z.opp (digits r 0 false)
  | String "+" r => digits r 0 false
  | r => digits r 0 false
  end.

End PyInt.

Section Grading.

(** The built-in [int] applied to a string; [None] is [ValueError].
    [PyInt.int] is the instance used to run the view. *)
Variable int : string -> option Z.

Definition submission_or_404 (submission_id : Z) : M Submission.t :=
  fun db =>
    (get_object_or_404 (fun s => is_pk submission_id (Submission.id s))
                       (submissions db), db).

Definition grade_submission_view (env : Env) (submission_id : Z)
  : View GradeForm :=
  fun u method =>
    (let* row := submission_or_404 submission_id in
     let submission := Submission.load row in
     let* assignment := Assignment_by_pk (Submission.assignment row) in
     let* class_obj :=
       Class_by_pk (Assignment.class_assignment assignment) in
     (* Check ownership *)
     if negb (is_user u (Class_.teacher class_obj))
     then ret (answer (redirect dashboard) error "Access denied.")
     else
       let form := page "core/grade_submission.html" [] in
       let failed text :=
         ret {| resp := resp form; messages := [(error, text)] |} in
       match method with
       | POST data =>
           let feedback := post_feedback data in
           match post_points data with
           | None | Some "" => failed "Please enter a valid score."
           | Some text =>
               match int text with
               | None => failed "Please enter a valid number for points."
               | Some points =>
                   let max_points := Assignment.max_points assignment in
                   if (points <? 0) || (points >? max_points)
                   then failed ("Points must be between 0 and "
                                  ++ Str.of_int max_points)
                   else
                     let submission :=
                       Submission.on_fields
                         (Submission.with_points (Some points))
                         submission in
                     let submission :=
                       Submission.on_fields
                         (Submission.with_feedback feedback) submission in
                     let submission :=
                       Submission.with_graded_at (Some (now env))
                         submission in
                     Submission_save env submission ;;;
                     ret (answer
                            (redirect
                               (assignment_detail
                                  (Submission.assignment row)))
                            success "Submission graded successfully!")
               end
           end
       | GET => ret form
       end)%db.

Definition grade_submission (env : Env) (request : Request GradeForm)
  (submission_id : Z) : M reply :=
  teacher_required (grade_submission_view env submission_id) request.

End Grading.

(** ** Words for the statements

    What the ownership check of a lesson or assignment view answers. *)
Definition denied : reply := answer (redirect dashboard) error "Access denied.".

(**
    The class a submitted code stands for: the active class whose code is
    the upper-cased input. *)
Definition class_of_code (db : DB) (value : string) : result Class_.t :=
  get (fun c => String.eqb (Class_.class_code c) (Str.upper value)
                && Class_.is_active c) (classes db).

(** The teacher [u] grades submission [submission_id]: the submission is
    [row], its assignment is [a], and [u] teaches the class of [a]. *)
Definition grades (u : User.t) (submission_id : Z) (db : DB)
  (row : Submission.t) (a : Assignment.t) : Prop :=
  User.role u = "TEACHER"
  /\ submission_or_404 submission_id db = (Ok row, db)
  /\ Assignment_by_pk (Submission.assignment row) db = (Ok a, db)
  /\ exists c, Class_by_pk (Assignment.class_assignment a) db = (Ok c, db)
               /\ Class_.teacher c = User.id u.

(** The points a grading form carries are not acceptable: missing, empty,
    not a number for [int], or a number outside [0, max_points]. *)
Definition bad_points (int : string -> option Z) (max_points : Z)
  (data : GradeForm) : Prop :=
  match post_points data with
  | None => True
  | Some text =>
      text = ""
      \/ match int text with
         | None => True
         | Some n => n < 0 \/ max_points < n
         end
  end.

(** What a row written by [Submission.save] always has. *)
Definition stored (row : Submission.t) : Prop :=
  Submission.status row <> "" /\ Submission.submitted_at row <> None.

(** [unique_together = ['assignment', 'student']] holds in the table. *)
Definition one_per_pair (db : DB) : Prop :=
  forall r r', In r (submissions db) -> In r' (submissions db) ->
               same_pair r r' = true -> Submission.id r' = Submission.id r.

(** The grading page with one error message. *)
Definition grading_failed (text : string) : reply :=
  {| resp := render "core/grade_submission.html" [];
     messages := [(error, text)] |}.



(** Every table but the table of classes is the same in [db] and [db']. *)
Definition same_but_classes (db db' : DB) : Prop :=
  enrollments db' = enrollments db
  /\ lessons db' = lessons db
  /\ lesson_files db' = lesson_files db
  /\ assignments db' = assignments db
  /\ submissions db' = submissions db
  /\ questions db' = questions db
  /\ answers db' = answers db
  /\ announcements db' = announcements db.

(** The primary key of the class table identifies the row. *)
Definition class_pk_unique (db : DB) : Prop :=
  forall c1 c2, In c1 (classes db) -> In c2 (classes db) ->
                Class_.id c1 = Class_.id c2 -> c1 = c2.

(** ** A small school, to run the operations on

    Two teachers and a student; an active class of the first teacher and
    an archived class of the second; the student is enrolled in the first
    class and was removed from the second. *)
Module Sample.

Definition teacher1 : User.t := {| User.id := 1; User.role := "TEACHER" |}.
Definition teacher2 : User.t := {| User.id := 2; User.role := "TEACHER" |}.
Definition student1 : User.t := {| User.id := 3; User.role := "STUDENT" |}.

Definition class1 : Class_.t :=
  {| Class_.id := Some 1; Class_.name := "Algebra";
     Class_.description := ""; Class_.teacher := 1;
     Class_.class_code := "AAAAAA"; Class_.subject := "Mathematics";
     Class_.room := "201"; Class_.is_active := true;
     Class_.created_at := 5; Class_.updated_at := 5 |}.

Definition class2 : Class_.t :=
  {| Class_.id := Some 2; Class_.name := "History";
     Class_.description := ""; Class_.teacher := 2;
     Class_.class_code := "B7B7B7"; Class_.subject := "";
     Class_.room := ""; Class_.is_active := false;
     Class_.created_at := 6; Class_.updated_at := 7 |}.

Definition class3 : Class_.t :=
  {| Class_.id := Some 3; Class_.name := "Physics";
     Class_.description := ""; Class_.teacher := 2;
     Class_.class_code := "PHY101"; Class_.subject := "";
     Class_.room := ""; Class_.is_active := true;
     Class_.created_at := 8; Class_.updated_at := 8 |}.

Definition enrollment1 : Enrollment.t :=
  {| Enrollment.id := Some 1; Enrollment.student := 3;
     Enrollment.class_enrolled := 1; Enrollment.enrolled_at := 10;
     Enrollment.is_active := true |}.

Definition enrollment2 : Enrollment.t :=
  {| Enrollment.id := Some 2; Enrollment.student := 3;
     Enrollment.class_enrolled := 3; Enrollment.enrolled_at := 11;
     Enrollment.is_active := false |}.

Definition lesson1 : Lesson.t :=
  {| Lesson.id := Some 1; Lesson.class_lesson := 1;
     Lesson.title := "Groups"; Lesson.description := "Definitions";
     Lesson.order := 0; Lesson.is_published := true;
     Lesson.created_at := 12; Lesson.updated_at := 12 |}.

Definition assignment1 : Assignment.t :=
  {| Assignment.id := Some 1; Assignment.class_assignment := 1;
     Assignment.title := "Sheet 1"; Assignment.description := "Exercises";
     Assignment.due_date := 100; Assignment.max_points := 100;
     Assignment.allow_late_submission := true;
     Assignment.is_published := true;
     Assignment.created_at := 13; Assignment.updated_at := 13 |}.

Definition assignment2 : Assignment.t :=
  {| Assignment.id := Some 2; Assignment.class_assignment := 1;
     Assignment.title := "Sheet 2"; Assignment.description := "Exercises";
     Assignment.due_date := 40; Assignment.max_points := 20;
     Assignment.allow_late_submission := false;
     Assignment.is_published := true;
     Assignment.created_at := 14; Assignment.updated_at := 14 |}.

Definition submission1 : Submission.t :=
  {| Submission.id := Some 1; Submission.assignment := 1;
     Submission.student := 3; Submission.file := "sheet1.pdf";
     Submission.file_name := ""; Submission.submitted_at := Some 50;
     Submission.status := "ON_TIME"; Submission.points := None;
     Submission.feedback := Some "" |}.

Definition announcement1 : Announcement.t :=
  {| Announcement.id := Some 1; Announcement.class_announcement := 1;
     Announcement.teacher := 1; Announcement.title := "Welcome";
     Announcement.content := "Hello"; Announcement.is_pinned := true;
     Announcement.created_at := 15; Announcement.updated_at := 15 |}.

Definition db0 : DB :=
  {| classes := [class1; class2; class3];
     enrollments := [enrollment1; enrollment2];
     lessons := [lesson1];
     lesson_files := [];
     assignments := [assignment1; assignment2];
     submissions := [submission1];
     questions := [];
     answers := [];
     announcements := [announcement1] |}.

(** The clock reads 60, and 61 when a submission is inserted; the first
    six draws are 0 (the code [AAAAAA], which is taken), the later ones
    count up. *)
Definition env0 : Env :=
  {| now := 60;
     now_insert := 61;
     rand := fun i => if (i <? 6)%nat then 0%nat else i;
     fuel := 5 |}.

Definition essay : UploadedFile := {| name := "essay.pdf"; size := 2048 |}.


Definition as_ {P : Type} (u : User.t) (m : http_method P) : Request P :=
  {| user := Some u; method := m |}.

Definition class_form : Class_.form :=
  {| Class_.f_name := "Taken over"; Class_.f_description := "";
     Class_.f_subject := ""; Class_.f_room := "" |}.

Definition lesson_form : Lesson.form :=
  {| Lesson.f_title := "Taken over"; Lesson.f_description := "x";
     Lesson.f_order := 9; Lesson.f_is_published := false |}.

Definition assignment_form : Assignment.form :=
  {| Assignment.f_title := "Taken over"; Assignment.f_description := "x";
     Assignment.f_due_date := 0; Assignment.f_max_points := 1;
     Assignment.f_allow_late_submission := false;
     Assignment.f_is_published := false |}.

End Sample.

(** ** [core/models.py]: the methods of the models *)

(** The number of rows a queryset holds. *)
Definition count {A : Type} (p : A -> bool) (rows : list A) : Z :=
  Z.of_nat (List.length (filter p rows)).

(** [self.enrollments.count()]: every enrollment in the class, active or
    not. *)
Definition Class_get_student_count (self : Class_.t) (db : DB) : Z :=
  count (fun e => is_pk (Enrollment.class_enrolled e) (Class_.id self))
        (enrollments db).

Definition Assignment_is_overdue (env : Env) (self : Assignment.t) : bool :=
  now env >? Assignment.due_date self.

Definition Assignment_get_submission_count (self : Assignment.t) (db : DB)
  : Z :=
  count (fun s => is_pk (Submission.assignment s) (Assignment.id self))
        (submissions db).

(** Count students who haven't submitted *)
Definition Assignment_get_missing_count (self : Assignment.t) : M Z :=
  (let* class_obj := Class_by_pk (Assignment.class_assignment self) in
   query (fun db =>
     let total_students :=
       count (fun e => is_pk (Enrollment.class_enrolled e)
                             (Class_.id class_obj)
                       && Enrollment.is_active e) (enrollments db) in
     let submitted := Assignment_get_submission_count self db in
     total_students - submitted))%db.

(** [hasattr(question, 'answer')]: the reverse side of the one-to-one
    field looks the answer up; only the lookup that finds nothing makes
    [hasattr] false. *)
Definition has_answer (question_id : Z) : M bool :=
  fun db =>
    match get (fun a => Answer.question a =? question_id) (answers db) with
    | Ok _ => (Ok true, db)
    | Raise DoesNotExist => (Ok false, db)
    | Raise e => (Raise e, db)
    | Diverge => (Diverge, db)
    end.

Definition Lesson_get_questions_count (self : Lesson.t) (db : DB) : Z :=
  count (fun q => is_pk (Question.lesson q) (Lesson.id self)) (questions db).

(** [self.questions.filter(answer__isnull=True).count()] *)
Definition Lesson_get_unanswered_questions_count (self : Lesson.t) (db : DB)
  : Z :=
  count (fun q =>
           is_pk (Question.lesson q) (Lesson.id self)
           && negb (exists_ (fun a => is_pk (Answer.question a)
                                            (Question.id q)) (answers db)))
        (questions db).

(** ** [core/views.py]: creating a class *)

(** What [ClassCreateForm.save(commit=False)] builds: the fields of the
    form, and the defaults of the model for the rest. *)
Definition Class_of_form (f : Class_.form) : Class_.t :=
  {| Class_.id := None; Class_.name := Class_.f_name f;
     Class_.description := Class_.f_description f; Class_.teacher := 0;
     Class_.class_code := ""; Class_.subject := Class_.f_subject f;
     Class_.room := Class_.f_room f; Class_.is_active := true;
     Class_.created_at := 0; Class_.updated_at := 0 |}.

Definition Class_with_teacher (v : Z) (c : Class_.t) : Class_.t :=
  {| Class_.id := Class_.id c; Class_.name := Class_.name c;
     Class_.description := Class_.description c; Class_.teacher := v;
     Class_.class_code := Class_.class_code c;
     Class_.subject := Class_.subject c; Class_.room := Class_.room c;
     Class_.is_active := Class_.is_active c;
     Class_.created_at := Class_.created_at c;
     Class_.updated_at := Class_.updated_at c |}.

Definition create_class_view (env : Env) : View (option Class_.form) :=
  fun u method =>
    match method with
    | POST (Some form) =>
        (let new_class := Class_with_teacher (User.id u) (Class_of_form form) in
         let* new_class := Class_save env new_class in
         let* class_id :=
           lift (match Class_.id new_class with
                 | Some i => Ok i
                 | None => Raise TypeError
                 end) in
         ret (answer (redirect (class_detail class_id)) success
                ("Class " ++ quoted (Class_.name new_class)
                   ++ " created successfully! Class code: "
                   ++ Class_.class_code new_class)))%db
    | POST None => ret (page "core/create_class.html" [])
    | GET => ret (page "core/create_class.html" [])
    end.

Definition create_class (env : Env) : Request (option Class_.form) -> M reply :=
  teacher_required (create_class_view env).

(** ** [core/views.py]: answering a question *)

Definition Lesson_by_pk (i : Z) : M Lesson.t :=
  fun db => (get (fun l => is_pk i (Lesson.id l)) (lessons db), db).

(** [answer.save()] for a new answer: the one-to-one field makes
    [question] unique. *)
Definition Answer_create (env : Env) (question_id teacher : Z)
  (answer_text : string) : M Answer.t :=
  fun db =>
    let rows := answers db in
    let a := {| Answer.id := Some (next_pk (map Answer.id rows));
                Answer.question := question_id;
                Answer.teacher := teacher;
                Answer.answer_text := answer_text;
                Answer.created_at := now env;
                Answer.updated_at := now env |} in
    if exists_ (fun r => Answer.question r =? question_id) rows
    then (Raise IntegrityError, db)
    else (Ok a, with_answers (rows ++ [a]) db).

Definition answer_question_view (env : Env) (question_id : Z)
  : View (option string) :=
  fun u method =>
    (let* question :=
       query (fun db =>
         get_object_or_404 (fun q => is_pk question_id (Question.id q))
                           (questions db)) in
     let* question := lift question in
     let* lesson := Lesson_by_pk (Question.lesson question) in
     let* class_obj := Class_by_pk (Lesson.class_lesson lesson) in
     (* Check if teacher owns the class *)
     if negb (is_user u (Class_.teacher class_obj))
     then ret (answer (redirect dashboard) error "Access denied.")
     else
       (* Check if already answered *)
       let* answered := has_answer question_id in
       if (answered : bool)
       then ret (answer (redirect (lesson_detail (Question.lesson question)))
                   warning "This question has already been answered.")
       else
         match method with
         | POST (Some answer_text) =>
             Answer_create env question_id (User.id u) answer_text ;;;
             ret (answer (redirect (lesson_detail (Question.lesson question)))
                    success "Answer posted successfully!")
         | POST None => ret (page "core/answer_question.html" [])
         | GET => ret (page "core/answer_question.html" [])
         end)%db.

Definition answer_question (env : Env) (request : Request (option string))
  (question_id : Z) : M reply :=
  teacher_required (answer_question_view env question_id) request.

(** ** More words for the statements *)

(** The pairs [unique_together = ['student', 'class_enrolled']] speaks
    about, and the codes [class_code] being [unique] speaks about. *)
Definition enrollment_pairs (db : DB) : list (Z * Z) :=
  map (fun e => (Enrollment.student e, Enrollment.class_enrolled e))
      (enrollments db).

Definition class_codes (db : DB) : list string :=
  map Class_.class_code (classes db).

(** The enrollment check of the student views: an active enrollment of
    [u] in [c]. *)
Definition actively_enrolled (u : User.t) (c : Class_.t) (db : DB) : bool :=
  exists_ (fun e => enrollment_of u c e && Enrollment.is_active e)
          (enrollments db).

(** The row [Enrollment.objects.create] writes for [u] joining class
    [class_id] in [db]. *)
Definition new_enrollment (env : Env) (u : User.t) (class_id : Z) (db : DB)
  : Enrollment.t :=
  {| Enrollment.id := Some (next_pk (map Enrollment.id (enrollments db)));
     Enrollment.student := User.id u;
     Enrollment.class_enrolled := class_id;
     Enrollment.enrolled_at := now env;
     Enrollment.is_active := true |}.

(** ** More of the school: a second student, questions and an answer *)
Module Sample2.

Definition student2 : User.t := {| User.id := 4; User.role := "STUDENT" |}.

Definition question1 : Question.t :=
  {| Question.id := Some 1; Question.lesson := 1; Question.student := 3;
     Question.question_text := "What is a coset?";
     Question.created_at := 20; Question.updated_at := 20 |}.

Definition question2 : Question.t :=
  {| Question.id := Some 2; Question.lesson := 1; Question.student := 3;
     Question.question_text := "Is every group abelian?";
     Question.created_at := 21; Question.updated_at := 21 |}.

Definition answer1 : Answer.t :=
  {| Answer.id := Some 1; Answer.question := 1; Answer.teacher := 1;
     Answer.answer_text := "A translate of a subgroup.";
     Answer.created_at := 22; Answer.updated_at := 22 |}.

Definition lesson_file1 : LessonFile.t :=
  {| LessonFile.id := Some 1; LessonFile.lesson := 1;
     LessonFile.file := "groups.pdf"; LessonFile.file_name := "groups.pdf";
     LessonFile.file_size := 4096; LessonFile.uploaded_at := 12 |}.

(** The school of [Sample] with a file on the lesson, two questions and
    an answer to the first. *)
Definition db1 : DB :=
  with_lesson_files [lesson_file1]
    (with_questions [question1; question2]
       (with_answers [answer1] Sample.db0)).

Definition slides : UploadedFile := {| name := "slides.PPTX"; size := 9000 |}.

Definition program : UploadedFile := {| name := "setup.exe"; size := 100 |}.

End Sample2.

(** The database after the first teacher has archived the first class of
    the sample. *)
Definition archived_db : DB :=
  with_classes
    [Class_.with_updated_at 60 (Class_.with_is_active false Sample.class1);
     Sample.class2; Sample.class3] Sample.db0.

(** What the class table always satisfies: the key identifies the row,
    the codes are distinct, and no code is empty. *)
Definition classes_wf (db : DB) : Prop :=
  class_pk_unique db
  /\ NoDup (class_codes db)
  /\ forall c, In c (classes db) -> Class_.class_code c <> "".

(** The row [create_class] writes for the form [f] of teacher [u], with
    the code the generator drew. *)
Definition new_class (env : Env) (u : User.t) (f : Class_.form)
  (code : string) (db : DB) : Class_.t :=
  {| Class_.id := Some (next_pk (map Class_.id (classes db)));
     Class_.name := Class_.f_name f;
     Class_.description := Class_.f_description f;
     Class_.teacher := User.id u;
     Class_.class_code := code;
     Class_.subject := Class_.f_subject f;
     Class_.room := Class_.f_room f;
     Class_.is_active := true;
     Class_.created_at := now env;
     Class_.updated_at := now env |}.

(** What editing may not touch in a class row. *)
Definition same_identity (c c' : Class_.t) : Prop :=
  Class_.id c' = Class_.id c
  /\ Class_.class_code c' = Class_.class_code c
  /\ Class_.teacher c' = Class_.teacher c
  /\ Class_.is_active c' = Class_.is_active c
  /\ Class_.created_at c' = Class_.created_at c.

(** The three things [Class.save] can do to the table. *)
Inductive class_written (db : DB) (row : Class_.t) (db' : DB) : Prop :=
| written_insert :
    db' = with_classes (classes db ++ [row]) db ->
    (forall x, In x (classes db) -> Class_.id x <> Class_.id row) ->
    (forall x, In x (classes db) ->
               Class_.class_code x <> Class_.class_code row) ->
    class_written db row db'
| written_update (i : Z) :
    Class_.id row = Some i ->
    db' = with_classes (replace_row Class_.id i row (classes db)) db ->
    (forall x, In x (classes db) -> is_pk i (Class_.id x) = false ->
               Class_.class_code x <> Class_.class_code row) ->
    class_written db row db'.

(** The teacher [u] owns the class of lesson [lesson_id], which is [l]. *)
Definition owns_lesson (u : User.t) (lesson_id : Z) (db : DB) (l : Lesson.t)
  : Prop :=
  User.role u = "TEACHER"
  /\ lesson_or_404 lesson_id db = (Ok l, db)
  /\ exists c, Class_by_pk (Lesson.class_lesson l) db = (Ok c, db)
               /\ Class_.teacher c = User.id u.

(** The teacher [u] owns the class of assignment [assignment_id], which
    is [a]. *)
Definition owns_assignment (u : User.t) (assignment_id : Z) (db : DB)
  (a : Assignment.t) : Prop :=
  User.role u = "TEACHER"
  /\ assignment_or_404 assignment_id db = (Ok a, db)
  /\ exists c, Class_by_pk (Assignment.class_assignment a) db = (Ok c, db)
               /\ Class_.teacher c = User.id u.

(** Both validators let the file through. *)
Definition file_ok (f : UploadedFile) : bool :=
  match validate_file f with
  | Ok _ => true
  | _ => false
  end.

(** The student [u] reaches the published assignment [assignment_id],
    which is [a], of the class [c]. *)
Definition reaches_assignment (u : User.t) (assignment_id : Z) (db : DB)
  (a : Assignment.t) (c : Class_.t) : Prop :=
  User.role u = "STUDENT"
  /\ get_object_or_404
       (fun a => is_pk assignment_id (Assignment.id a)
                 && Assignment.is_published a) (assignments db) = Ok a
  /\ Assignment_by_pk assignment_id db = (Ok a, db)
  /\ Class_by_pk (Assignment.class_assignment a) db = (Ok c, db).

(** [u] has a submission for [assignment_id] in the table. *)
Definition has_submitted (u : User.t) (assignment_id : Z) (db : DB) : bool :=
  exists_ (fun s => (Submission.assignment s =? assignment_id)
                    && (Submission.student s =? User.id u)) (submissions db).

(** The row the first submission of [u] for [a] becomes. *)
Definition first_submission (env : Env) (u : User.t) (assignment_id : Z)
  (a : Assignment.t) (f : UploadedFile) (db : DB) : Submission.t :=
  {| Submission.id := Some (next_pk (map Submission.id (submissions db)));
     Submission.assignment := assignment_id;
     Submission.student := User.id u;
     Submission.file := name f;
     Submission.file_name := "";
     Submission.submitted_at := Some (now_insert env);
     Submission.status :=
       if Assignment_is_overdue env a then "LATE" else "ON_TIME";
     Submission.points := None;
     Submission.feedback := Some "" |}.

(** Every table but the table of submissions is the same in [db] and
    [db']. *)
Definition same_but_submissions (db db' : DB) : Prop :=
  classes db' = classes db
  /\ enrollments db' = enrollments db
  /\ lessons db' = lessons db
  /\ lesson_files db' = lesson_files db
  /\ assignments db' = assignments db
  /\ questions db' = questions db
  /\ answers db' = answers db
  /\ announcements db' = announcements db.

(** What grading may not touch in a submission row. *)
Definition same_work (s s' : Submission.t) : Prop :=
  Submission.id s' = Submission.id s
  /\ Submission.assignment s' = Submission.assignment s
  /\ Submission.student s' = Submission.student s
  /\ Submission.file s' = Submission.file s
  /\ Submission.file_name s' = Submission.file_name s.

(** The teacher [u] owns the class of the lesson of question
    [question_id], which is [q]. *)
Definition owns_question (u : User.t) (question_id : Z) (db : DB)
  (q : Question.t) : Prop :=
  User.role u = "TEACHER"
  /\ get_object_or_404 (fun q => is_pk question_id (Question.id q))
                       (questions db) = Ok q
  /\ exists l c, Lesson_by_pk (Question.lesson q) db = (Ok l, db)
                 /\ Class_by_pk (Lesson.class_lesson l) db = (Ok c, db)
                 /\ Class_.teacher c = User.id u.

(** The questions that have an answer, one entry for each answer. *)
Definition answered_questions (db : DB) : list Z :=
  map Answer.question (answers db).

(** The row [answer_question] writes. *)
Definition new_answer (env : Env) (u : User.t) (question_id : Z)
  (answer_text : string) (db : DB) : Answer.t :=
  {| Answer.id := Some (next_pk (map Answer.id (answers db)));
     Answer.question := question_id;
     Answer.teacher := User.id u;
     Answer.answer_text := answer_text;
     Answer.created_at := now env;
     Answer.updated_at := now env |}.

(** ** Words for the statements about letter case and the clock *)



(** * Properties *)

(** ** Running the definitions *)

Example splitext_plain : splitext "notes.PDF" = ("notes", ".PDF").
Proof. reflexivity. Qed.

Example splitext_hidden : splitext ".pdf" = (".pdf", "").
Proof. reflexivity. Qed.

Example splitext_dir : splitext "a.b/report" = ("a.b/report", "").
Proof. reflexivity. Qed.

Example splitext_dots :
  splitext "dir/..archive.tar.zip" = ("dir/..archive.tar", ".zip").
Proof. reflexivity. Qed.

Example int_plain : PyInt.int " 95 " = Some 95.
Proof. reflexivity. Qed.

Example int_signed : PyInt.int "-1" = Some (-1).
Proof. reflexivity. Qed.

Example int_underscore : PyInt.int "1_000" = Some 1000.
Proof. reflexivity. Qed.

Example int_words : PyInt.int "ten" = None.
Proof. reflexivity. Qed.

Example int_decimal_point : PyInt.int "9.5" = None.
Proof. reflexivity. Qed.

(** ** File validation *)

Lemma mem_In (s : string) (l : list string) :
  Str.mem s l = true <-> In s l.
Proof.
  unfold Str.mem. rewrite existsb_exists. split.
  - intros [x [Hx Heq]]. apply String.eqb_eq in Heq. now subst.
  - intros H. exists s. split; [assumption | apply String.eqb_refl].
Qed.

Lemma validate_file_extension_ok (f : UploadedFile) :
  validate_file_extension f = Ok tt <->
  In (Str.lower (snd (splitext (name f)))) valid_extensions.
Proof.
  unfold validate_file_extension. rewrite <- mem_In.
  destruct (Str.mem _ _); simpl; split; intros H; congruence.
Qed.

Lemma validate_file_size_ok (f : UploadedFile) :
  validate_file_size f = Ok tt <-> size f <= 10 * 1024 * 1024.
Proof.
  unfold validate_file_size.
  destruct (Z.gtb_spec (size f) (10 * 1024 * 1024)) as [Hgt | Hle];
    split; intros Hx; try congruence; lia.
Qed.

Lemma validate_file_ok (f : UploadedFile) :
  validate_file f = Ok tt <->
  validate_file_extension f = Ok tt /\ validate_file_size f = Ok tt.
Proof.
  unfold validate_file, bind.
  destruct (validate_file_extension f) as [[]| |] eqn:E;
    split; try tauto; try (intros [Hx _]; discriminate); discriminate.
Qed.

Lemma validate_file_cases (f : UploadedFile) :
  validate_file f = Ok tt \/ exists m, validate_file f = Raise (ValidationError m).
Proof.
  unfold validate_file, validate_file_extension, validate_file_size, bind.
  destruct (negb _); [right; eauto |].
  destruct (_ >? _); [right; eauto | now left].
Qed.

(** C8. Validating an uploaded file raises an error exactly when the
    extension of its name, lower-cased, is not one of .pdf, .doc, .docx,
    .ppt, .pptx, .txt, .zip, .jpg, .jpeg, .png, or its size is above
    10 * 1024 * 1024 bytes; a file of exactly that size with a listed
    extension passes. *)
Theorem validate_file_raises_iff (f : UploadedFile) :
  let ext := Str.lower (snd (splitext (name f))) in
  let allowed :=
    [".pdf"; ".doc"; ".docx"; ".ppt"; ".pptx"; ".txt"; ".zip"; ".jpg";
     ".jpeg"; ".png"] in
  ((exists e, validate_file f = Raise e) <->
   (~ In ext allowed \/ size f > 10 * 1024 * 1024))
  /\ (In ext allowed -> size f = 10 * 1024 * 1024 -> validate_file f = Ok tt).
Proof.
  intros ext allowed.
  assert (Hok : validate_file f = Ok tt <->
                In ext allowed /\ size f <= 10 * 1024 * 1024).
  { rewrite validate_file_ok, validate_file_extension_ok,
      validate_file_size_ok. reflexivity. }
  split.
  - split.
    + intros [e He].
      destruct (in_dec string_dec ext allowed) as [Hin | Hout];
        [| now left].
      right. destruct (Z_le_gt_dec (size f) (10 * 1024 * 1024)); [| lia].
      assert (validate_file f = Ok tt) by (apply Hok; tauto). congruence.
    + intros Hbad.
      destruct (validate_file_cases f) as [H | [m H]]; [| eauto].
      apply Hok in H. destruct H, Hbad; [contradiction | lia].
  - intros Hin Hsize. apply Hok. split; [assumption | lia].
Qed.

Lemma validate_file_raises_iff_witness :
  validate_file {| name := "Essay.PDF"; size := 10485760 |} = Ok tt.
Proof.
  apply (validate_file_raises_iff {| name := "Essay.PDF"; size := 10485760 |}).
  - vm_compute. tauto.
  - reflexivity.
Defined.

(** ** Class codes *)

Lemma pick_alphabet (r : nat) : alnum_upper (pick alphabet r) = true.
Proof.
  unfold pick. change (String.length alphabet) with 36%nat.
  assert (H : (r mod 36 < 36)%nat) by (apply Nat.mod_upper_bound; lia).
  remember (r mod 36)%nat as m eqn:Em. clear Em.
  do 36 (destruct m as [| m]; [reflexivity |]). lia.
Qed.

Lemma choices_length (p : string) (rnd : nat -> nat) (k pos : nat) :
  String.length (choices p rnd pos k) = k.
Proof.
  revert pos. induction k as [| k IH]; intros pos; simpl;
    [reflexivity | now rewrite IH].
Qed.

Lemma choices_alphabet (rnd : nat -> nat) (k pos : nat) (c : ascii) :
  In c (list_ascii_of_string (choices alphabet rnd pos k)) ->
  alnum_upper c = true.
Proof.
  revert pos. induction k as [| k IH]; intros pos; simpl.
  - contradiction.
  - intros [<- | Hin]; [apply pick_alphabet | eauto].
Qed.

Lemma exists_false {A : Type} (p : A -> bool) (rows : list A) :
  exists_ p rows = false -> forall r, In r rows -> p r = false.
Proof.
  unfold exists_. intros H r Hin.
  destruct (p r) eqn:E; [| reflexivity].
  assert (existsb p rows = true) by (apply existsb_exists; eauto).
  congruence.
Qed.

Lemma exists_true {A : Type} (p : A -> bool) (rows : list A) :
  exists_ p rows = true <-> exists r, In r rows /\ p r = true.
Proof. apply existsb_exists. Qed.

Lemma generate_loop_sound (n : nat) (rnd : nat -> nat) (rows : list Class_.t) :
  forall pos code,
    generate_loop n rnd pos rows = Ok code ->
    (exists j, code = choices alphabet rnd (pos + 6 * j) 6)
    /\ forall c, In c rows -> Class_.class_code c <> code.
Proof.
  induction n as [| n IH]; intros pos code; cbn [generate_loop];
    [discriminate |].
  cbv zeta.
  destruct (exists_ (fun c => String.eqb (Class_.class_code c)
                               (choices alphabet rnd pos 6)) rows) eqn:E;
    cbn [negb].
  - intros H. apply IH in H. destruct H as [[j ->] Hfresh]. split.
    + exists (S j). now replace (pos + 6 + 6 * j)%nat with (pos + 6 * S j)%nat
        by lia.
    + assumption.
  - intros H. injection H as <-. split.
    + exists 0%nat. now replace (pos + 6 * 0)%nat with pos by lia.
    + intros c Hin Heq.
      apply (exists_false _ _ E) in Hin. simpl in Hin.
      rewrite Heq, String.eqb_refl in Hin. discriminate.
Qed.

(** The loop never raises, and it ends as soon as a round draws a code
    that no class has. *)
Lemma generate_loop_ends (n : nat) (rnd : nat -> nat) (rows : list Class_.t) :
  forall pos j,
    (j < n)%nat ->
    exists_ (fun c => String.eqb (Class_.class_code c)
                        (choices alphabet rnd (pos + 6 * j) 6)) rows = false ->
    exists code, generate_loop n rnd pos rows = Ok code.
Proof.
  induction n as [| n IH]; intros pos j Hj Hfree; [lia |].
  cbn [generate_loop]. cbv zeta.
  destruct (exists_ (fun c => String.eqb (Class_.class_code c)
                               (choices alphabet rnd pos 6)) rows) eqn:E;
    cbn [negb]; [| eauto].
  destruct j as [| j].
  - replace (pos + 6 * 0)%nat with pos in Hfree by lia. congruence.
  - apply (IH (pos + 6)%nat j); [lia |].
    replace (pos + 6 + 6 * j)%nat with (pos + 6 * S j)%nat by lia.
    assumption.
Qed.

(** C4. A code that [generate_class_code] returns has length 6, is made
    of upper-case ASCII letters and digits only, and differs from the code
    of every class in the table, active or not. *)
Theorem generate_class_code_fresh (env : Env) (db db' : DB) (code : string) :
  generate_class_code env db = (Ok code, db') ->
  String.length code = 6%nat
  /\ (forall c, In c (list_ascii_of_string code) ->
        Str.is_upper c || Str.is_digit c = true)
  /\ (forall k active, In k (classes db) -> Class_.is_active k = active ->
        Class_.class_code k <> code)
  /\ db' = db.
Proof.
  unfold generate_class_code. intros H. injection H as Hloop <-.
  apply generate_loop_sound in Hloop. destruct Hloop as [[j ->] Hfresh].
  split; [apply choices_length |].
  split; [intros c Hc; eapply choices_alphabet; eassumption |].
  split; [| reflexivity].
  intros k active Hin _. now apply Hfresh.
Qed.

Lemma generate_class_code_fresh_witness :
  generate_class_code Sample.env0 Sample.db0 = (Ok "GHIJKL", Sample.db0)
  /\ String.length "GHIJKL" = 6%nat.
Proof.
  split; [reflexivity |].
  apply (@generate_class_code_fresh Sample.env0 Sample.db0 Sample.db0 "GHIJKL").
  reflexivity.
Defined.

(** ** The status of a new submission *)

(** The insert [Submission_model_save] performs for an instance without a
    key, when no row has its assignment and student. *)
Lemma Submission_model_save_insert (env : Env) (self : Submission.t)
  (db : DB) (fb : string) :
  Submission.id self = None ->
  Submission.feedback self = Some fb ->
  exists_ (same_pair self) (submissions db) = false ->
  let row :=
    Submission.with_submitted_at (Some (now_insert env))
      (Submission.with_id
         (Some (next_pk (map Submission.id (submissions db)))) self) in
  Submission_model_save env self db
  = (Ok row, with_submissions (submissions db ++ [row]) db).
Proof.
  destruct self as [i asg stu f fn sub st p fbk].
  cbn [Submission.id Submission.feedback].
  intros Hid Hfb Hfree. subst i fbk.
  unfold Submission_model_save, same_pair in *. simpl in *.
  rewrite Hfree. reflexivity.
Qed.




(** ** Joining a class *)

Ltac run :=
  unfold mbind, ret, lift, query, raise, modify in *.

Lemma role_check (u : User.t) (r : string) :
  User.role u = r -> negb (String.eqb (User.role u) r) = false.
Proof. intros ->. now rewrite String.eqb_refl. Qed.

Lemma join_class_enrolled (env : Env) (u : User.t) (value : string) (db : DB)
  (c : Class_.t) (cid : Z) :
  User.role u = "STUDENT" ->
  class_of_code db value = Ok c ->
  Class_.id c = Some cid ->
  exists_ (enrollment_of u c) (enrollments db) = true ->
  join_class env {| user := Some u; method := POST (Some value) |} db
  = (Ok (answer (redirect (class_detail cid)) warning
           "You are already enrolled in this class."), db).
Proof.
  intros Hrole Hc Hid Hen. unfold class_of_code in Hc.
  unfold join_class, student_required. cbn [user method].
  rewrite (role_check _ Hrole).
  unfold join_class_view, clean_class_code, get_object_or_404. run.
  rewrite Hc. cbn. rewrite Hc, Hid, Hen. reflexivity.
Qed.

(** C6. When a student who already has an enrollment in a class posts the
    code of that class again, the request ends with the warning and the
    database is left as it was: no second enrollment, the first one
    untouched. *)
Theorem join_class_twice (env : Env) (u : User.t) (value : string) (db : DB)
  (c : Class_.t) (cid : Z) (e : Enrollment.t) :
  User.role u = "STUDENT" ->
  class_of_code db value = Ok c ->
  Class_.id c = Some cid ->
  In e (enrollments db) ->
  Enrollment.student e = User.id u ->
  Enrollment.class_enrolled e = cid ->
  exists r db',
    join_class env {| user := Some u; method := POST (Some value) |} db
    = (Ok r, db')
    /\ resp r = redirect (class_detail cid)
    /\ messages r = [(warning, "You are already enrolled in this class.")]
    /\ enrollments db' = enrollments db
    /\ db' = db.
Proof.
  intros Hrole Hc Hid Hin Hs Hce.
  assert (Hen : exists_ (enrollment_of u c) (enrollments db) = true).
  { apply exists_true. exists e. split; [assumption |].
    unfold enrollment_of. rewrite Hid, Hs, Hce, !Z.eqb_refl. reflexivity. }
  rewrite (join_class_enrolled env u value db Hrole Hc Hid Hen).
  do 2 eexists. repeat split.
Qed.

Lemma join_class_twice_witness :
  exists r db',
    join_class Sample.env0 (Sample.as_ Sample.student1 (POST (Some "aaaaaa")))
      Sample.db0 = (Ok r, db')
    /\ resp r = redirect (class_detail 1)
    /\ messages r = [(warning, "You are already enrolled in this class.")]
    /\ enrollments db' = enrollments Sample.db0
    /\ db' = Sample.db0.
Proof.
  apply (@join_class_twice Sample.env0 Sample.student1 "aaaaaa" Sample.db0
           Sample.class1 1 Sample.enrollment1);
    try reflexivity.
  simpl. tauto.
Defined.

(** C9. When the enrollment of a student in a class was deactivated,
    posting the code of that class creates no enrollment and does not
    switch the old one back on: the check for an existing enrollment does
    not look at [is_active], the database is left as it was, and the
    student still has no active enrollment in the class. *)
Theorem join_class_deactivated (env : Env) (u : User.t) (value : string)
  (db : DB) (c : Class_.t) (cid : Z) (e : Enrollment.t) :
  User.role u = "STUDENT" ->
  class_of_code db value = Ok c ->
  Class_.id c = Some cid ->
  In e (enrollments db) ->
  enrollment_of u c e = true ->
  (forall e', In e' (enrollments db) -> enrollment_of u c e' = true ->
              Enrollment.is_active e' = false) ->
  join_class env {| user := Some u; method := POST (Some value) |} db
  = (Ok (answer (redirect (class_detail cid)) warning
           "You are already enrolled in this class."), db)
  /\ Enrollment.is_active e = false
  /\ exists_ (fun e' => enrollment_of u c e' && Enrollment.is_active e')
              (enrollments db) = false.
Proof.
  intros Hrole Hc Hid Hin He Hoff.
  assert (Hen : exists_ (enrollment_of u c) (enrollments db) = true).
  { apply exists_true. eauto. }
  split; [exact (join_class_enrolled env u value db Hrole Hc Hid Hen) |].
  split; [now apply Hoff |].
  destruct (exists_ (fun e' => enrollment_of u c e' && Enrollment.is_active e')
                    (enrollments db)) eqn:E; [| reflexivity].
  apply exists_true in E. destruct E as [e' [Hin' Hb]].
  apply andb_true_iff in Hb. destruct Hb as [Hb1 Hb2].
  rewrite (Hoff e' Hin' Hb1) in Hb2. discriminate.
Qed.

Lemma join_class_deactivated_witness :
  join_class Sample.env0 (Sample.as_ Sample.student1 (POST (Some "phy101")))
    Sample.db0
  = (Ok (answer (redirect (class_detail 3)) warning
           "You are already enrolled in this class."), Sample.db0)
  /\ Enrollment.is_active Sample.enrollment2 = false
  /\ exists_ (fun e' => enrollment_of Sample.student1 Sample.class3 e'
                         && Enrollment.is_active e')
              (enrollments Sample.db0) = false.
Proof.
  apply (@join_class_deactivated Sample.env0 Sample.student1 "phy101"
           Sample.db0 Sample.class3 3 Sample.enrollment2);
    try reflexivity.
  - simpl. tauto.
  - intros e' [<- | [<- | []]]; [discriminate | reflexivity].
Defined.

(** ** Ownership *)

Lemma is_pk_true (i : Z) (o : option Z) : is_pk i o = true <-> o = Some i.
Proof.
  destruct o as [j |]; simpl; [| split; discriminate].
  rewrite Z.eqb_eq. split; [now intros -> | now intros [= ->]].
Qed.

Lemma filter_nil {A : Type} (p : A -> bool) (rows : list A) :
  (forall r, In r rows -> p r = false) -> filter p rows = [].
Proof.
  induction rows as [| x rows IH]; intros H; [reflexivity |].
  simpl. rewrite (H x) by now left. apply IH. intros r Hr. apply H. now right.
Qed.

Lemma get_none {A : Type} (p : A -> bool) (rows : list A) :
  (forall r, In r rows -> p r = false) -> get p rows = Raise DoesNotExist.
Proof. intros H. unfold get. now rewrite filter_nil. Qed.

Lemma owned_class_404 (u : User.t) (class_id : Z) (db : DB) :
  (forall c, In c (classes db) -> Class_.id c = Some class_id ->
             Class_.teacher c <> User.id u) ->
  owned_class u class_id db = (Raise Http404, db).
Proof.
  intros H. unfold owned_class, get_object_or_404.
  rewrite get_none; [reflexivity |].
  intros c Hin. destruct (is_pk class_id (Class_.id c)) eqn:E;
    [| reflexivity].
  apply is_pk_true in E. simpl. unfold is_user.
  apply Z.eqb_neq. now apply H.
Qed.

Lemma not_is_user (u : User.t) (teacher : Z) :
  teacher <> User.id u -> negb (is_user u teacher) = true.
Proof. intros H. unfold is_user. now apply Z.eqb_neq in H as ->. Qed.

Section NotTheOwner.

Variable env : Env.
Variable u : User.t.
Variable db : DB.
Hypothesis teacher : User.role u = "TEACHER".

Lemma edit_class_denied (m : http_method (option Class_.form)) (class_id : Z) :
  (forall c, In c (classes db) -> Class_.id c = Some class_id ->
             Class_.teacher c <> User.id u) ->
  edit_class env {| user := Some u; method := m |} class_id db
  = (Raise Http404, db).
Proof.
  intros H. unfold edit_class, teacher_required. cbn [user method].
  rewrite (role_check _ teacher). unfold edit_class_view, mbind.
  now rewrite owned_class_404.
Qed.

Lemma delete_class_denied (m : http_method unit) (class_id : Z) :
  (forall c, In c (classes db) -> Class_.id c = Some class_id ->
             Class_.teacher c <> User.id u) ->
  delete_class env {| user := Some u; method := m |} class_id db
  = (Raise Http404, db).
Proof.
  intros H. unfold delete_class, teacher_required. cbn [user method].
  rewrite (role_check _ teacher). unfold delete_class_view, mbind.
  now rewrite owned_class_404.
Qed.

Lemma edit_lesson_denied
  (m : http_method (option Lesson.form * list UploadedFile)) (lesson_id : Z)
  (l : Lesson.t) (c : Class_.t) :
  lesson_or_404 lesson_id db = (Ok l, db) ->
  Class_by_pk (Lesson.class_lesson l) db = (Ok c, db) ->
  Class_.teacher c <> User.id u ->
  edit_lesson env {| user := Some u; method := m |} lesson_id db
  = (Ok denied, db).
Proof.
  intros Hl Hc Hne. unfold edit_lesson, teacher_required. cbn [user method].
  rewrite (role_check _ teacher). unfold edit_lesson_view, mbind.
  rewrite Hl, Hc, (not_is_user _ Hne). reflexivity.
Qed.

Lemma delete_lesson_denied (m : http_method unit) (lesson_id : Z)
  (l : Lesson.t) (c : Class_.t) :
  lesson_or_404 lesson_id db = (Ok l, db) ->
  Class_by_pk (Lesson.class_lesson l) db = (Ok c, db) ->
  Class_.teacher c <> User.id u ->
  delete_lesson {| user := Some u; method := m |} lesson_id db
  = (Ok denied, db).
Proof.
  intros Hl Hc Hne. unfold delete_lesson, teacher_required. cbn [user method].
  rewrite (role_check _ teacher). unfold delete_lesson_view, mbind.
  rewrite Hl, Hc, (not_is_user _ Hne). reflexivity.
Qed.

Lemma edit_assignment_denied (m : http_method (option Assignment.form))
  (assignment_id : Z) (a : Assignment.t) (c : Class_.t) :
  assignment_or_404 assignment_id db = (Ok a, db) ->
  Class_by_pk (Assignment.class_assignment a) db = (Ok c, db) ->
  Class_.teacher c <> User.id u ->
  edit_assignment env {| user := Some u; method := m |} assignment_id db
  = (Ok denied, db).
Proof.
  intros Ha Hc Hne. unfold edit_assignment, teacher_required.
  cbn [user method].
  rewrite (role_check _ teacher). unfold edit_assignment_view, mbind.
  rewrite Ha, Hc, (not_is_user _ Hne). reflexivity.
Qed.

Lemma delete_assignment_denied (m : http_method unit) (assignment_id : Z)
  (a : Assignment.t) (c : Class_.t) :
  assignment_or_404 assignment_id db = (Ok a, db) ->
  Class_by_pk (Assignment.class_assignment a) db = (Ok c, db) ->
  Class_.teacher c <> User.id u ->
  delete_assignment {| user := Some u; method := m |} assignment_id db
  = (Ok denied, db).
Proof.
  intros Ha Hc Hne. unfold delete_assignment, teacher_required.
  cbn [user method].
  rewrite (role_check _ teacher). unfold delete_assignment_view, mbind.
  rewrite Ha, Hc, (not_is_user _ Hne). reflexivity.
Qed.

End NotTheOwner.

(** C7. A teacher who edits or deletes a class, a lesson or an assignment
    of a class that another teacher owns is turned away: with a 404 for a
    class, with a redirect to the dashboard and the message
    "Access denied." for a lesson and for an assignment. Whatever the
    request carries, the database is left as it was. *)
Theorem not_owner_denied (env : Env) (u : User.t) (db : DB) :
  User.role u = "TEACHER" ->
  (forall class_id m m',
      (forall c, In c (classes db) -> Class_.id c = Some class_id ->
                 Class_.teacher c <> User.id u) ->
      edit_class env {| user := Some u; method := m |} class_id db
      = (Raise Http404, db)
      /\ delete_class env {| user := Some u; method := m' |} class_id db
         = (Raise Http404, db))
  /\ (forall lesson_id l c m m',
        lesson_or_404 lesson_id db = (Ok l, db) ->
        Class_by_pk (Lesson.class_lesson l) db = (Ok c, db) ->
        Class_.teacher c <> User.id u ->
        edit_lesson env {| user := Some u; method := m |} lesson_id db
        = (Ok denied, db)
        /\ delete_lesson {| user := Some u; method := m' |} lesson_id db
           = (Ok denied, db))
  /\ (forall assignment_id a c m m',
        assignment_or_404 assignment_id db = (Ok a, db) ->
        Class_by_pk (Assignment.class_assignment a) db = (Ok c, db) ->
        Class_.teacher c <> User.id u ->
        edit_assignment env {| user := Some u; method := m |} assignment_id db
        = (Ok denied, db)
        /\ delete_assignment {| user := Some u; method := m' |}
             assignment_id db
           = (Ok denied, db)).
Proof.
  intros Hrole. split; [| split].
  - intros class_id m m' H. split.
    + now apply edit_class_denied.
    + now apply delete_class_denied.
  - intros lesson_id l c m m' Hl Hc Hne. split.
    + now apply edit_lesson_denied with (l := l) (c := c).
    + now apply delete_lesson_denied with (l := l) (c := c).
  - intros assignment_id a c m m' Ha Hc Hne. split.
    + now apply edit_assignment_denied with (a := a) (c := c).
    + now apply delete_assignment_denied with (a := a) (c := c).
Qed.

Lemma not_owner_denied_witness :
  edit_class Sample.env0 (Sample.as_ Sample.teacher2 (POST (Some Sample.class_form))) 1
    Sample.db0 = (Raise Http404, Sample.db0)
  /\ delete_class Sample.env0 (Sample.as_ Sample.teacher2 (POST tt)) 1 Sample.db0
     = (Raise Http404, Sample.db0)
  /\ edit_lesson Sample.env0
       (Sample.as_ Sample.teacher2 (POST (Some Sample.lesson_form, [Sample.essay]))) 1 Sample.db0
     = (Ok denied, Sample.db0)
  /\ delete_lesson (Sample.as_ Sample.teacher2 (POST tt)) 1 Sample.db0 = (Ok denied, Sample.db0)
  /\ edit_assignment Sample.env0
       (Sample.as_ Sample.teacher2 (POST (Some Sample.assignment_form))) 1 Sample.db0
     = (Ok denied, Sample.db0)
  /\ delete_assignment (Sample.as_ Sample.teacher2 (POST tt)) 1 Sample.db0
     = (Ok denied, Sample.db0).
Proof.
  destruct (@not_owner_denied Sample.env0 Sample.teacher2 Sample.db0 eq_refl)
    as [Hclass [Hlesson Hassignment]].
  assert (Hother : forall c, In c (classes Sample.db0) ->
                     Class_.id c = Some 1 ->
                     Class_.teacher c <> User.id Sample.teacher2).
  { intros c [<- | [<- | [<- | []]]]; simpl; intros H; try discriminate H.
    lia. }
  assert (Hne : Class_.teacher Sample.class1 <> User.id Sample.teacher2)
    by (simpl; lia).
  destruct (Hclass 1 (POST (Some Sample.class_form)) (POST tt) Hother)
    as [H1 H2].
  destruct (Hlesson 1 Sample.lesson1 Sample.class1
              (POST (Some Sample.lesson_form, [Sample.essay])) (POST tt)
              eq_refl eq_refl Hne) as [H3 H4].
  destruct (Hassignment 1 Sample.assignment1 Sample.class1
              (POST (Some Sample.assignment_form)) (POST tt)
              eq_refl eq_refl Hne) as [H5 H6].
  repeat (split; [assumption |]). assumption.
Defined.

(** ** Grading *)

Lemma is_user_owner (u : User.t) (teacher : Z) :
  teacher = User.id u -> negb (is_user u teacher) = false.
Proof. intros ->. unfold is_user. now rewrite Z.eqb_refl. Qed.

Section GradingProperties.

Variable int : string -> option Z.
Variable env : Env.
Variable u : User.t.
Variable submission_id : Z.
Variable db : DB.
Variable row : Submission.t.
Variable a : Assignment.t.
Hypothesis owner : grades u submission_id db row a.

(** What the view does once the owner is through the checks. *)
Lemma grade_submission_owner (data : GradeForm) :
  grade_submission int env {| user := Some u; method := POST data |}
    submission_id db
  = match post_points data with
    | None | Some "" => (Ok (grading_failed "Please enter a valid score."), db)
    | Some text =>
        match int text with
        | None =>
            (Ok (grading_failed "Please enter a valid number for points."),
             db)
        | Some points =>
            if (points <? 0) || (points >? Assignment.max_points a)
            then (Ok (grading_failed
                        ("Points must be between 0 and "
                           ++ Str.of_int (Assignment.max_points a))), db)
            else
              (Submission_save env
                 (Submission.with_graded_at (Some (now env))
                    (Submission.on_fields
                       (Submission.with_feedback (post_feedback data))
                       (Submission.on_fields
                          (Submission.with_points (Some points))
                          (Submission.load row)))) ;;;
               ret (answer
                      (redirect
                         (assignment_detail (Submission.assignment row)))
                      success "Submission graded successfully!"))%db db
        end
    end.
Proof.
  destruct owner as [Hrole [Hrow [Ha [c [Hc Hteacher]]]]].
  unfold grade_submission, teacher_required. cbn [user method].
  rewrite (role_check _ Hrole). unfold grade_submission_view.
  unfold mbind at 1. rewrite Hrow.
  unfold mbind at 1. rewrite Ha.
  unfold mbind at 1. rewrite Hc.
  rewrite (is_user_owner _ Hteacher).
  destruct (post_points data) as [[| ch text] |]; try reflexivity.
  destruct (int (String ch text)) as [points |]; [| reflexivity].
  destruct ((points <? 0) || (points >? Assignment.max_points a));
    reflexivity.
Qed.

End GradingProperties.

(** C3. When the owner of the class posts a grade whose points are
    missing, empty, not a number, or a number outside [0, max_points], the
    view answers with the grading page and an error message and leaves
    the database, and with it the points, feedback and status of the
    submission, as it was. *)
Theorem grade_submission_rejects (int : string -> option Z) (env : Env)
  (u : User.t) (submission_id : Z) (db : DB) (row : Submission.t)
  (a : Assignment.t) (data : GradeForm) :
  grades u submission_id db row a ->
  bad_points int (Assignment.max_points a) data ->
  exists text,
    grade_submission int env {| user := Some u; method := POST data |}
      submission_id db
    = (Ok (grading_failed text), db)
    /\ submission_or_404 submission_id db = (Ok row, db).
Proof.
  intros Howner Hbad.
  rewrite (grade_submission_owner int env Howner data).
  assert (Hrow : submission_or_404 submission_id db = (Ok row, db))
    by apply Howner.
  unfold bad_points in Hbad.
  destruct (post_points data) as [[| ch text] |]; [eauto | | eauto].
  destruct Hbad as [Hempty | Hbad]; [discriminate |].
  destruct (int (String ch text)) as [points |]; [| eauto].
  replace ((points <? 0) || (points >? Assignment.max_points a)) with true;
    [eauto |].
  symmetry. apply orb_true_iff.
  destruct Hbad; [left; now apply Z.ltb_lt | right; apply Z.gtb_lt; lia].
Qed.

Lemma grade_submission_rejects_witness :
  exists text,
    grade_submission PyInt.int Sample.env0
      (Sample.as_ Sample.teacher1
         (POST {| post_points := Some "101"; post_feedback := Some "Good" |}))
      1 Sample.db0
    = (Ok (grading_failed text), Sample.db0)
    /\ submission_or_404 1 Sample.db0 = (Ok Sample.submission1, Sample.db0).
Proof.
  apply (@grade_submission_rejects PyInt.int Sample.env0 Sample.teacher1 1
           Sample.db0 Sample.submission1 Sample.assignment1).
  - repeat split. exists Sample.class1. split; reflexivity.
  - right. simpl. lia.
Defined.

Lemma filter_In_sub {A : Type} (p : A -> bool) (rows : list A) (x : A) :
  In x (filter p rows) -> In x rows /\ p x = true.
Proof. apply filter_In. Qed.

Lemma get_Ok {A : Type} (p : A -> bool) (rows : list A) (x : A) :
  get p rows = Ok x -> In x rows /\ p x = true.
Proof.
  unfold get. intros H. apply (filter_In_sub p).
  destruct (filter p rows) as [| y [| z l]]; try discriminate.
  injection H as ->. now left.
Qed.

Lemma get_object_or_404_Ok {A : Type} (p : A -> bool) (rows : list A) (x : A) :
  get_object_or_404 p rows = Ok x -> In x rows /\ p x = true.
Proof.
  unfold get_object_or_404. intros H. apply get_Ok.
  destruct (get p rows) as [y | [] |]; congruence.
Qed.

Lemma replace_row_In {A : Type} (pk : A -> option Z) (i : Z) (row x : A)
  (rows : list A) :
  In x rows -> is_pk i (pk x) = true -> In row (replace_row pk i row rows).
Proof.
  intros Hin Hpk. unfold replace_row. apply in_map_iff.
  exists x. now rewrite Hpk.
Qed.

(** The update [Submission.save] performs for a stored row whose pair
    of assignment and student no other row has. *)
Lemma Submission_save_update (env : Env) (self : Submission.instance)
  (db : DB) (i : Z) (fb : string) (x : Submission.t) :
  let s := Submission.fields self in
  Submission.id s = Some i ->
  stored s ->
  Submission.feedback s = Some fb ->
  In x (submissions db) -> Submission.id x = Some i ->
  (forall r, In r (submissions db) -> same_pair s r = true ->
             Submission.id r = Some i) ->
  Submission_save env self db
  = (Ok self,
     with_submissions (replace_row Submission.id i s (submissions db)) db).
Proof.
  destruct self as [[j asg stu f fn sub st p fbk] g].
  cbn [Submission.fields Submission.id Submission.feedback].
  intros Hid [Hst Hsub] Hfb Hin Hx Huniq. subst j fbk.
  cbn [Submission.status Submission.submitted_at] in Hst, Hsub.
  destruct sub as [t |]; [| congruence].
  destruct st as [| ch st]; [congruence |].
  unfold Submission_save, mbind, ret, Submission_model_save.
  cbn [Submission.fields Submission.id Submission.feedback Submission.status
       Submission.submitted_at Submission.on_fields String.eqb].
  replace (exists_ (fun r => is_pk i (Submission.id r)) (submissions db))
    with true.
  2: { symmetry. apply exists_true. exists x. split; [assumption |].
       now apply is_pk_true. }
  match goal with
  | |- context [exists_ ?q (submissions db)] =>
      replace (exists_ q (submissions db)) with false
  end; [reflexivity |].
  symmetry. destruct (exists_ _ (submissions db)) eqn:E; [| reflexivity].
  apply exists_true in E. destruct E as [r [Hr Hb]].
  apply andb_true_iff in Hb. destruct Hb as [Hpair Hother].
  apply Huniq in Hpair; [| assumption].
  rewrite Hpair in Hother. simpl in Hother. now rewrite Z.eqb_refl in Hother.
Qed.

(** C2, as the code has it. When the owner of the class posts points that
    [int] reads as a number in [0, max_points], together with a feedback
    text, the view answers with the success redirect, and the row of the
    submission is written back with these points and this feedback and
    every other column, the status among them, as it was. The submission
    then counts as graded by having points. *)
Theorem grade_submission_persists (int : string -> option Z) (env : Env)
  (u : User.t) (submission_id : Z) (db : DB) (row : Submission.t)
  (a : Assignment.t) (text fb : string) (n : Z) :
  grades u submission_id db row a ->
  stored row ->
  one_per_pair db ->
  text <> "" ->
  int text = Some n ->
  0 <= n <= Assignment.max_points a ->
  let row' :=
    Submission.with_feedback (Some fb) (Submission.with_points (Some n) row) in
  let db' :=
    with_submissions
      (replace_row Submission.id submission_id row' (submissions db)) db in
  grade_submission int env
    {| user := Some u;
       method := POST {| post_points := Some text;
                         post_feedback := Some fb |} |}
    submission_id db
  = (Ok (answer (redirect (assignment_detail (Submission.assignment row)))
           success "Submission graded successfully!"), db')
  /\ In row' (submissions db')
  /\ Submission.points row' = Some n
  /\ Submission.feedback row' = Some fb
  /\ Submission.status row' = Submission.status row
  /\ Submission.submitted_at row' = Submission.submitted_at row.
Proof.
  intros Howner Hstored Huniq Htext Hint Hrange row' db'.
  rewrite (grade_submission_owner int env Howner _). cbn [post_points].
  destruct text as [| ch text]; [congruence |]. rewrite Hint.
  replace ((n <? 0) || (n >? Assignment.max_points a)) with false.
  2: { symmetry. apply orb_false_iff. split; [apply Z.ltb_ge; lia |].
       rewrite Z.gtb_ltb. apply Z.ltb_ge. lia. }
  destruct Howner as [_ [Hrow _]]. unfold submission_or_404 in Hrow.
  injection Hrow as Hrow. apply get_object_or_404_Ok in Hrow.
  destruct Hrow as [Hin Hpk]. apply is_pk_true in Hpk.
  unfold mbind at 1.
  erewrite (@Submission_save_update env _ db submission_id fb row);
    try assumption; try reflexivity.
  - split; [reflexivity |]. split; [| repeat split].
    subst db'. cbn [submissions with_submissions].
    apply replace_row_In with (x := row); [assumption |].
    now apply is_pk_true.
  - intros r Hr Hpair. rewrite <- Hpk. apply (Huniq row r); assumption.
Qed.

Lemma grade_submission_persists_witness :
  let row' :=
    Submission.with_feedback (Some "Excellent work!")
      (Submission.with_points (Some 95) Sample.submission1) in
  grade_submission PyInt.int Sample.env0
    (Sample.as_ Sample.teacher1
       (POST {| post_points := Some "95";
                post_feedback := Some "Excellent work!" |}))
    1 Sample.db0
  = (Ok (answer (redirect (assignment_detail 1)) success
           "Submission graded successfully!"),
     with_submissions [row'] Sample.db0)
  /\ Submission.status row' = "ON_TIME".
Proof.
  destruct (@grade_submission_persists PyInt.int Sample.env0 Sample.teacher1 1
              Sample.db0 Sample.submission1 Sample.assignment1
              "95" "Excellent work!" 95) as [Hrun [_ [_ [_ [Hstatus _]]]]].
  - repeat split. exists Sample.class1. split; reflexivity.
  - split; discriminate.
  - intros r r' [<- | []] [<- | []] _. reflexivity.
  - discriminate.
  - reflexivity.
  - simpl. lia.
  - split; [exact Hrun | exact Hstatus].
Defined.

(** The claim C2 as the specification words it fails on the status: after
    a successful grading the stored status is still the one the submission
    had, not GRADED. *)
Lemma grade_submission_status_counterexample :
  exists db',
    grade_submission PyInt.int Sample.env0
      (Sample.as_ Sample.teacher1
         (POST {| post_points := Some "95";
                  post_feedback := Some "Excellent work!" |}))
      1 Sample.db0
    = (Ok (answer (redirect (assignment_detail 1)) success
             "Submission graded successfully!"), db')
    /\ map Submission.id (submissions db') = [Some 1]
    /\ map Submission.points (submissions db') = [Some 95]
    /\ map Submission.status (submissions db') = ["ON_TIME"]
    /\ ~ In "GRADED" (map Submission.status (submissions db')).
Proof.
  exists (with_submissions
            [Submission.with_feedback (Some "Excellent work!")
               (Submission.with_points (Some 95) Sample.submission1)]
            Sample.db0).
  split; [vm_compute; reflexivity |]. simpl.
  repeat (split; [reflexivity |]).
  intros [H | []]. discriminate H.
Qed.

(** ** Submitting twice *)

Section SecondSubmission.

Variable env : Env.
Variable u : User.t.
Variable assignment_id : Z.
Variable db : DB.
Variable a : Assignment.t.
Variable c : Class_.t.
Variable x : Submission.t.

Hypothesis student : User.role u = "STUDENT".
Hypothesis published :
  get_object_or_404
    (fun a => is_pk assignment_id (Assignment.id a)
              && Assignment.is_published a) (assignments db) = Ok a.
Hypothesis class_found :
  Class_by_pk (Assignment.class_assignment a) db = (Ok c, db).
Hypothesis enrolled :
  exists_ (fun e => enrollment_of u c e && Enrollment.is_active e)
          (enrollments db) = true.
Hypothesis submitted : In x (submissions db).
Hypothesis same_assignment : Submission.assignment x = assignment_id.
Hypothesis same_student : Submission.student x = User.id u.

Lemma first_found :
  exists y,
    first (fun s => (Submission.assignment s =? assignment_id)
                    && (Submission.student s =? User.id u)) (submissions db)
    = Some y.
Proof.
  unfold first.
  destruct (find _ (submissions db)) as [y |] eqn:E; [eauto |].
  apply (find_none _ _ E) in submitted.
  rewrite same_assignment, same_student, !Z.eqb_refl in submitted.
  discriminate.
Qed.

(** The half of C5 that holds: with late submission switched off, the
    second attempt is answered with the warning, whatever it carries. *)
Lemma submit_assignment_second_rejected
  (m : http_method (option UploadedFile)) :
  Assignment.allow_late_submission a = false ->
  submit_assignment env {| user := Some u; method := m |} assignment_id db
  = (Ok (answer (redirect (assignment_detail assignment_id)) warning
           "You have already submitted this assignment."), db).
Proof.
  intros Hlate. destruct first_found as [y Hy].
  unfold submit_assignment, student_required. cbn [user method].
  rewrite (role_check _ student). unfold submit_assignment_view.
  unfold mbind at 1. unfold query at 1. rewrite published.
  unfold mbind at 1. unfold lift at 1.
  unfold mbind at 1. rewrite class_found.
  unfold mbind at 1. unfold query at 1. rewrite enrolled. cbn [negb].
  unfold mbind at 1. unfold query at 1. rewrite Hy, Hlate.
  reflexivity.
Qed.

(** The other half: with late submission allowed, a valid second upload
    runs into the unique constraint of the table. *)
Lemma submit_assignment_second_raises (file : option UploadedFile)
  (f : UploadedFile) :
  Assignment.allow_late_submission a = true ->
  Assignment_by_pk assignment_id db = (Ok a, db) ->
  SubmissionForm_is_valid file = Some f ->
  submit_assignment env {| user := Some u; method := POST file |}
    assignment_id db
  = (Raise IntegrityError, db).
Proof.
  intros Hlate Hfk Hvalid. destruct first_found as [y Hy].
  unfold submit_assignment, student_required. cbn [user method].
  rewrite (role_check _ student). unfold submit_assignment_view.
  unfold mbind at 1. unfold query at 1. rewrite published.
  unfold mbind at 1. unfold lift at 1.
  unfold mbind at 1. rewrite class_found.
  unfold mbind at 1. unfold query at 1. rewrite enrolled. cbn [negb].
  unfold mbind at 1. unfold query at 1. rewrite Hy, Hlate, Hvalid.
  unfold mbind at 1.
  unfold Submission_save, Submission_assignment.
  cbn [Submission.fields Submission.load Submission.of_form
       Submission.with_assignment Submission.with_student Submission.id
       Submission.submitted_at Submission.status Submission.on_fields
       Submission.with_submitted_at Submission.assignment no_pk String.eqb].
  unfold Assignment_by_pk in Hfk. injection Hfk as Hfk.
  unfold mbind at 1. unfold mbind at 1. rewrite Hfk.
  assert (Hdup : exists_ (fun r => (Submission.assignment r =? assignment_id)
                                   && (Submission.student r =? User.id u))
                         (submissions db) = true).
  { apply exists_true. exists x. split; [assumption |].
    now rewrite same_assignment, same_student, !Z.eqb_refl. }
  destruct (now env <=? Assignment.due_date a);
    unfold ret, mbind, Submission_model_save, same_pair; simpl;
    rewrite Hdup; reflexivity.
Qed.

End SecondSubmission.

(** C5. The student of the sample already has a submission for the first
    assignment, which allows late submission. A second, valid upload does
    not succeed: saving it raises [IntegrityError], which the view does not
    catch, and the table keeps the first submission only. *)
Theorem submit_assignment_twice_raises :
  submit_assignment Sample.env0
    (Sample.as_ Sample.student1 (POST (Some Sample.essay))) 1 Sample.db0
  = (Raise IntegrityError, Sample.db0)
  /\ Assignment.allow_late_submission Sample.assignment1 = true
  /\ submissions Sample.db0 = [Sample.submission1].
Proof. repeat split. Qed.

(** ** Archiving a class *)

Lemma Forall2_same {A : Type} (R : A -> A -> Prop) (l : list A) :
  (forall x, In x l -> R x x) -> Forall2 R l l.
Proof.
  induction l as [| x l IH]; intros H; constructor.
  - apply H. now left.
  - apply IH. intros y Hy. apply H. now right.
Qed.

Lemma Forall2_map_r {A : Type} (R : A -> A -> Prop) (f : A -> A)
  (l : list A) :
  (forall x, In x l -> R x (f x)) -> Forall2 R l (map f l).
Proof.
  induction l as [| x l IH]; intros H; simpl; constructor.
  - apply H. now left.
  - apply IH. intros y Hy. apply H. now right.
Qed.









(** * Further properties *)

(** ** Joining a class: the other outcomes *)

Lemma count_app {A : Type} (p : A -> bool) (l1 l2 : list A) :
  count p (l1 ++ l2) = count p l1 + count p l2.
Proof.
  unfold count. rewrite filter_app, length_app. lia.
Qed.

Lemma enrollment_of_pair (u : User.t) (c : Class_.t) (cid : Z)
  (e : Enrollment.t) :
  Class_.id c = Some cid ->
  enrollment_of u c e
  = (Enrollment.student e =? User.id u)
    && (Enrollment.class_enrolled e =? cid).
Proof. intros H. unfold enrollment_of. now rewrite H. Qed.

Lemma exists_ext {A : Type} (p q : A -> bool) (rows : list A) :
  (forall r, p r = q r) -> exists_ p rows = exists_ q rows.
Proof.
  intros H. unfold exists_. induction rows as [| x rows IH]; simpl;
    [reflexivity | now rewrite H, IH].
Qed.

(** X1. A student who has no enrollment in the class, and posts the code
    of an active class, is enrolled: one active enrollment for the pair is
    appended, nothing else changes, the class has one student more, and
    the student now passes the enrollment check of the student views. *)
Theorem join_class_enrolls (env : Env) (u : User.t) (value : string)
  (db : DB) (c : Class_.t) (cid : Z) :
  User.role u = "STUDENT" ->
  class_of_code db value = Ok c ->
  Class_.id c = Some cid ->
  exists_ (enrollment_of u c) (enrollments db) = false ->
  let db' :=
    with_enrollments (enrollments db ++ [new_enrollment env u cid db]) db in
  join_class env {| user := Some u; method := POST (Some value) |} db
  = (Ok (answer (redirect (class_detail cid)) success
           ("Successfully joined " ++ quoted (Class_.name c) ++ "!")), db')
  /\ Class_get_student_count c db' = Class_get_student_count c db + 1
  /\ actively_enrolled u c db' = true.
Proof.
  intros Hrole Hc Hid Hen db'. split; [| split].
  - unfold class_of_code in Hc.
    unfold join_class, student_required. cbn [user method].
    rewrite (role_check _ Hrole).
    unfold join_class_view, clean_class_code, get_object_or_404. run.
    rewrite Hc. cbn. rewrite Hc, Hid, Hen.
    unfold Enrollment_create.
    rewrite (exists_ext _ _ _ (fun e => @enrollment_of_pair u c cid e Hid)) in Hen.
    rewrite Hen. reflexivity.
  - unfold Class_get_student_count. subst db'.
    cbn [enrollments with_enrollments]. rewrite count_app. f_equal.
    unfold count, new_enrollment. simpl. rewrite Hid. simpl.
    now rewrite Z.eqb_refl.
  - unfold actively_enrolled. apply exists_true.
    exists (new_enrollment env u cid db). split.
    + subst db'. cbn [enrollments with_enrollments]. apply in_or_app.
      right. now left.
    + rewrite (@enrollment_of_pair u c cid _ Hid). simpl.
      now rewrite !Z.eqb_refl.
Qed.

Lemma join_class_enrolls_witness :
  let db' :=
    with_enrollments
      (enrollments Sample.db0
         ++ [new_enrollment Sample.env0 Sample2.student2 1 Sample.db0])
      Sample.db0 in
  join_class Sample.env0 (Sample.as_ Sample2.student2 (POST (Some "AaAaAa")))
    Sample.db0
  = (Ok (answer (redirect (class_detail 1)) success
           ("Successfully joined " ++ quoted "Algebra" ++ "!")), db')
  /\ Class_get_student_count Sample.class1 db'
     = Class_get_student_count Sample.class1 Sample.db0 + 1
  /\ actively_enrolled Sample2.student2 Sample.class1 db' = true.
Proof.
  apply (@join_class_enrolls Sample.env0 Sample2.student2 "AaAaAa" Sample.db0
           Sample.class1 1);
    reflexivity.
Defined.

Lemma clean_class_code_unknown (value : string) (db : DB) :
  (forall c, In c (classes db) -> Class_.class_code c = Str.upper value ->
             Class_.is_active c = false) ->
  clean_class_code value db = (Ok None, db).
Proof.
  intros H. unfold clean_class_code. rewrite get_none; [reflexivity |].
  intros c Hin.
  destruct (String.eqb_spec (Class_.class_code c) (Str.upper value))
    as [Heq | Hne]; [| reflexivity].
  simpl. now apply H.
Qed.

Lemma join_class_form_invalid (env : Env) (u : User.t) (value : string)
  (db : DB) :
  User.role u = "STUDENT" ->
  clean_class_code value db = (Ok None, db) ->
  join_class env {| user := Some u; method := POST (Some value) |} db
  = (Ok (page "core/join_class.html" []), db).
Proof.
  intros Hrole Hclean. unfold join_class, student_required.
  cbn [user method]. rewrite (role_check _ Hrole).
  unfold join_class_view, mbind. now rewrite Hclean.
Qed.



(** What a successful [Class.save] of a stored class leaves behind. *)
Lemma Class_save_update (env : Env) (self r : Class_.t) (i : Z)
  (x : Class_.t) (db db' : DB) :
  Class_.class_code self <> "" ->
  Class_.id self = Some i ->
  In x (classes db) -> Class_.id x = Some i ->
  Class_save env self db = (Ok r, db') ->
  r = Class_.with_updated_at (now env) self
  /\ db' = with_classes (replace_row Class_.id i r (classes db)) db
  /\ exists_ (fun c => String.eqb (Class_.class_code c)
                         (Class_.class_code self)
                       && negb (is_pk i (Class_.id c))) (classes db) = false.
Proof.
  intros Hcode Hid Hin Hx. unfold Class_save.
  apply String.eqb_neq in Hcode. rewrite Hcode.
  unfold mbind, ret, Class_model_save. rewrite Hid.
  replace (exists_ (fun c => is_pk i (Class_.id c)) (classes db)) with true.
  2: { symmetry. apply exists_true. exists x. split; [assumption |].
       now apply is_pk_true. }
  destruct (exists_ (fun c => String.eqb (Class_.class_code c)
                                (Class_.class_code self)
                              && negb (is_pk i (Class_.id c))) (classes db));
    [discriminate |].
  intros [= <- <-]. repeat split.
Qed.

(** X3. Archiving closes the door: once the owner has deleted a class,
    a student who posts its code gets the join form back and is not
    enrolled. *)
Theorem archived_class_cannot_be_joined (env env' : Env) (t s : User.t)
  (class_id : Z) (c0 : Class_.t) (value : string) (db db1 : DB) (r : reply) :
  User.role t = "TEACHER" ->
  User.role s = "STUDENT" ->
  owned_class t class_id db = (Ok c0, db) ->
  Class_.class_code c0 <> "" ->
  Str.upper value = Class_.class_code c0 ->
  delete_class env {| user := Some t; method := POST tt |} class_id db
  = (Ok r, db1) ->
  join_class env' {| user := Some s; method := POST (Some value) |} db1
  = (Ok (page "core/join_class.html" []), db1)
  /\ enrollments db1 = enrollments db.
Proof.
  intros Ht Hs Hown Hcode Hvalue.
  unfold delete_class, teacher_required. cbn [user method].
  rewrite (role_check _ Ht). unfold delete_class_view.
  unfold mbind at 1. rewrite Hown. unfold mbind at 1.
  destruct (Class_save env (Class_.with_is_active false c0) db)
    as [[c1 | e |] db2] eqn:Hsave; try discriminate.
  unfold ret. intros [= _ <-].
  unfold owned_class in Hown. injection Hown as Hown.
  apply get_object_or_404_Ok in Hown. destruct Hown as [Hin Hb].
  apply andb_true_iff in Hb. destruct Hb as [Hpk _].
  apply is_pk_true in Hpk.
  apply (@Class_save_update env _ c1 class_id c0 db db2) in Hsave;
    try assumption; try (destruct c0; assumption).
  destruct Hsave as [Hc1 [Hdb2 Hother]]. subst db2 c1. split; [| reflexivity].
  apply join_class_form_invalid; [assumption |].
  apply clean_class_code_unknown.
  intros c Hc Heq. cbn [classes with_classes] in Hc.
  unfold replace_row in Hc. apply in_map_iff in Hc.
  destruct Hc as [y [Hy Hyin]].
  destruct (is_pk class_id (Class_.id y)) eqn:E.
  - subst c. destruct c0; reflexivity.
  - subst c. apply (exists_false _ _ Hother) in Hyin.
    simpl in Hyin. rewrite E in Hyin.
    replace (Class_.class_code (Class_.with_is_active false c0))
      with (Class_.class_code c0) in Hyin by (destruct c0; reflexivity).
    rewrite Heq, Hvalue, String.eqb_refl in Hyin. discriminate.
Qed.

Lemma archived_class_cannot_be_joined_witness :
  join_class Sample.env0 (Sample.as_ Sample2.student2 (POST (Some "aaaaaa")))
    archived_db
  = (Ok (page "core/join_class.html" []), archived_db)
  /\ enrollments archived_db = enrollments Sample.db0.
Proof.
  apply (@archived_class_cannot_be_joined Sample.env0 Sample.env0
           Sample.teacher1 Sample2.student2 1 Sample.class1 "aaaaaa"
           Sample.db0 archived_db
           (answer (redirect dashboard) success
              ("Class " ++ quoted "Algebra" ++ " has been archived.")));
    try reflexivity.
  discriminate.
Defined.

Lemma Enrollment_create_pairs (env : Env) (u : User.t) (class_id : Z)
  (db db' : DB) (r : result Enrollment.t) :
  NoDup (enrollment_pairs db) ->
  Enrollment_create env u class_id db = (r, db') ->
  NoDup (enrollment_pairs db').
Proof.
  intros Hnd. unfold Enrollment_create.
  destruct (exists_ _ (enrollments db)) eqn:E; intros [= <- <-];
    [assumption |].
  unfold enrollment_pairs. cbn [enrollments with_enrollments].
  rewrite map_app. cbn [map].
  cbn [Enrollment.student Enrollment.class_enrolled].
  apply NoDup_app; [assumption | |].
  - constructor; [intros [] | constructor].
  - intros p Hp [<- | []]. apply in_map_iff in Hp.
    destruct Hp as [e [He Hin]]. apply (exists_false _ _ E) in Hin.
    simpl in Hin. injection He as H1 H2.
    rewrite H1, H2, !Z.eqb_refl in Hin. discriminate.
Qed.

(** X4. Whatever the request, [join_class] keeps the pairs
    (student, class) of the enrollment table distinct: the constraint
    [unique_together] is never put to the test by a second row. *)
Theorem join_class_keeps_pairs_distinct (env : Env)
  (request : Request (option string)) (db db' : DB) (r : result reply) :
  NoDup (enrollment_pairs db) ->
  join_class env request db = (r, db') ->
  NoDup (enrollment_pairs db').
Proof.
  intros Hnd. unfold join_class, student_required.
  destruct (user request) as [u |]; [| intros [= <- <-]; assumption].
  destruct (negb _); [intros [= <- <-]; assumption |].
  unfold join_class_view.
  destruct (method request) as [| [value |]];
    try (intros [= <- <-]; assumption).
  unfold mbind at 1. unfold clean_class_code.
  destruct (get _ (classes db)) as [c | e |] eqn:Hget.
  2: { destruct e; intros [= <- <-]; assumption. }
  2: { intros [= <- <-]; assumption. }
  unfold mbind at 1. unfold query at 1. unfold mbind at 1. unfold lift at 1.
  unfold get_object_or_404. rewrite Hget.
  unfold mbind at 1. unfold lift at 1.
  destruct (Class_.id c) as [cid |]; [| intros [= <- <-]; assumption].
  unfold mbind at 1. unfold query at 1.
  destruct (exists_ (enrollment_of u c) (enrollments db));
    [intros [= <- <-]; assumption |].
  unfold mbind at 1.
  destruct (Enrollment_create env u cid db) as [re dbe] eqn:Hcreate.
  apply (@Enrollment_create_pairs env u cid db dbe re Hnd) in Hcreate.
  destruct re; intros [= <- <-]; assumption.
Qed.

Lemma join_class_keeps_pairs_distinct_witness :
  NoDup (enrollment_pairs
           (snd (join_class Sample.env0
                   (Sample.as_ Sample2.student2 (POST (Some "AaAaAa")))
                   Sample.db0))).
Proof.
  apply (@join_class_keeps_pairs_distinct Sample.env0
           (Sample.as_ Sample2.student2 (POST (Some "AaAaAa"))) Sample.db0 _
           (fst (join_class Sample.env0
                   (Sample.as_ Sample2.student2 (POST (Some "AaAaAa")))
                   Sample.db0))).
  - repeat constructor; simpl; intuition discriminate.
  - reflexivity.
Defined.

(** ** Creating and editing classes *)

Lemma generate_fresh_exists (env : Env) (db db' : DB) (code : string) :
  generate_class_code env db = (Ok code, db') ->
  db' = db
  /\ String.length code = 6%nat
  /\ exists_ (fun c => String.eqb (Class_.class_code c) code) (classes db)
     = false.
Proof.
  unfold generate_class_code. intros [= Hloop <-].
  apply generate_loop_sound in Hloop. destruct Hloop as [[j ->] Hfresh].
  split; [reflexivity |]. split; [apply choices_length |].
  destruct (exists_ _ (classes db)) eqn:E; [| reflexivity].
  apply exists_true in E. destruct E as [c [Hin Heq]].
  apply String.eqb_eq in Heq. now apply Hfresh in Hin.
Qed.

(** X5. When a teacher posts a valid class form and the generator
    returns a code, [create_class] appends one class: owned by that
    teacher, active, carrying the fields of the form and a code of six
    characters that no class had; the teacher is sent to the new class. *)
Theorem create_class_adds (env : Env) (u : User.t) (form : Class_.form)
  (db : DB) (code : string) :
  User.role u = "TEACHER" ->
  generate_class_code env db = (Ok code, db) ->
  let c := new_class env u form code db in
  create_class env {| user := Some u; method := POST (Some form) |} db
  = (Ok (answer
           (redirect (class_detail (next_pk (map Class_.id (classes db)))))
           success
           ("Class " ++ quoted (Class_.f_name form)
              ++ " created successfully! Class code: " ++ code)),
     with_classes (classes db ++ [c]) db)
  /\ ~ In code (class_codes db)
  /\ String.length code = 6%nat.
Proof.
  intros Hrole Hgen c.
  destruct (generate_fresh_exists Hgen) as [_ [Hlen Hfresh]].
  split; [| split; [| assumption]].
  - unfold create_class, teacher_required. cbn [user method].
    rewrite (role_check _ Hrole). unfold create_class_view.
    unfold mbind at 1. unfold Class_save.
    cbn [Class_.class_code Class_with_teacher Class_of_form String.eqb].
    unfold mbind at 1. unfold mbind at 1. rewrite Hgen.
    unfold ret at 1. unfold Class_model_save.
    cbn [Class_.id Class_.class_code Class_.with_class_code
         Class_with_teacher Class_of_form].
    rewrite Hfresh. reflexivity.
  - unfold class_codes. intros Hin. apply in_map_iff in Hin.
    destruct Hin as [x [Hx Hin]]. apply (exists_false _ _ Hfresh) in Hin.
    simpl in Hin. rewrite Hx, String.eqb_refl in Hin. discriminate.
Qed.

Lemma create_class_adds_witness :
  snd (create_class Sample.env0
         (Sample.as_ Sample.teacher2 (POST (Some Sample.class_form)))
         Sample.db0)
  = with_classes
      (classes Sample.db0
         ++ [new_class Sample.env0 Sample.teacher2 Sample.class_form "GHIJKL"
               Sample.db0]) Sample.db0
  /\ ~ In "GHIJKL" (class_codes Sample.db0).
Proof.
  destruct (@create_class_adds Sample.env0 Sample.teacher2 Sample.class_form
              Sample.db0 "GHIJKL" eq_refl eq_refl) as [Hrun [Hfresh _]].
  split; [exact (f_equal snd Hrun) | exact Hfresh].
Defined.
(** ** The class table stays well formed *)

Lemma next_pk_above (ids : list (option Z)) (i : Z) :
  In (Some i) ids -> i < next_pk ids.
Proof.
  unfold next_pk. induction ids as [| o ids IH]; [contradiction |].
  intros [-> | Hin]; cbn [fold_right].
  - lia.
  - apply IH in Hin. destruct o; lia.
Qed.

Lemma next_pk_fresh {A : Type} (pk : A -> option Z) (rows : list A) (x : A) :
  In x rows -> pk x <> Some (next_pk (map pk rows)).
Proof.
  intros Hin Heq.
  assert (H : In (Some (next_pk (map pk rows))) (map pk rows)).
  { rewrite <- Heq. now apply in_map. }
  apply next_pk_above in H. lia.
Qed.

Ltac case_if E :=
  match goal with
  | |- context [if ?b then _ else _] => destruct b eqn:E
  end.

Lemma no_row_with_code (rows : list Class_.t) (code : string) :
  exists_ (fun c => String.eqb (Class_.class_code c) code) rows = false ->
  forall x, In x rows -> Class_.class_code x <> code.
Proof.
  intros H x Hin Heq. apply (exists_false _ _ H) in Hin. simpl in Hin.
  rewrite Heq, String.eqb_refl in Hin. discriminate.
Qed.

Lemma Class_model_save_written (env : Env) (self : Class_.t) (db db' : DB)
  (r : result Class_.t) :
  Class_model_save env self db = (r, db') ->
  db' = db
  \/ exists row, Class_.class_code row = Class_.class_code self
                 /\ class_written db row db'.
Proof.
  unfold Class_model_save. cbv zeta.
  destruct (Class_.id self) as [i |] eqn:Hid.
  - destruct (exists_ (fun c => is_pk i (Class_.id c)) (classes db)) eqn:Epk.
    + case_if Eother; intros [= <- <-]; [now left |].
      right. exists (Class_.with_updated_at (now env) self).
      split; [now destruct self |].
      apply written_update with (i := i).
      * destruct self; simpl in *; assumption.
      * reflexivity.
      * intros x Hin Hpk Heq. apply (exists_false _ _ Eother) in Hin.
        simpl in Hin. rewrite Hpk in Hin. simpl in Hin.
        replace (Class_.class_code (Class_.with_updated_at (now env) self))
          with (Class_.class_code self) in Heq by (destruct self; reflexivity).
        rewrite Heq, String.eqb_refl in Hin. discriminate.
    + case_if Ecode; intros [= <- <-]; [now left |].
      right. exists (Class_.with_created_at (now env)
                       (Class_.with_updated_at (now env) self)).
      split; [now destruct self |].
      apply written_insert.
      * reflexivity.
      * intros x Hin Heq. apply (exists_false _ _ Epk) in Hin. simpl in Hin.
        replace (Class_.id (Class_.with_created_at (now env)
                   (Class_.with_updated_at (now env) self)))
          with (Some i) in Heq by (destruct self; simpl in *; congruence).
        rewrite Heq in Hin. simpl in Hin. now rewrite Z.eqb_refl in Hin.
      * intros x Hin. destruct self; simpl in *.
        now apply (no_row_with_code _ Ecode).
  - case_if Ecode; intros [= <- <-]; [now left |].
    right. exists (Class_.with_id (Some (next_pk (map Class_.id (classes db))))
                     (Class_.with_created_at (now env)
                        (Class_.with_updated_at (now env) self))).
    split; [now destruct self |].
    apply written_insert.
    + reflexivity.
    + intros x Hin. destruct self; simpl in *.
      now apply next_pk_fresh.
    + intros x Hin. destruct self; simpl in *.
      now apply (no_row_with_code _ Ecode).
Qed.

Lemma Class_save_written (env : Env) (self : Class_.t) (db db' : DB)
  (r : result Class_.t) :
  Class_save env self db = (r, db') ->
  db' = db
  \/ exists row, Class_.class_code row <> "" /\ class_written db row db'.
Proof.
  unfold Class_save.
  destruct (String.eqb_spec (Class_.class_code self) "") as [Hempty | Hcode].
  - unfold mbind at 1. unfold mbind at 1.
    destruct (generate_class_code env db) as [[code | e |] db0] eqn:Hgen;
      try (unfold generate_class_code in Hgen; injection Hgen as _ <-;
           intros [= <- <-]; now left).
    destruct (generate_fresh_exists Hgen) as [-> [Hlen _]].
    unfold ret at 1. intros Hsave.
    apply Class_model_save_written in Hsave.
    destruct Hsave as [-> | [row [Hrow Hw]]]; [now left |].
    right. exists row. split; [| assumption].
    rewrite Hrow. destruct self; simpl. intros ->. discriminate Hlen.
  - unfold mbind, ret. intros Hsave.
    apply Class_model_save_written in Hsave.
    destruct Hsave as [-> | [row [Hrow Hw]]]; [now left |].
    right. exists row. split; [congruence | assumption].
Qed.

Lemma NoDup_map_replace {A B : Type} (f : A -> B) (P : A -> bool) (k : B)
  (l : list A) :
  NoDup (map f l) ->
  (forall x, In x l -> P x = false -> f x <> k) ->
  (forall x y, In x l -> In y l -> P x = true -> P y = true -> x = y) ->
  NoDup (map (fun x => if P x then k else f x) l).
Proof.
  induction l as [| x l IH]; intros Hnd Hk Huniq; simpl; [constructor |].
  simpl in Hnd. inversion Hnd as [| ? ? Hnotin Hnd']; subst.
  constructor.
  - intros Hin. apply in_map_iff in Hin. destruct Hin as [y [Hy Hyin]].
    destruct (P x) eqn:Px, (P y) eqn:Py.
    + assert (x = y) by (apply Huniq; simpl; auto). subst y.
      apply Hnotin. now apply in_map.
    + apply (Hk y); simpl; auto.
    + apply (Hk x); simpl; auto.
    + apply Hnotin. rewrite <- Hy. now apply in_map.
  - apply IH; [assumption | |].
    + intros y Hy. apply Hk. now right.
    + intros y z Hy Hz. apply Huniq; now right.
Qed.

Lemma class_written_wf (db db' : DB) (row : Class_.t) :
  classes_wf db ->
  Class_.class_code row <> "" ->
  class_written db row db' ->
  classes_wf db'.
Proof.
  intros [Hpk [Hnd Hcodes]] Hrow [-> Hid Hfresh | i Hid -> Hother].
  - split; [| split].
    + intros c1 c2 H1 H2 Heq. cbn [classes with_classes] in H1, H2.
      apply in_app_or in H1. apply in_app_or in H2.
      destruct H1 as [H1 | [<- | []]], H2 as [H2 | [<- | []]].
      * now apply Hpk.
      * now apply Hid in H1.
      * symmetry in Heq. now apply Hid in H2.
      * reflexivity.
    + unfold class_codes. cbn [classes with_classes]. rewrite map_app.
      apply NoDup_app; [assumption | |].
      * constructor; [intros [] | constructor].
      * intros k Hk [<- | []]. apply in_map_iff in Hk.
        destruct Hk as [x [Hx Hin]]. now apply Hfresh in Hin.
    + intros c Hc. cbn [classes with_classes] in Hc.
      apply in_app_or in Hc. destruct Hc as [Hc | [<- | []]];
        [now apply Hcodes | assumption].
  - split; [| split].
    + intros c1 c2 H1 H2 Heq. cbn [classes with_classes] in H1, H2.
      unfold replace_row in H1, H2.
      apply in_map_iff in H1. apply in_map_iff in H2.
      destruct H1 as [x1 [<- H1]], H2 as [x2 [<- H2]].
      destruct (is_pk i (Class_.id x1)) eqn:E1,
               (is_pk i (Class_.id x2)) eqn:E2.
      * reflexivity.
      * rewrite Hid in Heq. symmetry in Heq. apply is_pk_true in Heq.
        congruence.
      * rewrite Hid in Heq. apply is_pk_true in Heq. congruence.
      * now apply Hpk.
    + unfold class_codes. cbn [classes with_classes]. unfold replace_row.
      rewrite map_map.
      rewrite (map_ext _ (fun x => if is_pk i (Class_.id x)
                                   then Class_.class_code row
                                   else Class_.class_code x)).
      2: { intros x. now destruct (is_pk i (Class_.id x)). }
      apply NoDup_map_replace; [assumption | assumption |].
      intros x y Hx Hy Px Py. apply Hpk; try assumption.
      apply is_pk_true in Px. apply is_pk_true in Py. congruence.
    + intros c Hc. cbn [classes with_classes] in Hc.
      unfold replace_row in Hc. apply in_map_iff in Hc.
      destruct Hc as [x [<- Hx]].
      destruct (is_pk i (Class_.id x)); [assumption | now apply Hcodes].
Qed.

Lemma Class_save_wf (env : Env) (self : Class_.t) (db db' : DB)
  (r : result Class_.t) :
  classes_wf db -> Class_save env self db = (r, db') -> classes_wf db'.
Proof.
  intros Hwf Hsave. apply Class_save_written in Hsave.
  destruct Hsave as [-> | [row [Hrow Hw]]]; [assumption |].
  now apply (class_written_wf Hwf Hrow).
Qed.
(** X6. The class table stays well formed under the three views that
    write to it: whatever the request, after [create_class], [edit_class]
    or [delete_class] the keys still identify the rows, the class codes
    are still pairwise distinct, and no code is empty. *)
Theorem class_views_keep_table_wf (env : Env) (db : DB) :
  classes_wf db ->
  (forall request r db',
      create_class env request db = (r, db') -> classes_wf db')
  /\ (forall request class_id r db',
        edit_class env request class_id db = (r, db') -> classes_wf db')
  /\ (forall request class_id r db',
        delete_class env request class_id db = (r, db') -> classes_wf db').
Proof.
  intros Hwf. split; [| split].
  - intros request r db'. unfold create_class, teacher_required.
    destruct (user request) as [u |]; [| now intros [= <- <-]].
    destruct (negb _); [now intros [= <- <-] |].
    unfold create_class_view.
    destruct (method request) as [| [form |]]; try now intros [= <- <-].
    unfold mbind at 1.
    destruct (Class_save env _ db) as [r0 db0] eqn:Hsave.
    apply (Class_save_wf _ _ Hwf) in Hsave.
    destruct r0 as [c | e |]; try now intros [= <- <-].
    unfold mbind at 1, lift.
    destruct (Class_.id c); now intros [= <- <-].
  - intros request class_id r db'. unfold edit_class, teacher_required.
    destruct (user request) as [u |]; [| now intros [= <- <-]].
    destruct (negb _); [now intros [= <- <-] |].
    unfold edit_class_view. unfold mbind at 1.
    destruct (owned_class u class_id db) as [[c0 | e |] db0] eqn:Hown;
      unfold owned_class in Hown; injection Hown as _ <-;
      try now intros [= <- <-].
    destruct (method request) as [| [form |]]; try now intros [= <- <-].
    unfold mbind at 1.
    destruct (Class_save env _ db) as [r0 db0] eqn:Hsave.
    apply (Class_save_wf _ _ Hwf) in Hsave.
    destruct r0; now intros [= <- <-].
  - intros request class_id r db'. unfold delete_class, teacher_required.
    destruct (user request) as [u |]; [| now intros [= <- <-]].
    destruct (negb _); [now intros [= <- <-] |].
    unfold delete_class_view. unfold mbind at 1.
    destruct (owned_class u class_id db) as [[c0 | e |] db0] eqn:Hown;
      unfold owned_class in Hown; injection Hown as _ <-;
      try now intros [= <- <-].
    destruct (method request) as [| []]; try now intros [= <- <-].
    unfold mbind at 1.
    destruct (Class_save env _ db) as [r0 db0] eqn:Hsave.
    apply (Class_save_wf _ _ Hwf) in Hsave.
    destruct r0; now intros [= <- <-].
Qed.

Lemma sample_classes_wf : classes_wf Sample.db0.
Proof.
  split; [| split].
  - intros c1 c2 [<- | [<- | [<- | []]]] [<- | [<- | [<- | []]]];
      simpl; intros H; try reflexivity; discriminate H.
  - repeat constructor; simpl; intuition discriminate.
  - intros c [<- | [<- | [<- | []]]]; discriminate.
Defined.

Lemma class_views_keep_table_wf_witness :
  classes_wf
    (snd (create_class Sample.env0
            (Sample.as_ Sample.teacher2 (POST (Some Sample.class_form)))
            Sample.db0))
  /\ classes_wf
       (snd (edit_class Sample.env0
               (Sample.as_ Sample.teacher1 (POST (Some Sample.class_form)))
               1 Sample.db0))
  /\ classes_wf
       (snd (delete_class Sample.env0
               (Sample.as_ Sample.teacher1 (POST tt)) 1 Sample.db0)).
Proof.
  destruct (@class_views_keep_table_wf Sample.env0 Sample.db0
              sample_classes_wf) as [Hcreate [Hedit Hdelete]].
  split; [| split].
  - eapply Hcreate. apply surjective_pairing.
  - eapply Hedit. apply surjective_pairing.
  - eapply Hdelete. apply surjective_pairing.
Defined.

(** ** Editing keeps the identity of a class *)

Lemma Class_save_stored (env : Env) (self c0 : Class_.t) (i : Z)
  (db db' : DB) (r : result Class_.t) :
  In c0 (classes db) ->
  Class_.id c0 = Some i ->
  Class_.id self = Some i ->
  Class_.class_code self <> "" ->
  Class_save env self db = (r, db') ->
  db' = db
  \/ db' = with_classes
             (replace_row Class_.id i
                (Class_.with_updated_at (now env) self) (classes db)) db.
Proof.
  intros Hin Hc0 Hid Hcode. unfold Class_save.
  apply String.eqb_neq in Hcode. rewrite Hcode.
  unfold mbind, ret, Class_model_save. cbv zeta. rewrite Hid.
  replace (exists_ (fun c => is_pk i (Class_.id c)) (classes db)) with true.
  2: { symmetry. apply exists_true. exists c0. split; [assumption |].
       now apply is_pk_true. }
  case_if E; intros [= <- <-]; [now left | now right].
Qed.

Lemma same_tables (db : DB) (rows : list Class_.t) :
  same_but_classes db (with_classes rows db).
Proof. repeat split. Qed.

(** X7. Whatever the request, [edit_class] adds and removes no class and
    leaves the key, the code, the owner, the active flag and the creation
    time of every class as they were, and writes to no other table: the
    join code of a class cannot be changed by editing it. *)
Theorem edit_class_keeps_identity (env : Env)
  (request : Request (option Class_.form)) (class_id : Z) (db db' : DB)
  (r : result reply) :
  class_pk_unique db ->
  (forall c, In c (classes db) -> Class_.class_code c <> "") ->
  edit_class env request class_id db = (r, db') ->
  same_but_classes db db'
  /\ Forall2 same_identity (classes db) (classes db').
Proof.
  intros Hpk Hcodes.
  assert (Hsame : same_but_classes db db
                  /\ Forall2 same_identity (classes db) (classes db)).
  { split; [repeat split |]. apply Forall2_same. intros x _. repeat split. }
  unfold edit_class, teacher_required.
  destruct (user request) as [u |]; [| now intros [= <- <-]].
  destruct (negb _); [now intros [= <- <-] |].
  unfold edit_class_view, owned_class. unfold mbind at 1.
  destruct (get_object_or_404 _ (classes db)) as [c0 | e |] eqn:Hget;
    try now intros [= <- <-].
  apply get_object_or_404_Ok in Hget. destruct Hget as [Hin Hb].
  apply andb_true_iff in Hb. destruct Hb as [Hid _]. apply is_pk_true in Hid.
  destruct (method request) as [| [form |]]; try now intros [= <- <-].
  unfold mbind at 1.
  destruct (Class_save env (Class_.with_form form c0) db)
    as [r0 db0] eqn:Hsave.
  apply (@Class_save_stored env _ c0 class_id db db0 r0 Hin Hid) in Hsave.
  2: { destruct c0; exact Hid. }
  2: { specialize (Hcodes c0 Hin). destruct c0; exact Hcodes. }
  assert (Hgoal : same_but_classes db db0
                  /\ Forall2 same_identity (classes db) (classes db0)).
  { destruct Hsave as [-> | ->]; [assumption |].
    split; [apply same_tables |]. cbn [classes with_classes].
    unfold replace_row. apply Forall2_map_r. intros x Hx.
    destruct (is_pk class_id (Class_.id x)) eqn:E; [| repeat split].
    apply is_pk_true in E.
    rewrite (Hpk x c0 Hx Hin) by congruence.
    destruct c0; repeat split. }
  destruct r0; now intros [= <- <-].
Qed.

Lemma edit_class_keeps_identity_witness :
  let db' :=
    snd (edit_class Sample.env0
           (Sample.as_ Sample.teacher1 (POST (Some Sample.class_form)))
           1 Sample.db0) in
  same_but_classes Sample.db0 db'
  /\ Forall2 same_identity (classes Sample.db0) (classes db').
Proof.
  apply (@edit_class_keeps_identity Sample.env0
           (Sample.as_ Sample.teacher1 (POST (Some Sample.class_form))) 1
           Sample.db0 _
           (fst (edit_class Sample.env0
                   (Sample.as_ Sample.teacher1
                      (POST (Some Sample.class_form))) 1 Sample.db0))).
  - apply sample_classes_wf.
  - apply sample_classes_wf.
  - apply surjective_pairing.
Defined.

(** ** Uploading files to a lesson *)

Lemma file_errors_length (files : list UploadedFile) :
  List.length (file_errors_of files)
  = List.length (filter (fun f => negb (file_ok f)) files).
Proof.
  induction files as [| f files IH]; [reflexivity |].
  cbn [file_errors_of filter]. unfold file_ok at 1.
  destruct (validate_file_cases f) as [-> | [m ->]]; simpl; now rewrite IH.
Qed.

Lemma file_errors_nil (files : list UploadedFile) :
  forallb file_ok files = true -> file_errors_of files = [].
Proof.
  induction files as [| f files IH]; [reflexivity |].
  cbn [forallb file_errors_of]. intros H. apply andb_true_iff in H.
  destruct H as [Hf Hrest]. unfold file_ok in Hf.
  destruct (validate_file f) as [[] | e |]; try discriminate. now apply IH.
Qed.

Lemma edit_lesson_owner (env : Env) (u : User.t) (lesson_id : Z) (db : DB)
  (l : Lesson.t) (form : Lesson.form) (files : list UploadedFile) :
  owns_lesson u lesson_id db l ->
  edit_lesson env {| user := Some u; method := POST (Some form, files) |}
    lesson_id db
  = match file_errors_of files with
    | [] =>
        (Lesson_save env (Lesson.with_form form l) ;;;
         create_files env lesson_id files ;;;
         ret (answer (redirect (lesson_detail lesson_id)) success
                "Lesson updated successfully!"))%db db
    | _ :: _ => (Ok (page "core/edit_lesson.html" (file_errors_of files)), db)
    end.
Proof.
  intros [Hrole [Hl [c [Hc Hteacher]]]].
  unfold edit_lesson, teacher_required. cbn [user method].
  rewrite (role_check _ Hrole). unfold edit_lesson_view.
  unfold mbind at 1. rewrite Hl. unfold mbind at 1. rewrite Hc.
  rewrite (is_user_owner _ Hteacher).
  destruct (file_errors_of files); reflexivity.
Qed.

(** X8. An upload is all or nothing: when the owner edits a lesson and
    one of the uploaded files fails validation, neither the edited fields
    nor any of the files, valid ones included, are stored; the form comes
    back with one error for each file that failed. *)
Theorem edit_lesson_bad_upload (env : Env) (u : User.t) (lesson_id : Z)
  (db : DB) (l : Lesson.t) (form : Lesson.form) (files : list UploadedFile)
  (f : UploadedFile) :
  owns_lesson u lesson_id db l ->
  In f files ->
  file_ok f = false ->
  edit_lesson env {| user := Some u; method := POST (Some form, files) |}
    lesson_id db
  = (Ok (page "core/edit_lesson.html" (file_errors_of files)), db)
  /\ List.length (file_errors_of files)
     = List.length (filter (fun f => negb (file_ok f)) files)
  /\ (0 < List.length (file_errors_of files))%nat.
Proof.
  intros Hown Hin Hbad.
  assert (Hlen : (0 < List.length (file_errors_of files))%nat).
  { rewrite file_errors_length.
    assert (Hf : In f (filter (fun f => negb (file_ok f)) files)).
    { apply filter_In. split; [assumption | now rewrite Hbad]. }
    destruct (filter _ files); [contradiction | simpl; lia]. }
  split; [| split; [apply file_errors_length | assumption]].
  rewrite (edit_lesson_owner env form files Hown).
  destruct (file_errors_of files); [simpl in Hlen; lia | reflexivity].
Qed.

Lemma edit_lesson_bad_upload_witness :
  edit_lesson Sample.env0
    (Sample.as_ Sample.teacher1
       (POST (Some Sample.lesson_form,
              [Sample.essay; Sample2.program; Sample2.slides])))
    1 Sample.db0
  = (Ok (page "core/edit_lesson.html"
           (file_errors_of [Sample.essay; Sample2.program; Sample2.slides])),
     Sample.db0)
  /\ List.length
       (file_errors_of [Sample.essay; Sample2.program; Sample2.slides])
     = 1%nat.
Proof.
  destruct (@edit_lesson_bad_upload Sample.env0 Sample.teacher1 1 Sample.db0
              Sample.lesson1 Sample.lesson_form
              [Sample.essay; Sample2.program; Sample2.slides]
              Sample2.program) as [Hrun [Hlen _]].
  - repeat split. exists Sample.class1. split; reflexivity.
  - simpl. tauto.
  - reflexivity.
  - split; [exact Hrun | rewrite Hlen; reflexivity].
Defined.

Lemma create_files_appends (env : Env) (lesson_id : Z)
  (files : list UploadedFile) :
  forall db,
  exists new,
    create_files env lesson_id files db
    = (Ok tt, with_lesson_files (lesson_files db ++ new) db)
    /\ map LessonFile.file_name new = map name files
    /\ map LessonFile.file_size new = map size files
    /\ Forall (fun r => LessonFile.lesson r = lesson_id
                        /\ LessonFile.uploaded_at r = now env) new.
Proof.
  induction files as [| f files IH]; intros db.
  - exists []. rewrite app_nil_r. repeat split; [| constructor].
    destruct db; reflexivity.
  - cbn [create_files]. unfold mbind at 1.
    unfold LessonFile_create at 1, modify at 1.
    match goal with
    | |- context [create_files env lesson_id files ?d] =>
        destruct (IH d) as [new [Hrun [Hnames [Hsizes Hall]]]]; rewrite Hrun
    end.
    eexists (_ :: new). cbn [lesson_files with_lesson_files].
    rewrite <- app_assoc. cbn [app]. split; [reflexivity |].
    cbn [map LessonFile.file_name LessonFile.file_size].
    rewrite Hnames, Hsizes. repeat split. constructor; [| assumption].
    split; reflexivity.
Qed.

(** X9. When every uploaded file passes validation, the owner's edit
    stores the fields of the form in the lesson and appends exactly one
    file row for each upload, in order, with its name and size, attached
    to that lesson; the files already there are kept. *)
Theorem edit_lesson_stores_uploads (env : Env) (u : User.t) (lesson_id : Z)
  (db : DB) (l : Lesson.t) (form : Lesson.form) (files : list UploadedFile) :
  owns_lesson u lesson_id db l ->
  forallb file_ok files = true ->
  exists new,
    edit_lesson env {| user := Some u; method := POST (Some form, files) |}
      lesson_id db
    = (Ok (answer (redirect (lesson_detail lesson_id)) success
             "Lesson updated successfully!"),
       with_lesson_files (lesson_files db ++ new)
         (with_lessons
            (replace_row Lesson.id lesson_id
               (Lesson.with_updated_at (now env) (Lesson.with_form form l))
               (lessons db)) db))
    /\ map LessonFile.file_name new = map name files
    /\ map LessonFile.file_size new = map size files
    /\ Forall (fun r => LessonFile.lesson r = lesson_id
                        /\ LessonFile.uploaded_at r = now env) new.
Proof.
  intros Hown Hok.
  rewrite (edit_lesson_owner env form files Hown).
  rewrite (file_errors_nil _ Hok).
  destruct Hown as [_ [Hl _]]. unfold lesson_or_404 in Hl.
  injection Hl as Hl. apply get_object_or_404_Ok in Hl.
  destruct Hl as [Hin Hpk].
  unfold mbind at 1. unfold Lesson_save.
  replace (Lesson.id (Lesson.with_updated_at (now env)
                        (Lesson.with_form form l)))
    with (Some lesson_id)
    by (apply is_pk_true in Hpk; destruct l; simpl in *; congruence).
  replace (exists_ (fun l0 => is_pk lesson_id (Lesson.id l0)) (lessons db))
    with true
    by (symmetry; apply exists_true; eauto).
  unfold mbind at 1.
  match goal with
  | |- context [create_files env lesson_id files ?d] =>
      destruct (create_files_appends env lesson_id files d)
        as [new [Hrun [Hnames [Hsizes Hall]]]]; rewrite Hrun
  end.
  exists new. repeat split; assumption.
Qed.

Lemma edit_lesson_stores_uploads_witness :
  exists new,
    snd (edit_lesson Sample.env0
           (Sample.as_ Sample.teacher1
              (POST (Some Sample.lesson_form, [Sample.essay; Sample2.slides])))
           1 Sample2.db1)
    = with_lesson_files ([Sample2.lesson_file1] ++ new)
        (with_lessons
           [Lesson.with_updated_at 60
              (Lesson.with_form Sample.lesson_form Sample.lesson1)]
           Sample2.db1)
    /\ map LessonFile.file_name new = ["essay.pdf"; "slides.PPTX"].
Proof.
  destruct (@edit_lesson_stores_uploads Sample.env0 Sample.teacher1 1
              Sample2.db1 Sample.lesson1 Sample.lesson_form
              [Sample.essay; Sample2.slides])
    as [new [Hrun [Hnames _]]].
  - repeat split. exists Sample.class1. split; reflexivity.
  - reflexivity.
  - exists new. split; [exact (f_equal snd Hrun) | exact Hnames].
Defined.
(** ** Deleting a lesson or an assignment *)

Lemma delete_rows_In {A : Type} (p : A -> bool) (rows : list A) (x : A) :
  In x (delete_rows p rows) <-> In x rows /\ p x = false.
Proof.
  unfold delete_rows. rewrite filter_In.
  destruct (p x); simpl; intuition congruence.
Qed.

(** X10. When the owner deletes a lesson, the lesson goes together with
    its files, its questions and the answers to those questions, and
    nothing else goes: the rows of other lessons, and every class,
    enrollment, assignment and submission, are kept. *)
Theorem delete_lesson_cascades (u : User.t) (lesson_id : Z) (db : DB)
  (l : Lesson.t) :
  owns_lesson u lesson_id db l ->
  exists db',
    delete_lesson {| user := Some u; method := POST tt |} lesson_id db
    = (Ok (answer (redirect (class_detail (Lesson.class_lesson l))) success
             ("Lesson " ++ quoted (Lesson.title l) ++ " has been deleted.")),
       db')
    /\ (forall x, In x (lessons db') <->
                  In x (lessons db) /\ Lesson.id x <> Some lesson_id)
    /\ (forall f, In f (lesson_files db') <->
                  In f (lesson_files db) /\ LessonFile.lesson f <> lesson_id)
    /\ (forall q, In q (questions db') <->
                  In q (questions db) /\ Question.lesson q <> lesson_id)
    /\ (forall a, In a (answers db') <->
                  In a (answers db)
                  /\ forall q, In q (questions db) ->
                               Question.id q = Some (Answer.question a) ->
                               Question.lesson q <> lesson_id)
    /\ classes db' = classes db
    /\ enrollments db' = enrollments db
    /\ assignments db' = assignments db
    /\ submissions db' = submissions db
    /\ announcements db' = announcements db.
Proof.
  intros [Hrole [Hl [c [Hc Hteacher]]]].
  unfold delete_lesson, teacher_required. cbn [user method].
  rewrite (role_check _ Hrole). unfold delete_lesson_view.
  unfold mbind at 1. rewrite Hl. unfold mbind at 1. rewrite Hc.
  rewrite (is_user_owner _ Hteacher).
  unfold mbind, Lesson_delete, modify, ret.
  eexists. split; [reflexivity |].
  cbn [lessons lesson_files questions answers classes enrollments assignments
       submissions announcements with_lessons with_lesson_files
       with_questions with_answers].
  split; [| split; [| split; [| split; [| repeat split]]]].
  - intros x. rewrite delete_rows_In. split; intros [Hin H]; (split; [assumption |]).
    + intros Heq. apply is_pk_true in Heq. congruence.
    + destruct (is_pk lesson_id (Lesson.id x)) eqn:E; [| reflexivity].
      apply is_pk_true in E. contradiction.
  - intros f. rewrite delete_rows_In, Z.eqb_neq. reflexivity.
  - intros q. rewrite delete_rows_In, Z.eqb_neq. reflexivity.
  - intros a. rewrite delete_rows_In. split; intros [Hin H]; (split; [assumption |]).
    + intros q Hq Hid Hlesson.
      apply (exists_false _ _ H) in Hq. simpl in Hq.
      rewrite Hid, Hlesson in Hq. simpl in Hq.
      now rewrite !Z.eqb_refl in Hq.
    + destruct (exists_ _ (questions db)) eqn:E; [| reflexivity].
      apply exists_true in E. destruct E as [q [Hq Hb]].
      apply andb_true_iff in Hb. destruct Hb as [Hgone Hpk].
      apply Z.eqb_eq in Hgone. apply is_pk_true in Hpk.
      now apply (H q Hq) in Hpk.
Qed.

Lemma delete_lesson_cascades_witness :
  exists db',
    snd (delete_lesson (Sample.as_ Sample.teacher1 (POST tt)) 1 Sample2.db1)
    = db'
    /\ lessons db' = [] /\ lesson_files db' = [] /\ questions db' = []
    /\ answers db' = [] /\ classes db' = classes Sample.db0.
Proof.
  destruct (@delete_lesson_cascades Sample.teacher1 1 Sample2.db1
              Sample.lesson1) as [db' [Hrun [_ [_ [_ [_ [Hclasses _]]]]]]].
  - repeat split. exists Sample.class1. split; reflexivity.
  - exists db'. split; [exact (f_equal snd Hrun) |].
    injection Hrun as <-. repeat split.
Defined.

(** X11. When the owner deletes an assignment, the assignment goes
    together with the submissions made for it, and nothing else goes:
    every other assignment and submission and every other table is
    kept. *)
Theorem delete_assignment_cascades (u : User.t) (assignment_id : Z) (db : DB)
  (a : Assignment.t) :
  owns_assignment u assignment_id db a ->
  exists db',
    delete_assignment {| user := Some u; method := POST tt |} assignment_id db
    = (Ok (answer (redirect (class_detail (Assignment.class_assignment a)))
             success
             ("Assignment " ++ quoted (Assignment.title a)
                ++ " has been deleted.")), db')
    /\ (forall x, In x (assignments db') <->
                  In x (assignments db)
                  /\ Assignment.id x <> Some assignment_id)
    /\ (forall s, In s (submissions db') <->
                  In s (submissions db)
                  /\ Submission.assignment s <> assignment_id)
    /\ classes db' = classes db
    /\ enrollments db' = enrollments db
    /\ lessons db' = lessons db
    /\ lesson_files db' = lesson_files db
    /\ questions db' = questions db
    /\ answers db' = answers db
    /\ announcements db' = announcements db.
Proof.
  intros [Hrole [Ha [c [Hc Hteacher]]]].
  unfold delete_assignment, teacher_required. cbn [user method].
  rewrite (role_check _ Hrole). unfold delete_assignment_view.
  unfold mbind at 1. rewrite Ha. unfold mbind at 1. rewrite Hc.
  rewrite (is_user_owner _ Hteacher).
  unfold mbind, Assignment_delete, modify, ret.
  eexists. split; [reflexivity |].
  cbn [lessons lesson_files questions answers classes enrollments assignments
       submissions announcements with_assignments with_submissions].
  split; [| split; [| repeat split]].
  - intros x. rewrite delete_rows_In. split; intros [Hin H]; (split; [assumption |]).
    + intros Heq. apply is_pk_true in Heq. congruence.
    + destruct (is_pk assignment_id (Assignment.id x)) eqn:E; [| reflexivity].
      apply is_pk_true in E. contradiction.
  - intros s. rewrite delete_rows_In, Z.eqb_neq. reflexivity.
Qed.

Lemma delete_assignment_cascades_witness :
  exists db',
    snd (delete_assignment (Sample.as_ Sample.teacher1 (POST tt)) 1
           Sample.db0) = db'
    /\ assignments db' = [Sample.assignment2]
    /\ submissions db' = []
    /\ enrollments db' = enrollments Sample.db0.
Proof.
  destruct (@delete_assignment_cascades Sample.teacher1 1 Sample.db0
              Sample.assignment1) as [db' [Hrun _]].
  - repeat split. exists Sample.class1. split; reflexivity.
  - exists db'. split; [exact (f_equal snd Hrun) |].
    injection Hrun as <-. repeat split.
Defined.

(** ** Submitting work *)

Lemma first_none {A : Type} (p : A -> bool) (rows : list A) :
  exists_ p rows = false -> first p rows = None.
Proof.
  intros H. unfold first. destruct (find p rows) as [x |] eqn:E;
    [| reflexivity].
  apply find_some in E. destruct E as [Hin Hp].
  apply (exists_false _ _ H) in Hin. congruence.
Qed.

Lemma SubmissionForm_valid_iff (f : UploadedFile) :
  SubmissionForm_is_valid (Some f) = (if file_ok f then Some f else None).
Proof.
  unfold SubmissionForm_is_valid, file_ok, validate_file, bind.
  destruct (validate_file_extension f) as [[] | e |];
    destruct (validate_file_size f) as [[] | e' |]; reflexivity.
Qed.

(** What the view does for a student who is through the checks and has
    not submitted yet. *)
Lemma submit_assignment_open (env : Env) (u : User.t) (assignment_id : Z)
  (db : DB) (a : Assignment.t) (c : Class_.t) (file : option UploadedFile) :
  reaches_assignment u assignment_id db a c ->
  actively_enrolled u c db = true ->
  has_submitted u assignment_id db = false ->
  submit_assignment env {| user := Some u; method := POST file |}
    assignment_id db
  = match SubmissionForm_is_valid file with
    | Some f =>
        (Ok (answer (redirect (assignment_detail assignment_id)) success
               "Assignment submitted successfully!"),
         with_submissions
           (submissions db ++ [first_submission env u assignment_id a f db])
           db)
    | None => (Ok (page "core/submit_assignment.html" []), db)
    end.
Proof.
  intros [Hrole [Hpub [Hfk Hclass]]] Hen Hnone.
  unfold actively_enrolled in Hen. unfold has_submitted in Hnone.
  unfold submit_assignment, student_required. cbn [user method].
  rewrite (role_check _ Hrole). unfold submit_assignment_view.
  unfold mbind at 1. unfold query at 1. rewrite Hpub.
  unfold mbind at 1. unfold lift at 1.
  unfold mbind at 1. rewrite Hclass.
  unfold mbind at 1. unfold query at 1. rewrite Hen. cbn [negb].
  unfold mbind at 1. unfold query at 1. rewrite (first_none _ _ Hnone).
  destruct (SubmissionForm_is_valid file) as [f |]; [| reflexivity].
  unfold mbind at 1.
  unfold Submission_save, Submission_assignment.
  cbn [Submission.fields Submission.load Submission.of_form
       Submission.with_assignment Submission.with_student Submission.id
       Submission.submitted_at Submission.status Submission.on_fields
       Submission.with_submitted_at Submission.assignment no_pk String.eqb].
  unfold Assignment_by_pk in Hfk. injection Hfk as Hfk.
  unfold mbind at 1. unfold mbind at 1. rewrite Hfk.
  unfold first_submission, Assignment_is_overdue.
  rewrite Z.gtb_ltb, Z.ltb_antisym.
  destruct (now env <=? Assignment.due_date a);
    unfold ret, mbind, Submission_model_save, same_pair; simpl;
    unfold exists_ in Hnone; unfold exists_; rewrite Hnone; reflexivity.
Qed.

(** X12. The first valid upload of an actively enrolled student for a
    published assignment is stored as one new submission of that student
    for that assignment, without points. Its [submitted_at] is the
    reading the insert takes of the clock. Its status comes from the
    reading [Submission.save] takes before: LATE exactly when that
    reading is after the due date, which is what [Assignment.is_overdue]
    computes at that reading, and ON_TIME otherwise. *)
Theorem submit_assignment_first (env : Env) (u : User.t) (assignment_id : Z)
  (db : DB) (a : Assignment.t) (c : Class_.t) (f : UploadedFile) :
  reaches_assignment u assignment_id db a c ->
  actively_enrolled u c db = true ->
  has_submitted u assignment_id db = false ->
  file_ok f = true ->
  let row := first_submission env u assignment_id a f db in
  let db' := with_submissions (submissions db ++ [row]) db in
  submit_assignment env {| user := Some u; method := POST (Some f) |}
    assignment_id db
  = (Ok (answer (redirect (assignment_detail assignment_id)) success
           "Assignment submitted successfully!"), db')
  /\ Submission.student row = User.id u
  /\ Submission.assignment row = assignment_id
  /\ Submission.points row = None
  /\ Submission.submitted_at row = Some (now_insert env)
  /\ (Submission.status row = "LATE" <-> Assignment.due_date a < now env)
  /\ (Submission.status row = "LATE" <-> Assignment_is_overdue env a = true)
  /\ (Submission.status row = "ON_TIME" <->
      now env <= Assignment.due_date a)
  /\ has_submitted u assignment_id db' = true.
Proof.
  intros Hreach Hen Hnone Hok row db'.
  split; [| do 4 (split; [reflexivity |]); split; [| split; [| split]]].
  - rewrite (submit_assignment_open env (Some f) Hreach Hen Hnone).
    now rewrite SubmissionForm_valid_iff, Hok.
  - subst row. cbn [Submission.status first_submission].
    unfold Assignment_is_overdue.
    destruct (Z.gtb_spec (now env) (Assignment.due_date a)); split;
      intros; try reflexivity; try discriminate; lia.
  - subst row. cbn [Submission.status first_submission].
    destruct (Assignment_is_overdue env a); split; congruence.
  - subst row. cbn [Submission.status first_submission].
    unfold Assignment_is_overdue.
    destruct (Z.gtb_spec (now env) (Assignment.due_date a)); split;
      intros; try reflexivity; try discriminate; lia.
  - unfold has_submitted. apply exists_true. exists row. split.
    + subst db'. cbn [submissions with_submissions]. apply in_or_app.
      right. now left.
    + subst row. simpl. now rewrite !Z.eqb_refl.
Qed.

Lemma submit_assignment_first_witness :
  let row :=
    first_submission Sample.env0 Sample.student1 2 Sample.assignment2
      Sample.essay Sample.db0 in
  submit_assignment Sample.env0
    (Sample.as_ Sample.student1 (POST (Some Sample.essay))) 2 Sample.db0
  = (Ok (answer (redirect (assignment_detail 2)) success
           "Assignment submitted successfully!"),
     with_submissions (submissions Sample.db0 ++ [row]) Sample.db0)
  /\ Submission.submitted_at row = Some 61
  /\ Submission.status row = "LATE".
Proof.
  destruct (@submit_assignment_first Sample.env0 Sample.student1 2 Sample.db0
              Sample.assignment2 Sample.class1 Sample.essay)
    as [Hrun [_ [_ [_ [Hat [Hlate _]]]]]].
  - repeat split.
  - reflexivity.
  - reflexivity.
  - reflexivity.
  - split; [exact Hrun |]. split; [exact Hat |].
    apply Hlate. reflexivity.
Defined.

(** X13. A student without an active enrollment in the class of the
    assignment (never enrolled, or deactivated) cannot submit: whatever
    the request carries, the answer is the redirect to the dashboard with
    "You are not enrolled in this class." and nothing is stored. *)
Theorem submit_assignment_needs_enrollment (env : Env) (u : User.t)
  (assignment_id : Z) (db : DB) (a : Assignment.t) (c : Class_.t)
  (m : http_method (option UploadedFile)) :
  reaches_assignment u assignment_id db a c ->
  actively_enrolled u c db = false ->
  submit_assignment env {| user := Some u; method := m |} assignment_id db
  = (Ok (answer (redirect dashboard) error
           "You are not enrolled in this class."), db).
Proof.
  intros [Hrole [Hpub [_ Hclass]]] Hen. unfold actively_enrolled in Hen.
  unfold submit_assignment, student_required. cbn [user method].
  rewrite (role_check _ Hrole). unfold submit_assignment_view.
  unfold mbind at 1. unfold query at 1. rewrite Hpub.
  unfold mbind at 1. unfold lift at 1.
  unfold mbind at 1. rewrite Hclass.
  unfold mbind at 1. unfold query at 1. rewrite Hen. reflexivity.
Qed.

Lemma submit_assignment_needs_enrollment_witness :
  submit_assignment Sample.env0
    (Sample.as_ Sample2.student2 (POST (Some Sample.essay))) 2 Sample.db0
  = (Ok (answer (redirect dashboard) error
           "You are not enrolled in this class."), Sample.db0).
Proof.
  apply (@submit_assignment_needs_enrollment Sample.env0 Sample2.student2 2
           Sample.db0 Sample.assignment2 Sample.class1).
  - repeat split.
  - reflexivity.
Defined.

(** X14. An upload that fails validation (an extension off the list, or
    more than 10 MiB) is not stored: the student who could submit gets
    the form back, and the database is left as it was. *)
Theorem submit_assignment_bad_file (env : Env) (u : User.t)
  (assignment_id : Z) (db : DB) (a : Assignment.t) (c : Class_.t)
  (f : UploadedFile) :
  reaches_assignment u assignment_id db a c ->
  actively_enrolled u c db = true ->
  has_submitted u assignment_id db = false ->
  file_ok f = false ->
  submit_assignment env {| user := Some u; method := POST (Some f) |}
    assignment_id db
  = (Ok (page "core/submit_assignment.html" []), db).
Proof.
  intros Hreach Hen Hnone Hbad.
  rewrite (submit_assignment_open env (Some f) Hreach Hen Hnone).
  now rewrite SubmissionForm_valid_iff, Hbad.
Qed.

Lemma submit_assignment_bad_file_witness :
  submit_assignment Sample.env0
    (Sample.as_ Sample.student1 (POST (Some Sample2.program))) 2 Sample.db0
  = (Ok (page "core/submit_assignment.html" []), Sample.db0).
Proof.
  apply (@submit_assignment_bad_file Sample.env0 Sample.student1 2 Sample.db0
           Sample.assignment2 Sample.class1 Sample2.program);
    try reflexivity.
  repeat split.
Defined.
(** Case analysis on a scrutinee that holds no other case analysis. *)
Ltac case_inner :=
  match goal with
  | |- context [match ?x with _ => _ end] =>
      lazymatch x with
      | context [match _ with _ => _ end] => fail
      | _ => destruct x eqn:?
      end
  end.

Lemma Submission_save_new (env : Env) (self : Submission.instance)
  (db db' : DB) (r : result Submission.instance) :
  Submission.id (Submission.fields self) = None ->
  Submission_save env self db = (r, db') ->
  db' = db
  \/ exists row,
       db' = with_submissions (submissions db ++ [row]) db
       /\ exists_ (same_pair row) (submissions db) = false.
Proof.
  destruct self as [[i asg stu f fn sub st p fbk] g]. simpl. intros ->.
  unfold Submission_save, mbind, ret, raise, Submission_assignment,
    Submission_model_save, same_pair.
  simpl.
  destruct sub as [t |], st as [| ch st], fbk as [fb |]; simpl;
    repeat (case_inner; simpl);
    intros [= <- <-]; try (now left);
    right; eexists; (split; [reflexivity |]); simpl; assumption.
Qed.

(** X15. Whatever the request, [submit_assignment] keeps the submission
    table at one row per pair of assignment and student: a second row for
    a pair is never written. *)
Theorem submit_assignment_keeps_one_per_pair (env : Env)
  (request : Request (option UploadedFile)) (assignment_id : Z)
  (db db' : DB) (r : result reply) :
  one_per_pair db ->
  submit_assignment env request assignment_id db = (r, db') ->
  one_per_pair db'.
Proof.
  intros Hone Hrun.
  assert (Hcases : db' = db
            \/ exists row,
                 db' = with_submissions (submissions db ++ [row]) db
                 /\ exists_ (same_pair row) (submissions db) = false).
  { revert Hrun. unfold submit_assignment, student_required.
    destruct (user request) as [u |]; [| intros [= <- <-]; now left].
    destruct (negb _); [intros [= <- <-]; now left |].
    unfold submit_assignment_view.
    unfold mbind at 1. unfold query at 1. unfold mbind at 1. unfold lift at 1.
    destruct (get_object_or_404 _ (assignments db)) as [a | e |];
      try (intros [= <- <-]; now left).
    unfold mbind at 1.
    destruct (Class_by_pk (Assignment.class_assignment a) db)
      as [[c | e |] db0] eqn:Hc;
      unfold Class_by_pk in Hc; injection Hc as _ <-;
      try (intros [= <- <-]; now left).
    unfold mbind at 1. unfold query at 1.
    destruct (negb _); [intros [= <- <-]; now left |].
    unfold mbind at 1. unfold query at 1.
    assert (Hview : forall m : M reply,
               (forall r0 db0, m db = (r0, db0) ->
                  db0 = db
                  \/ exists row,
                       db0 = with_submissions (submissions db ++ [row]) db
                       /\ exists_ (same_pair row) (submissions db) = false) ->
               forall r0 db0, m db = (r0, db0) ->
                  db0 = db
                  \/ exists row,
                       db0 = with_submissions (submissions db ++ [row]) db
                       /\ exists_ (same_pair row) (submissions db) = false)
      by auto.
    assert (Hpost : forall r0 db0,
               match method request with
               | GET => ret (page "core/submit_assignment.html" [])
               | POST file =>
                   match SubmissionForm_is_valid file with
                   | Some f0 =>
                       (Submission_save env
                          (Submission.load
                             (Submission.with_student (User.id u)
                                (Submission.with_assignment assignment_id
                                   (Submission.of_form f0)))) ;;;
                        ret (answer (redirect (assignment_detail assignment_id))
                               success "Assignment submitted successfully!"))%db
                   | None => ret (page "core/submit_assignment.html" [])
                   end
               end db = (r0, db0) ->
               db0 = db
               \/ exists row,
                    db0 = with_submissions (submissions db ++ [row]) db
                    /\ exists_ (same_pair row) (submissions db) = false).
    { intros r0 db0.
      destruct (method request) as [| file]; [intros [= <- <-]; now left |].
      destruct (SubmissionForm_is_valid file) as [f0 |];
        [| intros [= <- <-]; now left].
      unfold mbind at 1.
      destruct (Submission_save env _ db) as [r1 db1] eqn:Hsave.
      apply Submission_save_new in Hsave; [| reflexivity].
      destruct r1; intros [= <- <-]; assumption. }
    destruct (first _ (submissions db));
      [destruct (Assignment.allow_late_submission a) |];
      try (intros [= <- <-]; now left); apply Hpost. }
  destruct Hcases as [-> | [row [-> Hfresh]]]; [assumption |].
  intros x y Hx Hy Hpair. cbn [submissions with_submissions] in Hx, Hy.
  apply in_app_or in Hx. apply in_app_or in Hy.
  destruct Hx as [Hx | [<- | []]], Hy as [Hy | [<- | []]].
  - now apply Hone.
  - apply (exists_false _ _ Hfresh) in Hx. unfold same_pair in *.
    apply andb_true_iff in Hpair. destruct Hpair as [H1 H2].
    apply Z.eqb_eq in H1. apply Z.eqb_eq in H2.
    rewrite H1, H2, !Z.eqb_refl in Hx. discriminate.
  - apply (exists_false _ _ Hfresh) in Hy. congruence.
  - reflexivity.
Qed.

Lemma sample_one_per_pair : one_per_pair Sample.db0.
Proof. intros r r' [<- | []] [<- | []] _. reflexivity. Defined.

Lemma submit_assignment_keeps_one_per_pair_witness :
  one_per_pair
    (snd (submit_assignment Sample.env0
            (Sample.as_ Sample.student1 (POST (Some Sample.essay))) 2
            Sample.db0)).
Proof.
  eapply (@submit_assignment_keeps_one_per_pair Sample.env0
            (Sample.as_ Sample.student1 (POST (Some Sample.essay))) 2
            Sample.db0).
  - apply sample_one_per_pair.
  - apply surjective_pairing.
Defined.

(** X16. A first submission is counted: after it the assignment has one
    submission more, and one student less is missing. *)
Theorem submit_assignment_counts (env : Env) (u : User.t) (assignment_id : Z)
  (db : DB) (a : Assignment.t) (c : Class_.t) (f : UploadedFile) :
  reaches_assignment u assignment_id db a c ->
  actively_enrolled u c db = true ->
  has_submitted u assignment_id db = false ->
  file_ok f = true ->
  exists r db' missing,
    submit_assignment env {| user := Some u; method := POST (Some f) |}
      assignment_id db = (Ok r, db')
    /\ Assignment_get_submission_count a db'
       = Assignment_get_submission_count a db + 1
    /\ Assignment_get_missing_count a db = (Ok missing, db)
    /\ Assignment_get_missing_count a db' = (Ok (missing - 1), db').
Proof.
  intros Hreach Hen Hnone Hok.
  rewrite (submit_assignment_open env (Some f) Hreach Hen Hnone).
  rewrite SubmissionForm_valid_iff, Hok.
  destruct Hreach as [_ [Hpub [_ Hclass]]]. apply get_object_or_404_Ok in Hpub.
  destruct Hpub as [_ Hb]. apply andb_true_iff in Hb. destruct Hb as [Hpk _].
  apply is_pk_true in Hpk.
  set (db' := with_submissions
                (submissions db
                   ++ [first_submission env u assignment_id a f db]) db).
  assert (Hcount : Assignment_get_submission_count a db'
                   = Assignment_get_submission_count a db + 1).
  { unfold Assignment_get_submission_count. subst db'.
    cbn [submissions with_submissions]. rewrite count_app. f_equal.
    unfold count. cbn [filter first_submission Submission.assignment].
    rewrite Hpk. cbn [is_pk]. now rewrite Z.eqb_refl. }
  unfold Class_by_pk in Hclass. injection Hclass as Hclass.
  do 3 eexists. split; [reflexivity |]. split; [exact Hcount |].
  unfold Assignment_get_missing_count, mbind, query, Class_by_pk.
  rewrite Hclass. split; [reflexivity |].
  cbn [classes with_submissions db']. subst db'.
  cbn [classes with_submissions]. rewrite Hclass. rewrite Hcount.
  cbn [enrollments with_submissions]. f_equal. f_equal. lia.
Qed.

Lemma submit_assignment_counts_witness :
  exists r db',
    submit_assignment Sample.env0
      (Sample.as_ Sample.student1 (POST (Some Sample.essay))) 2 Sample.db0
    = (Ok r, db')
    /\ Assignment_get_submission_count Sample.assignment2 db' = 0 + 1
    /\ Assignment_get_missing_count Sample.assignment2 db' = (Ok (1 - 1), db').
Proof.
  destruct (@submit_assignment_counts Sample.env0 Sample.student1 2 Sample.db0
              Sample.assignment2 Sample.class1 Sample.essay)
    as [r [db' [missing [Hrun [Hcount [Hbefore Hafter]]]]]];
    try reflexivity.
  { repeat split. }
  exists r, db'. split; [exact Hrun |]. split; [exact Hcount |].
  injection Hbefore as <-. exact Hafter.
Defined.

(** ** Grading: what it leaves alone *)

Lemma get_Ok_only {A : Type} (p : A -> bool) (rows : list A) (x y : A) :
  get p rows = Ok x -> In y rows -> p y = true -> y = x.
Proof.
  unfold get. intros H Hin Hp.
  assert (Hy : In y (filter p rows)) by (apply filter_In; auto).
  destruct (filter p rows) as [| z [| z' l]]; try discriminate.
  injection H as <-. destruct Hy as [-> | []]. reflexivity.
Qed.

Lemma get_object_or_404_only {A : Type} (p : A -> bool) (rows : list A)
  (x y : A) :
  get_object_or_404 p rows = Ok x -> In y rows -> p y = true -> y = x.
Proof.
  unfold get_object_or_404. intros H. apply get_Ok_only.
  destruct (get p rows) as [z | [] |]; congruence.
Qed.

Lemma Submission_save_existing (env : Env) (self : Submission.instance)
  (i : Z) (x : Submission.t) (db db' : DB) (r : result Submission.instance) :
  Submission.id (Submission.fields self) = Some i ->
  In x (submissions db) -> Submission.id x = Some i ->
  Submission_save env self db = (r, db') ->
  db' = db
  \/ exists row,
       db' = with_submissions
               (replace_row Submission.id i row (submissions db)) db
       /\ same_work (Submission.fields self) row.
Proof.
  destruct self as [[j asg stu f fn sub st p fbk] g]. simpl.
  intros -> Hin Hx.
  assert (Hpk : exists_ (fun r => is_pk i (Submission.id r)) (submissions db)
                = true).
  { apply exists_true. exists x. split; [assumption | now apply is_pk_true]. }
  unfold Submission_save, mbind, ret, raise, Submission_assignment,
    Submission_model_save, same_pair.
  destruct sub as [t |], st as [| ch st], fbk as [fb |]; simpl;
    try rewrite Hpk;
    repeat (case_inner; simpl; try rewrite Hpk);
    intros [= <- <-]; try (now left);
    right; eexists; (split; [reflexivity |]); repeat split.
Qed.

(** X17. Whatever the request, grading writes to the submission table
    only, adds and removes no submission, and leaves the key, the
    assignment, the student and the file of every submission as they
    were. *)
Theorem grade_submission_frame (int : string -> option Z) (env : Env)
  (request : Request GradeForm) (submission_id : Z) (db db' : DB)
  (r : result reply) :
  grade_submission int env request submission_id db = (r, db') ->
  same_but_submissions db db'
  /\ Forall2 same_work (submissions db) (submissions db').
Proof.
  assert (Hsame : same_but_submissions db db
                  /\ Forall2 same_work (submissions db) (submissions db)).
  { split; [repeat split |]. apply Forall2_same. intros x _. repeat split. }
  unfold grade_submission, teacher_required.
  destruct (user request) as [u |]; [| now intros [= <- <-]].
  destruct (negb _); [now intros [= <- <-] |].
  unfold grade_submission_view, submission_or_404. unfold mbind at 1.
  destruct (get_object_or_404 _ (submissions db)) as [row | e |] eqn:Hget;
    try now intros [= <- <-].
  unfold mbind at 1.
  destruct (Assignment_by_pk (Submission.assignment row) db)
    as [[a | e |] db0] eqn:Ha;
    unfold Assignment_by_pk in Ha; injection Ha as _ <-;
    try now intros [= <- <-].
  unfold mbind at 1.
  destruct (Class_by_pk (Assignment.class_assignment a) db)
    as [[c | e |] db0] eqn:Hc;
    unfold Class_by_pk in Hc; injection Hc as _ <-;
    try now intros [= <- <-].
  destruct (negb _); [now intros [= <- <-] |].
  destruct (method request) as [| data]; [now intros [= <- <-] |].
  destruct (post_points data) as [[| ch text] |]; try now intros [= <- <-].
  destruct (int (String ch text)) as [points |]; [| now intros [= <- <-]].
  destruct ((points <? 0) || (points >? Assignment.max_points a));
    [now intros [= <- <-] |].
  unfold mbind at 1.
  destruct (Submission_save env _ db) as [r1 db1] eqn:Hsave.
  pose proof (get_object_or_404_Ok _ _ Hget) as [Hin Hpk].
  apply is_pk_true in Hpk.
  apply (@Submission_save_existing env _ submission_id row db db1 r1) in Hsave;
    try assumption.
  assert (Hgoal : same_but_submissions db db1
                  /\ Forall2 same_work (submissions db) (submissions db1)).
  { destruct Hsave as [-> | [row' [-> Hwork]]]; [assumption |].
    split; [repeat split |]. cbn [submissions with_submissions].
    unfold replace_row. apply Forall2_map_r. intros x Hx.
    destruct (is_pk submission_id (Submission.id x)) eqn:E;
      [| repeat split].
    rewrite (@get_object_or_404_only _ _ _ _ _ Hget Hx E).
    destruct row; exact Hwork. }
  destruct r1; now intros [= <- <-].
Qed.

Lemma grade_submission_frame_witness :
  let db' :=
    snd (grade_submission PyInt.int Sample.env0
           (Sample.as_ Sample.teacher1
              (POST {| post_points := Some "95";
                       post_feedback := Some "Excellent work!" |}))
           1 Sample.db0) in
  same_but_submissions Sample.db0 db'
  /\ Forall2 same_work (submissions Sample.db0) (submissions db').
Proof.
  eapply (@grade_submission_frame PyInt.int Sample.env0
            (Sample.as_ Sample.teacher1
               (POST {| post_points := Some "95";
                        post_feedback := Some "Excellent work!" |}))
            1 Sample.db0).
  apply surjective_pairing.
Defined.

(** X18. Only the teacher of the class grades: a user who is not a
    teacher is sent to the dashboard by the decorator, a teacher of
    another class by the ownership check, and in both cases the database
    is left as it was, whatever was posted. *)
Theorem grade_submission_denied (int : string -> option Z) (env : Env)
  (u : User.t) (m : http_method GradeForm) (submission_id : Z) (db : DB) :
  (User.role u <> "TEACHER" ->
   grade_submission int env {| user := Some u; method := m |}
     submission_id db
   = (Ok (answer (redirect dashboard) error
            "Access denied. This page is for teachers only."), db))
  /\ (forall row a c,
        User.role u = "TEACHER" ->
        submission_or_404 submission_id db = (Ok row, db) ->
        Assignment_by_pk (Submission.assignment row) db = (Ok a, db) ->
        Class_by_pk (Assignment.class_assignment a) db = (Ok c, db) ->
        Class_.teacher c <> User.id u ->
        grade_submission int env {| user := Some u; method := m |}
          submission_id db
        = (Ok denied, db)).
Proof.
  split.
  - intros Hrole. unfold grade_submission, teacher_required.
    cbn [user method]. apply String.eqb_neq in Hrole. now rewrite Hrole.
  - intros row a c Hrole Hrow Ha Hc Hne.
    unfold grade_submission, teacher_required. cbn [user method].
    rewrite (role_check _ Hrole). unfold grade_submission_view.
    unfold mbind at 1. rewrite Hrow. unfold mbind at 1. rewrite Ha.
    unfold mbind at 1. rewrite Hc. now rewrite (not_is_user _ Hne).
Qed.

Lemma grade_submission_denied_witness :
  let data := {| post_points := Some "100"; post_feedback := Some "mine" |} in
  grade_submission PyInt.int Sample.env0
    (Sample.as_ Sample.student1 (POST data)) 1 Sample.db0
  = (Ok (answer (redirect dashboard) error
           "Access denied. This page is for teachers only."), Sample.db0)
  /\ grade_submission PyInt.int Sample.env0
       (Sample.as_ Sample.teacher2 (POST data)) 1 Sample.db0
     = (Ok denied, Sample.db0).
Proof.
  intros data. split.
  - apply (@grade_submission_denied PyInt.int Sample.env0 Sample.student1
             (POST data) 1 Sample.db0). discriminate.
  - apply (@grade_submission_denied PyInt.int Sample.env0 Sample.teacher2
             (POST data) 1 Sample.db0) with
      (row := Sample.submission1) (a := Sample.assignment1)
      (c := Sample.class1); try reflexivity.
    simpl. lia.
Defined.
(** ** Grading again *)

Lemma grade_submission_run (int : string -> option Z) (env : Env)
  (u : User.t) (submission_id : Z) (db : DB) (row : Submission.t)
  (a : Assignment.t) (text fb : string) (n : Z) :
  grades u submission_id db row a ->
  stored row ->
  one_per_pair db ->
  text <> "" ->
  int text = Some n ->
  0 <= n <= Assignment.max_points a ->
  grade_submission int env
    {| user := Some u;
       method := POST {| post_points := Some text;
                         post_feedback := Some fb |} |}
    submission_id db
  = (Ok (answer (redirect (assignment_detail (Submission.assignment row)))
           success "Submission graded successfully!"),
     with_submissions
       (replace_row Submission.id submission_id
          (Submission.with_feedback (Some fb)
             (Submission.with_points (Some n) row)) (submissions db)) db).
Proof.
  intros Howner Hstored Huniq Htext Hint Hrange.
  rewrite (grade_submission_owner int env Howner _). cbn [post_points].
  destruct text as [| ch text]; [congruence |]. rewrite Hint.
  replace ((n <? 0) || (n >? Assignment.max_points a)) with false.
  2: { symmetry. apply orb_false_iff. split; [apply Z.ltb_ge; lia |].
       rewrite Z.gtb_ltb. apply Z.ltb_ge. lia. }
  destruct Howner as [_ [Hrow _]]. unfold submission_or_404 in Hrow.
  injection Hrow as Hrow. apply get_object_or_404_Ok in Hrow.
  destruct Hrow as [Hin Hpk]. apply is_pk_true in Hpk.
  unfold mbind at 1.
  erewrite (@Submission_save_update env _ db submission_id fb row);
    try assumption; try reflexivity.
  intros r Hr Hpair. rewrite <- Hpk. apply (Huniq row r); assumption.
Qed.

Lemma filter_replace_row {A : Type} (pk : A -> option Z) (i : Z) (row : A)
  (rows : list A) :
  pk row = Some i ->
  filter (fun r => is_pk i (pk r)) (replace_row pk i row rows)
  = map (fun _ => row) (filter (fun r => is_pk i (pk r)) rows).
Proof.
  intros Hrow. unfold replace_row.
  induction rows as [| x rows IH]; [reflexivity |].
  cbn [map filter]. destruct (is_pk i (pk x)) eqn:E.
  - rewrite Hrow. cbn [is_pk]. rewrite Z.eqb_refl. cbn [map]. now rewrite IH.
  - rewrite E. assumption.
Qed.

Lemma get_replace_row {A : Type} (pk : A -> option Z) (i : Z) (row x : A)
  (rows : list A) :
  pk row = Some i ->
  get_object_or_404 (fun r => is_pk i (pk r)) rows = Ok x ->
  get_object_or_404 (fun r => is_pk i (pk r)) (replace_row pk i row rows)
  = Ok row.
Proof.
  intros Hrow. unfold get_object_or_404, get.
  rewrite (@filter_replace_row _ pk i row rows Hrow).
  destruct (filter _ rows) as [| y [| z l]]; try discriminate. reflexivity.
Qed.

Lemma replace_row_twice {A : Type} (pk : A -> option Z) (i : Z)
  (row row' : A) (rows : list A) :
  pk row = Some i ->
  replace_row pk i row' (replace_row pk i row rows)
  = replace_row pk i row' rows.
Proof.
  intros Hrow. unfold replace_row. rewrite map_map. apply map_ext.
  intros x. destruct (is_pk i (pk x)) eqn:E; [| now rewrite E].
  rewrite Hrow. cbn [is_pk]. now rewrite Z.eqb_refl.
Qed.

(** X19. The last grade stands: grading a submission and then grading it
    again leaves the database exactly as grading it once with the second
    points and feedback would. *)
Theorem grade_submission_again (int : string -> option Z) (env env' : Env)
  (u : User.t) (submission_id : Z) (db : DB) (row : Submission.t)
  (a : Assignment.t) (text1 fb1 text2 fb2 : string) (n1 n2 : Z) :
  grades u submission_id db row a ->
  stored row ->
  one_per_pair db ->
  text1 <> "" -> int text1 = Some n1 -> 0 <= n1 <= Assignment.max_points a ->
  text2 <> "" -> int text2 = Some n2 -> 0 <= n2 <= Assignment.max_points a ->
  let grade text fb :=
    grade_submission int env'
      {| user := Some u;
         method := POST {| post_points := Some text;
                           post_feedback := Some fb |} |} submission_id in
  let db1 :=
    snd (grade_submission int env
           {| user := Some u;
              method := POST {| post_points := Some text1;
                                post_feedback := Some fb1 |} |}
           submission_id db) in
  grade text2 fb2 db1 = grade text2 fb2 db.
Proof.
  intros Howner Hstored Huniq Ht1 Hi1 Hr1 Ht2 Hi2 Hr2 grade db1.
  subst grade db1.
  rewrite (@grade_submission_run int env u submission_id db row a text1 fb1
             n1 Howner Hstored Huniq Ht1 Hi1 Hr1).
  rewrite (@grade_submission_run int env' u submission_id db row a text2 fb2
             n2 Howner Hstored Huniq Ht2 Hi2 Hr2).
  cbn [snd].
  set (row1 := Submission.with_feedback (Some fb1)
                 (Submission.with_points (Some n1) row)).
  set (db1 := with_submissions
                (replace_row Submission.id submission_id row1 (submissions db))
                db).
  destruct Howner as [Hrole [Hrow [Ha [c [Hc Hteacher]]]]].
  unfold submission_or_404 in Hrow. injection Hrow as Hrow.
  pose proof (get_object_or_404_Ok _ _ Hrow) as [Hin Hpk].
  apply is_pk_true in Hpk.
  assert (Hid1 : Submission.id row1 = Some submission_id)
    by (subst row1; destruct row; exact Hpk).
  assert (Howner1 : grades u submission_id db1 row1 a).
  { split; [assumption |]. split; [| split].
    - unfold submission_or_404. subst db1. cbn [submissions with_submissions].
      now rewrite (@get_replace_row _ Submission.id submission_id row1 row
                     (submissions db) Hid1 Hrow).
    - unfold Assignment_by_pk in *. injection Ha as Ha.
      subst db1 row1. destruct row. cbn in *. now rewrite Ha.
    - exists c. split; [| assumption]. unfold Class_by_pk in *.
      injection Hc as Hc. subst db1. cbn. now rewrite Hc. }
  assert (Hstored1 : stored row1) by (subst row1; destruct row; exact Hstored).
  assert (Huniq1 : one_per_pair db1).
  { intros r r' Hr Hr' Hpair. subst db1.
    cbn [submissions with_submissions] in Hr, Hr'. unfold replace_row in *.
    apply in_map_iff in Hr. apply in_map_iff in Hr'.
    destruct Hr as [x [<- Hx]], Hr' as [y [<- Hy]].
    assert (Hsame : forall z, same_pair row1 z = same_pair row z)
      by (intros z; subst row1; destruct row; reflexivity).
    assert (Hsame' : forall z, same_pair z row1 = same_pair z row)
      by (intros z; subst row1; destruct row; reflexivity).
    destruct (is_pk submission_id (Submission.id x)) eqn:Ex,
             (is_pk submission_id (Submission.id y)) eqn:Ey.
    - reflexivity.
    - rewrite Hsame in Hpair. rewrite Hid1, <- Hpk. now apply Huniq.
    - rewrite Hsame' in Hpair. rewrite Hid1, <- Hpk. symmetry.
      apply (Huniq row x); try assumption.
      unfold same_pair in *. apply andb_true_iff in Hpair.
      destruct Hpair as [H1 H2]. apply Z.eqb_eq in H1. apply Z.eqb_eq in H2.
      now rewrite H1, H2, !Z.eqb_refl.
    - now apply Huniq. }
  rewrite (@grade_submission_run int env' u submission_id db1 row1 a text2
             fb2 n2 Howner1 Hstored1 Huniq1 Ht2 Hi2 Hr2).
  subst db1. cbn [submissions with_submissions].
  rewrite (@replace_row_twice _ Submission.id submission_id row1 _
             (submissions db) Hid1).
  subst row1. destruct row; reflexivity.
Qed.

Lemma grade_submission_again_witness :
  let grade text fb :=
    grade_submission PyInt.int Sample.env0
      (Sample.as_ Sample.teacher1
         (POST {| post_points := Some text; post_feedback := Some fb |})) 1 in
  grade "70" "Better" (snd (grade "95" "Excellent work!" Sample.db0))
  = grade "70" "Better" Sample.db0.
Proof.
  apply (@grade_submission_again PyInt.int Sample.env0 Sample.env0
           Sample.teacher1 1 Sample.db0 Sample.submission1 Sample.assignment1
           "95" "Excellent work!" "70" "Better" 95 70);
    try reflexivity; try discriminate; try (simpl; lia).
  - repeat split. exists Sample.class1. split; reflexivity.
  - split; discriminate.
  - apply sample_one_per_pair.
Defined.

(** ** Answering a question *)

Lemma has_answer_false (question_id : Z) (db : DB) :
  has_answer question_id db = (Ok false, db) <->
  exists_ (fun a => Answer.question a =? question_id) (answers db) = false.
Proof.
  unfold has_answer, get. split.
  - intros H. destruct (filter _ (answers db)) as [| x [| y l]] eqn:E;
      try discriminate.
    destruct (exists_ _ (answers db)) eqn:Ex; [| reflexivity].
    apply exists_true in Ex. destruct Ex as [a [Hin Hp]].
    assert (Ha : In a (filter (fun a => Answer.question a =? question_id)
                          (answers db))) by (apply filter_In; auto).
    rewrite E in Ha. contradiction.
  - intros H. rewrite filter_nil; [reflexivity |].
    now apply exists_false.
Qed.

Lemma has_answer_reads (question_id : Z) (db db' : DB) (r : result bool) :
  has_answer question_id db = (r, db') -> db' = db.
Proof.
  unfold has_answer.
  destruct (get _ (answers db)) as [x | [] |]; now intros [= _ <-].
Qed.

Lemma answer_question_owner (env : Env) (u : User.t) (question_id : Z)
  (db : DB) (q : Question.t) (m : http_method (option string)) :
  owns_question u question_id db q ->
  answer_question env {| user := Some u; method := m |} question_id db
  = (let* answered := has_answer question_id in
     if (answered : bool)
     then ret (answer (redirect (lesson_detail (Question.lesson q)))
                 warning "This question has already been answered.")
     else
       match m with
       | POST (Some answer_text) =>
           Answer_create env question_id (User.id u) answer_text ;;;
           ret (answer (redirect (lesson_detail (Question.lesson q)))
                  success "Answer posted successfully!")
       | POST None => ret (page "core/answer_question.html" [])
       | GET => ret (page "core/answer_question.html" [])
       end)%db db.
Proof.
  intros [Hrole [Hq [l [c [Hl [Hc Hteacher]]]]]].
  unfold answer_question, teacher_required. cbn [user method].
  rewrite (role_check _ Hrole). unfold answer_question_view.
  unfold mbind at 1. unfold query at 1. rewrite Hq.
  unfold mbind at 1. unfold lift at 1.
  unfold mbind at 1. rewrite Hl. unfold mbind at 1. rewrite Hc.
  now rewrite (is_user_owner _ Hteacher).
Qed.

(** X20. A question is answered once. When the teacher of the class
    posts an answer to a question that has none, the answer is appended
    with that question and that teacher; from then on every request to
    answer the same question, whatever it carries, gets the warning
    "This question has already been answered." and changes nothing. *)
Theorem answer_question_once (env env' : Env) (u : User.t) (question_id : Z)
  (db : DB) (q : Question.t) (answer_text : string)
  (m : http_method (option string)) :
  owns_question u question_id db q ->
  has_answer question_id db = (Ok false, db) ->
  let db' :=
    with_answers
      (answers db ++ [new_answer env u question_id answer_text db]) db in
  answer_question env
    {| user := Some u; method := POST (Some answer_text) |} question_id db
  = (Ok (answer (redirect (lesson_detail (Question.lesson q))) success
           "Answer posted successfully!"), db')
  /\ answer_question env' {| user := Some u; method := m |} question_id db'
     = (Ok (answer (redirect (lesson_detail (Question.lesson q))) warning
              "This question has already been answered."), db').
Proof.
  intros Hown Hnone db'.
  pose proof (proj1 (has_answer_false question_id db) Hnone) as Hfree.
  assert (Hown' : owns_question u question_id db' q).
  { destruct Hown as [Hrole [Hq [l [c [Hl [Hc Hteacher]]]]]].
    split; [assumption |]. split; [exact Hq |].
    exists l, c. unfold Lesson_by_pk, Class_by_pk in *.
    injection Hl as Hl. injection Hc as Hc. subst db'. cbn.
    rewrite Hl, Hc. auto. }
  split.
  - rewrite (answer_question_owner env _ Hown). unfold mbind at 1.
    rewrite Hnone. unfold mbind at 1. unfold Answer_create.
    rewrite Hfree. reflexivity.
  - rewrite (answer_question_owner env' m Hown'). unfold mbind at 1.
    assert (Hyes : has_answer question_id db' = (Ok true, db')).
    { unfold has_answer, get. subst db'. cbn [answers with_answers].
      rewrite filter_app.
      rewrite (filter_nil _ _ (exists_false _ _ Hfree)).
      cbn [app filter new_answer Answer.question].
      now rewrite Z.eqb_refl. }
    now rewrite Hyes.
Qed.

Lemma answer_question_once_witness :
  let db' :=
    with_answers
      (answers Sample2.db1
         ++ [new_answer Sample.env0 Sample.teacher1 2 "No." Sample2.db1])
      Sample2.db1 in
  answer_question Sample.env0
    (Sample.as_ Sample.teacher1 (POST (Some "No."))) 2 Sample2.db1
  = (Ok (answer (redirect (lesson_detail 1)) success
           "Answer posted successfully!"), db')
  /\ answer_question Sample.env0
       (Sample.as_ Sample.teacher1 (POST (Some "Yes."))) 2 db'
     = (Ok (answer (redirect (lesson_detail 1)) warning
              "This question has already been answered."), db').
Proof.
  apply (@answer_question_once Sample.env0 Sample.env0 Sample.teacher1 2
           Sample2.db1 Sample2.question2 "No." (POST (Some "Yes."))).
  - repeat split. exists Sample.lesson1, Sample.class1. repeat split.
  - reflexivity.
Defined.

(** X21. Whatever the request, [answer_question] keeps the answers at one
    per question: the one-to-one field between answer and question is
    never put to the test by a second answer. *)
Theorem answer_question_keeps_one_answer (env : Env)
  (request : Request (option string)) (question_id : Z) (db db' : DB)
  (r : result reply) :
  NoDup (answered_questions db) ->
  answer_question env request question_id db = (r, db') ->
  NoDup (answered_questions db').
Proof.
  intros Hnd. unfold answer_question, teacher_required.
  destruct (user request) as [u |]; [| now intros [= <- <-]].
  destruct (negb _); [now intros [= <- <-] |].
  unfold answer_question_view.
  unfold mbind at 1. unfold query at 1. unfold mbind at 1. unfold lift at 1.
  destruct (get_object_or_404 _ (questions db)) as [q | e |];
    try now intros [= <- <-].
  unfold mbind at 1.
  destruct (Lesson_by_pk (Question.lesson q) db) as [[l | e |] db0] eqn:Hl;
    unfold Lesson_by_pk in Hl; injection Hl as _ <-;
    try now intros [= <- <-].
  unfold mbind at 1.
  destruct (Class_by_pk (Lesson.class_lesson l) db) as [[c | e |] db0] eqn:Hc;
    unfold Class_by_pk in Hc; injection Hc as _ <-;
    try now intros [= <- <-].
  destruct (negb _); [now intros [= <- <-] |].
  unfold mbind at 1.
  destruct (has_answer question_id db) as [[[] | e |] db0] eqn:Hhas;
    apply has_answer_reads in Hhas; subst db0; try now intros [= <- <-].
  destruct (method request) as [| [answer_text |]]; try now intros [= <- <-].
  unfold mbind at 1. unfold Answer_create.
  case_if E; [now intros [= <- <-] |].
  unfold ret. intros [= <- <-].
  unfold answered_questions. cbn [answers with_answers].
  rewrite map_app. apply NoDup_app; [assumption | |].
  - constructor; [intros [] | constructor].
  - intros k Hk [<- | []]. apply in_map_iff in Hk.
    destruct Hk as [a [Ha Hin]]. apply (exists_false _ _ E) in Hin.
    simpl in *. rewrite Ha, Z.eqb_refl in Hin. discriminate.
Qed.

Lemma answer_question_keeps_one_answer_witness :
  NoDup (answered_questions
           (snd (answer_question Sample.env0
                   (Sample.as_ Sample.teacher1 (POST (Some "No."))) 2
                   Sample2.db1))).
Proof.
  eapply (@answer_question_keeps_one_answer Sample.env0
            (Sample.as_ Sample.teacher1 (POST (Some "No."))) 2 Sample2.db1).
  - repeat constructor. intros [].
  - apply surjective_pairing.
Defined.
(** ** File names *)

Lemma substring_all (s : string) : substring 0 (String.length s) s = s.
Proof. induction s as [| c s IH]; simpl; [reflexivity | now rewrite IH]. Qed.

Lemma append_empty (s : string) : s ++ "" = s.
Proof. induction s as [| c s IH]; simpl; [reflexivity | now rewrite IH]. Qed.

Lemma substring_join (s : string) :
  forall n, substring 0 n s ++ substring n (String.length s - n) s = s.
Proof.
  induction s as [| c s IH]; intros [| n]; simpl; try reflexivity.
  - now rewrite substring_all.
  - now rewrite IH.
Qed.

Lemma splitext_loop_join (fuel : nat) (p : string) (i j : Z) :
  fst (splitext_loop fuel p i j) ++ snd (splitext_loop fuel p i j) = p.
Proof.
  revert i. induction fuel as [| fuel IH]; intros i; simpl;
    [apply append_empty |].
  destruct (i <? j); [| apply append_empty].
  destruct (negb _); [| apply IH].
  simpl. unfold Str.upto, Str.from. apply substring_join.
Qed.

Lemma splitext_join (p : string) : fst (splitext p) ++ snd (splitext p) = p.
Proof.
  unfold splitext. destruct (_ >? _); [apply splitext_loop_join |].
  apply append_empty.
Qed.

Lemma lower_char_dot (c : ascii) : Str.lower_char c = "."%char -> c = "."%char.
Proof.
  destruct c as [[] [] [] [] [] [] [] []]; vm_compute; intros H;
    try reflexivity; discriminate H.
Qed.

(** X22. A file name that passes the extension check ends in its
    extension: the name is a root followed by an extension that starts
    with a dot and, lower-cased, is one of the allowed ones. *)
Theorem accepted_name_ends_in_extension (f : UploadedFile) :
  validate_file_extension f = Ok tt ->
  exists root rest,
    name f = root ++ String "." rest
    /\ In (Str.lower (String "." rest)) valid_extensions.
Proof.
  intros H. apply validate_file_extension_ok in H.
  pose proof (splitext_join (name f)) as Hjoin.
  destruct (snd (splitext (name f))) as [| c rest] eqn:E.
  - simpl in H. intuition discriminate.
  - assert (Hc : c = "."%char).
    { apply lower_char_dot. simpl in H.
      repeat (destruct H as [H | H]; [now injection H |]). contradiction. }
    subst c. exists (fst (splitext (name f))), rest. split; auto.
Qed.

Lemma accepted_name_ends_in_extension_witness :
  exists root rest,
    "slides.PPTX" = root ++ String "." rest
    /\ In (Str.lower (String "." rest)) valid_extensions.
Proof.
  apply (@accepted_name_ends_in_extension Sample2.slides). reflexivity.
Defined.

Section CaseMap.

(** A map on characters that, like [upper] and [lower], moves letters
    only within their case pair. *)
Variable f : ascii -> ascii.
Hypothesis keeps_dot : forall c, Ascii.eqb (f c) "." = Ascii.eqb c ".".
Hypothesis keeps_slash : forall c, Ascii.eqb (f c) "/" = Ascii.eqb c "/".
Hypothesis same_lower : forall c, Str.lower_char (f c) = Str.lower_char c.

Lemma rfind_from_map (c : ascii) (s : string) :
  (forall d, Ascii.eqb (f d) c = Ascii.eqb d c) ->
  forall i found,
    Str.rfind_from c (Str.map f s) i found = Str.rfind_from c s i found.
Proof.
  intros Hc. induction s as [| d s IH]; intros i found; simpl;
    [reflexivity |].
  now rewrite Hc, IH.
Qed.

Lemma length_map (s : string) : String.length (Str.map f s) = String.length s.
Proof. induction s as [| c s IH]; simpl; [reflexivity | now rewrite IH]. Qed.

Lemma substring_map (s : string) :
  forall n m, substring n m (Str.map f s) = Str.map f (substring n m s).
Proof.
  induction s as [| c s IH]; intros [| n] [| m]; simpl; try reflexivity;
    now rewrite IH.
Qed.

Lemma is_dot_map (s : string) :
  String.eqb (Str.map f s) "." = String.eqb s ".".
Proof.
  destruct s as [| c [| c' s]]; simpl; try reflexivity.
  - now rewrite keeps_dot.
  - rewrite keeps_dot. now destruct (Ascii.eqb c ".").
Qed.

Lemma splitext_loop_map (fuel : nat) (p : string) (j : Z) :
  forall i,
    splitext_loop fuel (Str.map f p) i j
    = (Str.map f (fst (splitext_loop fuel p i j)),
       Str.map f (snd (splitext_loop fuel p i j))).
Proof.
  induction fuel as [| fuel IH]; intros i; simpl; [reflexivity |].
  destruct (i <? j); [| reflexivity].
  unfold Str.at_. rewrite substring_map, is_dot_map.
  destruct (negb _); [| apply IH].
  unfold Str.upto, Str.from. simpl.
  now rewrite length_map, !substring_map.
Qed.

Lemma splitext_map (p : string) :
  splitext (Str.map f p)
  = (Str.map f (fst (splitext p)), Str.map f (snd (splitext p))).
Proof.
  unfold splitext, Str.rfind.
  rewrite !rfind_from_map by assumption.
  destruct (_ >? _); [apply splitext_loop_map | reflexivity].
Qed.

Lemma lower_map (s : string) : Str.lower (Str.map f s) = Str.lower s.
Proof.
  unfold Str.lower. induction s as [| c s IH]; simpl;
    [reflexivity | now rewrite same_lower, IH].
Qed.

Lemma validate_file_map (n : string) (z : Z) :
  validate_file {| name := Str.map f n; size := z |}
  = validate_file {| name := n; size := z |}.
Proof.
  unfold validate_file, validate_file_extension, validate_file_size.
  cbn [name size]. rewrite splitext_map. cbn [snd]. now rewrite lower_map.
Qed.

End CaseMap.

(** X23. Validation does not look at the case of the letters A to Z in
    the file name: two files of the same size whose names differ only
    in the case of these letters, anywhere in the name, are both
    accepted or are both refused with the same error. *)
Theorem validate_file_ignores_case (n n' : string) (z : Z) :
  Str.lower n = Str.lower n' ->
  validate_file {| name := n; size := z |}
  = validate_file {| name := n'; size := z |}.
Proof.
  intros H.
  assert (Hlow : forall m,
             validate_file {| name := Str.lower m; size := z |}
             = validate_file {| name := m; size := z |}).
  { intros m. apply validate_file_map;
      intros c; destruct c as [[] [] [] [] [] [] [] []]; reflexivity. }
  now rewrite <- (Hlow n), <- (Hlow n'), H.
Qed.

Lemma validate_file_ignores_case_witness :
  validate_file {| name := "Report.Final.PDF"; size := 2048 |}
  = validate_file {| name := "rEPORT.final.pdf"; size := 2048 |}
  /\ validate_file {| name := "Setup.EXE"; size := 2048 |}
     = validate_file {| name := "setup.exe"; size := 2048 |}.
Proof.
  split; apply validate_file_ignores_case; reflexivity.
Defined.

(** ** Requests that only read *)

Lemma teacher_required_GET {P : Type} (view_func : View P)
  (request : Request P) (db db' : DB) (r : result reply) :
  (forall u r0 db0, view_func u (method request) db = (r0, db0) -> db0 = db) ->
  teacher_required view_func request db = (r, db') -> db' = db.
Proof.
  intros Hview. unfold teacher_required.
  destruct (user request) as [u |]; [| now intros [= _ <-]].
  destruct (negb _); [now intros [= _ <-] |]. apply Hview.
Qed.

Lemma student_required_GET {P : Type} (view_func : View P)
  (request : Request P) (db db' : DB) (r : result reply) :
  (forall u r0 db0, view_func u (method request) db = (r0, db0) -> db0 = db) ->
  student_required view_func request db = (r, db') -> db' = db.
Proof.
  intros Hview. unfold student_required.
  destruct (user request) as [u |]; [| now intros [= _ <-]].
  destruct (negb _); [now intros [= _ <-] |]. apply Hview.
Qed.

(** Runs a view on a GET request to its end. *)
Ltac read_only :=
  unfold mbind, ret, lift, query, raise, owned_class, lesson_or_404,
    assignment_or_404, submission_or_404, Class_by_pk, Assignment_by_pk,
    Lesson_by_pk, has_answer;
  repeat (case_inner; cbn [fst snd negb]);
  now intros [= _ <-].

(** X24. A GET request writes nothing: whoever sends it and whatever it
    names, the views for joining, creating, editing and deleting a class,
    editing and deleting a lesson or an assignment, submitting, grading
    and answering leave the database as it was. *)
Theorem GET_writes_nothing (int : string -> option Z) (env : Env)
  (who : option User.t) (i : Z) (db : DB) :
  snd (join_class env {| user := who; method := GET |} db) = db
  /\ snd (create_class env {| user := who; method := GET |} db) = db
  /\ snd (edit_class env {| user := who; method := GET |} i db) = db
  /\ snd (delete_class env {| user := who; method := GET |} i db) = db
  /\ snd (edit_lesson env {| user := who; method := GET |} i db) = db
  /\ snd (delete_lesson {| user := who; method := GET |} i db) = db
  /\ snd (edit_assignment env {| user := who; method := GET |} i db) = db
  /\ snd (delete_assignment {| user := who; method := GET |} i db) = db
  /\ snd (submit_assignment env {| user := who; method := GET |} i db) = db
  /\ snd (grade_submission int env {| user := who; method := GET |} i db) = db
  /\ snd (answer_question env {| user := who; method := GET |} i db) = db.
Proof.
  repeat split;
    match goal with
    | |- snd ?run = db =>
        destruct run as [r db'] eqn:Hrun; cbn [snd]; revert Hrun
    end.
  - apply student_required_GET. intros u r0 db0. cbn [method].
    unfold join_class_view. read_only.
  - apply teacher_required_GET. intros u r0 db0. cbn [method].
    unfold create_class_view. read_only.
  - apply teacher_required_GET. intros u r0 db0. cbn [method].
    unfold edit_class_view. read_only.
  - apply teacher_required_GET. intros u r0 db0. cbn [method].
    unfold delete_class_view. read_only.
  - apply teacher_required_GET. intros u r0 db0. cbn [method].
    unfold edit_lesson_view. read_only.
  - apply teacher_required_GET. intros u r0 db0. cbn [method].
    unfold delete_lesson_view. read_only.
  - apply teacher_required_GET. intros u r0 db0. cbn [method].
    unfold edit_assignment_view. read_only.
  - apply teacher_required_GET. intros u r0 db0. cbn [method].
    unfold delete_assignment_view. read_only.
  - apply student_required_GET. intros u r0 db0. cbn [method].
    unfold submit_assignment_view. read_only.
  - apply teacher_required_GET. intros u r0 db0. cbn [method].
    unfold grade_submission_view. read_only.
  - apply teacher_required_GET. intros u r0 db0. cbn [method].
    unfold answer_question_view. read_only.
Qed.
(** ** Counting questions *)

Lemma filter_length_split {A : Type} (g r : A -> bool) (l : list A) :
  List.length (filter g l)
  = (List.length (filter g (filter r l))
     + List.length (filter (fun x => g x && negb (r x)) l))%nat.
Proof.
  induction l as [| x l IH]; [reflexivity |].
  cbn [filter]. destruct (r x) eqn:Er, (g x) eqn:Eg; cbn [filter negb andb];
    rewrite ?Eg; cbn [List.length]; lia.
Qed.

Lemma get_object_or_404_filter {A : Type} (p : A -> bool) (rows : list A)
  (x : A) :
  get_object_or_404 p rows = Ok x -> filter p rows = [x].
Proof.
  unfold get_object_or_404, get.
  destruct (filter p rows) as [| y [| z l]]; try discriminate.
  now intros [= ->].
Qed.

(** X25. An answer is counted: when the teacher of the class answers a
    question that had no answer, the number of unanswered questions of
    its lesson goes down by one, and the number of its questions stays
    the same. *)
Theorem answer_question_counts (env : Env) (u : User.t) (question_id : Z)
  (db : DB) (q : Question.t) (l : Lesson.t) (answer_text : string) :
  owns_question u question_id db q ->
  Lesson_by_pk (Question.lesson q) db = (Ok l, db) ->
  has_answer question_id db = (Ok false, db) ->
  exists r db',
    answer_question env
      {| user := Some u; method := POST (Some answer_text) |} question_id db
    = (Ok r, db')
    /\ Lesson_get_unanswered_questions_count l db'
       = Lesson_get_unanswered_questions_count l db - 1
    /\ Lesson_get_questions_count l db' = Lesson_get_questions_count l db.
Proof.
  intros Hown Hl Hnone.
  pose proof (proj1 (has_answer_false question_id db) Hnone) as Hfree.
  rewrite (answer_question_owner env _ Hown). unfold mbind at 1.
  rewrite Hnone. unfold mbind at 1. unfold Answer_create. rewrite Hfree.
  unfold ret. do 2 eexists. split; [reflexivity |].
  split; [| reflexivity].
  destruct Hown as [_ [Hq _]].
  pose proof (get_object_or_404_filter _ _ Hq) as Hfilter.
  pose proof (get_object_or_404_Ok _ _ Hq) as [Hin Hpk].
  apply is_pk_true in Hpk.
  unfold Lesson_by_pk in Hl. injection Hl as Hl. apply get_Ok in Hl.
  destruct Hl as [_ Hlesson].
  unfold Lesson_get_unanswered_questions_count, count.
  cbn [questions answers with_answers].
  set (g := fun x : Question.t =>
              is_pk (Question.lesson x) (Lesson.id l)
              && negb (exists_ (fun a => is_pk (Answer.question a)
                                               (Question.id x)) (answers db))).
  set (r := fun x : Question.t => is_pk question_id (Question.id x)).
  rewrite (filter_ext _ (fun x => g x && negb (r x))).
  2: { intros x. subst g r. cbv beta. unfold exists_.
       rewrite existsb_app. cbn [existsb Answer.question]. rewrite orb_false_r.
       now rewrite negb_orb, andb_assoc. }
  rewrite (filter_length_split g r (questions db)).
  fold r in Hfilter. rewrite Hfilter.
  assert (Hg : g q = true).
  { subst g. cbv beta. rewrite Hlesson, Hpk. cbn [andb].
    rewrite (exists_ext _ (fun a => Answer.question a =? question_id));
      [now rewrite Hfree |].
    intros a. reflexivity. }
  cbn [filter]. rewrite Hg. cbn [List.length]. lia.
Qed.

Lemma answer_question_counts_witness :
  exists r db',
    answer_question Sample.env0
      (Sample.as_ Sample.teacher1 (POST (Some "No."))) 2 Sample2.db1
    = (Ok r, db')
    /\ Lesson_get_unanswered_questions_count Sample.lesson1 db' = 1 - 1
    /\ Lesson_get_questions_count Sample.lesson1 db' = 2.
Proof.
  apply (@answer_question_counts Sample.env0 Sample.teacher1 2 Sample2.db1
           Sample2.question2 Sample.lesson1 "No.").
  - repeat split. exists Sample.lesson1, Sample.class1. repeat split.
  - reflexivity.
  - reflexivity.
Defined.
